(** * UpLink: payment-gated file access and commission split

    A shallow embedding of the payment controller
    ([createPaymentOrder], [paymentWebhook] and its three handlers,
    [processCreatorPayout]), of the download gate [getDownloadUrl] of the
    file controller, and of the parts of the Mongoose schemas of [Payment],
    [File] and [User] these functions rely on; further, of
    [verifyPaymentStatus], of the preview handlers [getEmbeddedPreview] and
    [getPublicPreview], and of the instance methods of the payment model.

    Conventions of the embedding:
    - a JavaScript [number] is an element of a [JsNumber] structure; the
      structure the server runs on is IEEE binary64 ([float]), and the same
      code is also read over exact rationals ([Q]);
    - the MongoDB collections are lists in insertion order, a document
      carrying its [_id];
    - [async] functions are computations of the monad [M], which threads
      the [World] and propagates thrown exceptions; [try]/[catch] is
      [try_catch];
    - [Date.now()], [new Date()] and [Math.random()] read the counter
      [tick] of the world and advance it;
    - the winston logger appends to [log]; emoji prefixes of the messages
      are left out, and amounts are not rendered into the entries;
    - of the checks a [save()] runs, the enum of [paymentMethod] and the
      three unique sparse indexes are modelled; the [required] paths and
      the minimum of [amount] hold of every document the controllers build;
    - the bookkeeping field [updatedAt] of [timestamps: true] is not
      modelled;
    - the external services (the HTTP call to the gateway, the presigned
      URLs of the storage service) are parameters that return or throw. *)

From Stdlib Require Import List String Ascii Bool Arith ZArith QArith Qround Lia Lqa.
From Stdlib Require Import DecimalString.
From Stdlib Require Import Floats.
Import ListNotations.
Close Scope Q_scope.

Set Implicit Arguments.

(** ** JavaScript numbers *)

(** The operations on [number] that the controllers use. *)
Class JsNumber (N : Type) : Type := {
  num_of_Z : Z -> N;
  num_add : N -> N -> N;
  num_sub : N -> N -> N;
  num_mul : N -> N -> N;
  num_div : N -> N -> N;
  (** [Math.round] *)
  num_round : N -> N;
  (** [x <= y] and [x > y] *)
  num_leb : N -> N -> bool;
  num_gtb : N -> N -> bool;
  (** [!!x]: neither [0] nor [NaN] *)
  num_truthy : N -> bool;
  (** [x === y] *)
  num_eqb : N -> N -> bool
}.

Module JsFloat.

Local Open Scope float_scope.

(** A non-negative integer below [2^53] as a double; every intermediate
    value is an integer of that range, so each step is exact. *)
Fixpoint of_pos (p : positive) : float :=
  match p with
  | xH => 1
  | xO q => 2 * of_pos q
  | xI q => 2 * of_pos q + 1
  end.

Definition of_Z (z : Z) : float :=
  match z with
  | Z0 => 0
  | Zpos p => of_pos p
  | Zneg p => - of_pos p
  end.

(** [Math.round(x)]: the integer closest to [x], ties towards
    [+Infinity]; [NaN], the infinities and the zeros are returned as they
    are, and a result of zero keeps the sign of a negative argument.
    A finite [x] is [(-1)^s * m * 2^e]: for [e >= 0] it is an integer;
    otherwise the result is [floor ((2 * (+-m) + 2^-e) / 2^(1-e))]. *)
Definition round (x : float) : float :=
  match Prim2SF x with
  | S754_finite s m e =>
      if (0 <=? e)%Z then x
      else
        let d := Z.pow 2 (- e) in
        let sm := if s then Zneg m else Zpos m in
        let n := Z.div (2 * sm + d) (2 * d) in
        if (n =? 0)%Z then (if s then neg_zero else zero) else of_Z n
  | _ => x
  end.

Definition truthy (x : float) : bool := negb (is_nan x || is_zero x).

End JsFloat.

(** IEEE binary64, the [number] of the JavaScript runtime. *)
#[export] Instance float_JsNumber : JsNumber float := {
  num_of_Z := JsFloat.of_Z;
  num_add := PrimFloat.add;
  num_sub := PrimFloat.sub;
  num_mul := PrimFloat.mul;
  num_div := PrimFloat.div;
  num_round := JsFloat.round;
  num_leb := PrimFloat.leb;
  num_gtb := fun x y => PrimFloat.ltb y x;
  num_truthy := JsFloat.truthy;
  num_eqb := PrimFloat.eqb
}.

Module JsExact.

Local Open Scope Q_scope.

(** [Math.round] over the rationals: [floor (x + 1/2)]. *)
Definition round (x : Q) : Q := inject_Z (Qfloor (x + (1 # 2))).

End JsExact.

(** The same operations without rounding error. *)
#[export] Instance Q_JsNumber : JsNumber Q := {
  num_of_Z := inject_Z;
  num_add := Qplus;
  num_sub := Qminus;
  num_mul := Qmult;
  num_div := Qdiv;
  num_round := JsExact.round;
  num_leb := Qle_bool;
  num_gtb := fun x y => negb (Qle_bool x y);
  num_truthy := fun x => negb (Qeq_bool x 0);
  num_eqb := Qeq_bool
}.

(** ** Commission split (createPaymentOrder, "Calculate commission split") *)

Section Commission.

Context {N : Type} `{JsNumber N}.

(** [Math.round(x * 100) / 100] with [x] already multiplied out by the
    caller, as both lines of the source do. *)
Definition round_cents (x100 : N) : N :=
  num_div (num_round x100) (num_of_Z 100).

(** [platformCommission = Math.round(amount * RATE * 100) / 100] *)
Definition platformCommission_of (amount rate : N) : N :=
  round_cents (num_mul (num_mul amount rate) (num_of_Z 100)).

(** [creatorShare = Math.round((amount - platformCommission) * 100) / 100] *)
Definition creatorShare_of (amount platform : N) : N :=
  round_cents (num_mul (num_sub amount platform) (num_of_Z 100)).

Definition commissionSplit (amount rate : N) : N * N :=
  let platformCommission := platformCommission_of amount rate in
  let creatorShare := creatorShare_of amount platformCommission in
  (platformCommission, creatorShare).

End Commission.

(** ** Documents *)

(** An [ObjectId]; the source compares them through [toString()], which is
    injective. *)
Definition Id := nat.

(** Milliseconds since the epoch. *)
Definition Time := nat.

(** [status] of the payment schema. *)
Inductive PaymentStatus : Set :=
  pending | processing | completed | failed | refunded.

(** [payoutStatus] of the payment schema. *)
Inductive PayoutStatus : Set :=
  payout_pending | payout_processing | payout_completed | payout_failed
| not_required.

(** [status] of the file schema. *)
Inductive FileStatus : Set :=
  uploading | file_processing | ready | delivered | file_failed.

Definition PaymentStatus_eqb (a b : PaymentStatus) : bool :=
  match a, b with
  | pending, pending | processing, processing | completed, completed
  | failed, failed | refunded, refunded => true
  | _, _ => false
  end.

Module User.
Record t : Type := mk {
  _id : Id;
  name : string;
  email : string;
  phone : option string;
  upiId : option string
}.
End User.

Module File.
Record t (N : Type) : Type := mk {
  _id : Id;
  creatorId : Id;
  originalName : string;
  s3Key : string;
  status : FileStatus;
  isPublic : bool;
  price : option N;
  currency : option string
}.

Definition with_status N (f : t N) (v : FileStatus) : t N :=
  mk (_id f) (creatorId f) (originalName f) (s3Key f) v (isPublic f)
     (price f) (currency f).
End File.

Module Payment.
Record t (N : Type) : Type := mk {
  _id : Id;
  fileId : Id;
  creatorId : Id;
  clientId : Id;
  amount : N;
  currency : string;
  status : PaymentStatus;
  paymentMethod : string;
  cashfreeOrderId : option string;
  cashfreePaymentId : option string;
  transactionId : option string;
  failureReason : option string;
  paidAt : option Time;
  platformCommission : N;
  creatorShare : N;
  payoutStatus : PayoutStatus;
  payoutId : option string;
  payoutTransferId : option string;
  payoutAt : option Time;
  payoutFailureReason : option string;
  creatorUpiPhone : option string;
  createdAt : Time
}.

Section Setters.
Variable N : Type.
Implicit Type p : t N.

Definition with_status p v :=
  let '(mk i f c cl a cu _ pm co cp tx fr pa pc cs ps pi pt po pf up ca) := p in
  mk i f c cl a cu v pm co cp tx fr pa pc cs ps pi pt po pf up ca.
Definition with_paymentMethod p v :=
  let '(mk i f c cl a cu st _ co cp tx fr pa pc cs ps pi pt po pf up ca) := p in
  mk i f c cl a cu st v co cp tx fr pa pc cs ps pi pt po pf up ca.
Definition with_cashfreeOrderId p v :=
  let '(mk i f c cl a cu st pm _ cp tx fr pa pc cs ps pi pt po pf up ca) := p in
  mk i f c cl a cu st pm v cp tx fr pa pc cs ps pi pt po pf up ca.
Definition with_cashfreePaymentId p v :=
  let '(mk i f c cl a cu st pm co _ tx fr pa pc cs ps pi pt po pf up ca) := p in
  mk i f c cl a cu st pm co v tx fr pa pc cs ps pi pt po pf up ca.
Definition with_transactionId p v :=
  let '(mk i f c cl a cu st pm co cp _ fr pa pc cs ps pi pt po pf up ca) := p in
  mk i f c cl a cu st pm co cp v fr pa pc cs ps pi pt po pf up ca.
Definition with_failureReason p v :=
  let '(mk i f c cl a cu st pm co cp tx _ pa pc cs ps pi pt po pf up ca) := p in
  mk i f c cl a cu st pm co cp tx v pa pc cs ps pi pt po pf up ca.
Definition with_paidAt p v :=
  let '(mk i f c cl a cu st pm co cp tx fr _ pc cs ps pi pt po pf up ca) := p in
  mk i f c cl a cu st pm co cp tx fr v pc cs ps pi pt po pf up ca.
Definition with_payoutStatus p v :=
  let '(mk i f c cl a cu st pm co cp tx fr pa pc cs _ pi pt po pf up ca) := p in
  mk i f c cl a cu st pm co cp tx fr pa pc cs v pi pt po pf up ca.
Definition with_payoutId p v :=
  let '(mk i f c cl a cu st pm co cp tx fr pa pc cs ps _ pt po pf up ca) := p in
  mk i f c cl a cu st pm co cp tx fr pa pc cs ps v pt po pf up ca.
Definition with_payoutTransferId p v :=
  let '(mk i f c cl a cu st pm co cp tx fr pa pc cs ps pi _ po pf up ca) := p in
  mk i f c cl a cu st pm co cp tx fr pa pc cs ps pi v po pf up ca.
Definition with_payoutAt p v :=
  let '(mk i f c cl a cu st pm co cp tx fr pa pc cs ps pi pt _ pf up ca) := p in
  mk i f c cl a cu st pm co cp tx fr pa pc cs ps pi pt v pf up ca.
Definition with_payoutFailureReason p v :=
  let '(mk i f c cl a cu st pm co cp tx fr pa pc cs ps pi pt po _ up ca) := p in
  mk i f c cl a cu st pm co cp tx fr pa pc cs ps pi pt po v up ca.
Definition with_createdAt p v :=
  let '(mk i f c cl a cu st pm co cp tx fr pa pc cs ps pi pt po pf up _) := p in
  mk i f c cl a cu st pm co cp tx fr pa pc cs ps pi pt po pf up v.
End Setters.
End Payment.

(** ** Strings and truthiness *)

(** [!!s] for a possibly undefined string: defined and not empty. *)
Definition truthy_str (s : option string) : bool :=
  match s with
  | Some EmptyString | None => false
  | Some _ => true
  end.

(** [a || b] on possibly undefined strings. *)
Definition or_str (a b : option string) : option string :=
  if truthy_str a then a else b.

(** [a || 'literal'] *)
Definition or_default (a : option string) (d : string) : string :=
  match a with
  | Some (String _ _ as s) => s
  | _ => d
  end.

Definition lower_ascii (c : ascii) : ascii :=
  let n := nat_of_ascii c in
  if (65 <=? n)%nat && (n <=? 90)%nat then ascii_of_nat (n + 32) else c.

(** [String.prototype.toLowerCase], on the ASCII letters. *)
Fixpoint toLowerCase (s : string) : string :=
  match s with
  | EmptyString => EmptyString
  | String c r => String (lower_ascii c) (toLowerCase r)
  end.

Definition is_space (c : ascii) : bool :=
  let n := nat_of_ascii c in
  (n =? 32)%nat || ((9 <=? n)%nat && (n <=? 13)%nat).

Fixpoint trim_left (s : string) : string :=
  match s with
  | String c r => if is_space c then trim_left r else s
  | EmptyString => EmptyString
  end.

Fixpoint trim_right (s : string) : string :=
  match s with
  | EmptyString => EmptyString
  | String c r =>
      match trim_right r with
      | EmptyString => if is_space c then EmptyString else String c EmptyString
      | r' => String c r'
      end
  end.

(** The [trim: true] setter of a schema path, on ASCII white space. *)
Definition trim (s : string) : string := trim_right (trim_left s).

(** A number in a template literal. *)
Definition show_nat (n : nat) : string :=
  NilEmpty.string_of_uint (Nat.to_uint n).

(** ** World, exceptions and the monad of [async] code *)

Inductive Level : Set := level_info | level_warn | level_error.

(** One call of the logger: level, message and the rendered arguments. *)
Record LogEntry : Type := Log {
  level : Level;
  message : string;
  meta : list string
}.

Record World (N : Type) : Type := mkWorld {
  payments : list (Payment.t N);
  files : list (File.t N);
  users : list User.t;
  log : list LogEntry;
  (** the next [ObjectId] to hand out *)
  next_id : Id;
  (** source of [Date.now()] and [Math.random()] *)
  tick : nat
}.

(** [error.response.data] of a failed HTTP call. *)
Record ErrorData : Type := mkErrorData {
  err_type : option string;
  err_message : option string
}.

Inductive Exn : Type :=
| TypeError (msg : string)
| ValidationError (msg : string)
| DuplicateKey (path : string)
| DocumentNotFound
| HttpError (response_data : option ErrorData) (msg : string)
| JsError (msg : string).

(** [error.message] *)
Definition exn_message (e : Exn) : string :=
  match e with
  | TypeError m | ValidationError m | JsError m => m
  | DuplicateKey p => "E11000 duplicate key error: " ++ p
  | DocumentNotFound => "No document found for query"
  | HttpError _ m => m
  end.

(** [error.response?.data] *)
Definition exn_response_data (e : Exn) : option ErrorData :=
  match e with
  | HttpError d _ => d
  | _ => None
  end.

Inductive Outcome (A : Type) : Type :=
| Return (a : A)
| Throw (e : Exn).
Arguments Throw {A} e.

(** A computation over a state [S] that returns or throws. *)
Definition M (S A : Type) : Type := S -> Outcome A * S.

Section Monad.
Context {S : Type}.

Definition ret {A} (a : A) : M S A := fun s => (Return a, s).

Definition bind {A B} (m : M S A) (k : A -> M S B) : M S B :=
  fun s =>
    match m s with
    | (Return a, s') => k a s'
    | (Throw e, s') => (Throw e, s')
    end.

Definition throw {A} (e : Exn) : M S A := fun s => (Throw e, s).

(** [try { body } catch (e) { handler e }] *)
Definition try_catch {A} (body : M S A) (handler : Exn -> M S A) : M S A :=
  fun s =>
    match body s with
    | (Return a, s') => (Return a, s')
    | (Throw e, s') => handler e s'
    end.

Definition gets {A} (f : S -> A) : M S A := fun s => (Return (f s), s).

Definition modify (f : S -> S) : M S unit := fun s => (Return tt, f s).
End Monad.

Declare Scope js_scope.
Delimit Scope js_scope with js.
Notation "x <- m ;; k" := (bind m (fun x => k))
  (at level 61, m at next level, right associativity) : js_scope.
Notation "m ;; k" := (bind m (fun _ => k))
  (at level 61, right associativity) : js_scope.
Open Scope js_scope.
Open Scope string_scope.

(** ** The collections *)

Definition opt_str_eqb (a b : option string) : bool :=
  match a, b with
  | Some x, Some y => String.eqb x y
  | None, None => true
  | _, _ => false
  end.

Section Store.
Context {N : Type}.

Definition set_payments (w : World N) v : World N :=
  mkWorld v (files w) (users w) (log w) (next_id w) (tick w).
Definition set_files (w : World N) v : World N :=
  mkWorld (payments w) v (users w) (log w) (next_id w) (tick w).
Definition set_log (w : World N) v : World N :=
  mkWorld (payments w) (files w) (users w) v (next_id w) (tick w).
Definition set_next_id (w : World N) v : World N :=
  mkWorld (payments w) (files w) (users w) (log w) v (tick w).
Definition set_tick (w : World N) v : World N :=
  mkWorld (payments w) (files w) (users w) (log w) (next_id w) v.

Definition logger (lvl : Level) (msg : string) (args : list string)
  : M (World N) unit :=
  modify (fun w => set_log w (log w ++ [Log lvl msg args])).

(** [logger.info], [logger.warn], [logger.error] *)
Definition logger_info := logger level_info.
Definition logger_warn := logger level_warn.
Definition logger_error := logger level_error.

(** [Date.now()], [new Date()] *)
Definition Date_now : M (World N) Time :=
  fun w => (Return (tick w), set_tick w (S (tick w))).

(** [Math.random().toString(36).substring(..)] *)
Definition Math_random : M (World N) string :=
  fun w => (Return (show_nat (tick w)), set_tick w (S (tick w))).

(** The first document of a collection that satisfies a filter, in the
    collection's natural order. *)
Definition Payment_findOne (q : Payment.t N -> bool)
  : M (World N) (option (Payment.t N)) :=
  gets (fun w => find q (payments w)).

Definition File_findById (id : Id) : M (World N) (option (File.t N)) :=
  gets (fun w => find (fun f => File._id f =? id)%nat (files w)).

Definition User_findById (id : Id) : M (World N) (option User.t) :=
  gets (fun w => find (fun u => User._id u =? id)%nat (users w)).

(** Rewrites the first element that satisfies [q]. *)
Fixpoint update_first {A} (q : A -> bool) (f : A -> A) (l : list A) : list A :=
  match l with
  | [] => []
  | x :: r => if q x then f x :: r else x :: update_first q f r
  end.

(** Drops the first element that satisfies [q]. *)
Fixpoint delete_first {A} (q : A -> bool) (l : list A) : list A :=
  match l with
  | [] => []
  | x :: r => if q x then r else x :: delete_first q r
  end.

(** [File.findByIdAndUpdate(id, { status })] *)
Definition File_findByIdAndUpdate (id : Id) (st : FileStatus)
  : M (World N) unit :=
  modify (fun w =>
    set_files w (update_first (fun f => File._id f =? id)%nat
                              (fun f => File.with_status f st) (files w))).

(** [Payment.findByIdAndDelete(id)] *)
Definition Payment_findByIdAndDelete (id : Id) : M (World N) unit :=
  modify (fun w =>
    set_payments w (delete_first (fun p => Payment._id p =? id)%nat
                                 (payments w))).

(** *** Schema checks of a save *)

(** [enum: ['upi', 'card', 'netbanking', 'wallet']] *)
Definition valid_paymentMethod (m : string) : bool :=
  existsb (String.eqb m) ["upi"; "card"; "netbanking"; "wallet"].

(** A [unique: true, sparse: true] index: another document already holds
    the value this document has at the path. *)
Definition clashes (path : Payment.t N -> option string)
           (d : Payment.t N) (coll : list (Payment.t N)) : bool :=
  match path d with
  | None => false
  | Some _ =>
      existsb (fun o => negb (Payment._id o =? Payment._id d)%nat
                        && opt_str_eqb (path o) (path d)) coll
  end.

Definition duplicate_key (d : Payment.t N) (coll : list (Payment.t N))
  : option string :=
  if clashes (@Payment.cashfreeOrderId N) d coll then Some "cashfreeOrderId"
  else if clashes (@Payment.cashfreePaymentId N) d coll then Some "cashfreePaymentId"
  else if clashes (@Payment.transactionId N) d coll then Some "transactionId"
  else None.

(** *** A document held by a handler

    A handler mutates the document object it holds and writes it back with
    [save()]; [isNew] is Mongoose's flag of a document not yet inserted. *)
Record Doc : Type := mkDoc {
  isNew : bool;
  fields : Payment.t N
}.

Definition Local : Type := (Doc * World N)%type.

(** Runs a computation of the surrounding world inside a handler. *)
Definition lift {A} (m : M (World N) A) : M Local A :=
  fun s =>
    let (r, w') := m (snd s) in (r, (fst s, w')).

(** [payment.<path> = v] *)
Definition assign (f : Payment.t N -> Payment.t N) : M Local unit :=
  modify (fun s => (mkDoc (isNew (fst s)) (f (fields (fst s))), snd s)).

(** Reads the document object. *)
Definition this : M Local (Payment.t N) := gets (fun s => fields (fst s)).

(** Runs [m] on the document object [d]; the object is dropped at the
    end of the handler. *)
Definition with_doc {A} (d : Doc) (m : M Local A) : M (World N) A :=
  fun w => let (r, s) := m (d, w) in (r, snd s).

(** [paymentSchema.pre('save')]: a new document without an order id gets
    [uplink_<timestamp>_<randomString>]. *)
Definition pre_save : M Local unit :=
  d <- gets fst ;;
  if isNew d && negb (truthy_str (Payment.cashfreeOrderId (fields d))) then
    timestamp <- lift Date_now ;;
    randomString <- lift Math_random ;;
    assign (fun p => Payment.with_cashfreeOrderId p
              (Some ("uplink_" ++ show_nat timestamp ++ "_" ++ randomString)))
  else ret tt.

(** [payment.save()]: validation, the pre-save hook, then the insert of a
    new document (with its [createdAt]) or the update of the stored one;
    the unique indexes reject a duplicate, and an update of a document
    that is no longer stored fails. *)
Definition save : M Local unit :=
  p <- this ;;
  if negb (valid_paymentMethod (Payment.paymentMethod p)) then
    throw (ValidationError "Payment validation failed: paymentMethod")
  else
    pre_save ;;
    d <- gets fst ;;
    if isNew d then
      now <- lift Date_now ;;
      assign (fun p => Payment.with_createdAt p now) ;;
      p <- this ;;
      coll <- lift (gets (@payments N)) ;;
      match duplicate_key p coll with
      | Some path => throw (DuplicateKey path)
      | None =>
          lift (modify (fun w => set_payments w (payments w ++ [p]))) ;;
          modify (fun s => (mkDoc false (fields (fst s)), snd s))
      end
    else
      coll <- lift (gets (@payments N)) ;;
      if negb (existsb (fun o => Payment._id o =? Payment._id p)%nat coll) then
        throw DocumentNotFound
      else
        match duplicate_key p coll with
        | Some path => throw (DuplicateKey path)
        | None =>
            lift (modify (fun w =>
              set_payments w
                (update_first (fun o => Payment._id o =? Payment._id p)%nat
                              (fun _ => p) (payments w))))
        end.

End Store.

(** ** Messages of the HTTP interface *)

(** [process.env] as read once by [config/cashfree.ts]. *)
Record Config (N : Type) : Type := mkConfig {
  CASHFREE_CONFIGURED : bool;
  PLATFORM_COMMISSION_RATE : N;
  PAYMENT_RETURN_URL : string;
  PAYMENT_WEBHOOK_URL : string
}.

(** The body of a webhook request, as [express.json()] hands it to the
    controller: an object any of whose members may be missing. The members
    the gateway sends as strings are strings here; [cf_order_id] is present
    whenever [order] is. *)
Module Webhook.
Record Order : Type := mkOrder {
  order_id : option string;
  cf_order_id : string
}.

Record PaymentData : Type := mkPaymentData {
  cf_payment_id : option string;
  payment_id : option string;
  bank_reference : option string;
  payment_method : option string;
  payment_message : option string
}.

Record Data : Type := mkData {
  order : option Order;
  payment : option PaymentData
}.

Record Body : Type := mkBody {
  type : option string;
  data : option Data
}.
End Webhook.

(** [CreateOrderRequest] and [CreateOrderResponse] of [config/cashfree.ts]. *)
Module Cashfree.
Record CreateOrderRequest (N : Type) : Type := mkRequest {
  order_amount : N;
  order_currency : string;
  order_id : option string;
  customer_id : Id;
  customer_name : string;
  customer_email : string;
  customer_phone : string;
  return_url : string;
  notify_url : string;
  tag_file_id : Id;
  tag_file_name : string;
  tag_creator_id : Id
}.

Record CreateOrderResponse : Type := mkResponse {
  cf_order_id : string;
  res_order_id : string;
  payment_session_id : string
}.
End Cashfree.

Module Res.
(** The [data] member of an [ApiResponse]. *)
Inductive Data (N : Type) : Type :=
| NoData
| ValidationErrors
| ErrorText (error : string)
| OrderCreated (id : Id) (amount : N) (currency : string)
    (status : PaymentStatus) (cashfreeOrderId : string)
    (paymentSessionId : string) (orderId : string)
| DownloadUrl (downloadUrl : string)
| RequiresPayment (price : option N) (currency : string).
Arguments NoData {N}.
Arguments ValidationErrors {N}.
Arguments ErrorText {N} error.
Arguments DownloadUrl {N} downloadUrl.

(** What [res.status(..).json(..)] sends. *)
Record t (N : Type) : Type := mk {
  status : nat;
  success : bool;
  message : string;
  data : Data N
}.
End Res.

(** [req] of [createPaymentOrder]: the verdict of the validation chain, the
    body's [fileId] and the authenticated user. *)
Record AuthRequest : Type := mkAuthRequest {
  validation_failed : bool;
  body_fileId : Id;
  req_user : User.t
}.

(** [haystack.includes(needle)] *)
Fixpoint includes (needle haystack : string) : bool :=
  String.prefix needle haystack
  || match haystack with
     | EmptyString => false
     | String _ r => includes needle r
     end.

Definition show_opt (s : option string) : string :=
  match s with
  | Some x => x
  | None => "undefined"
  end.

(** ** The controllers *)

Section Controllers.
Context {N : Type} `{JsNumber N}.

(** Configuration and the two external services: the HTTP call
    [cashfreeAPI.post('/orders', ..)] and the storage service's
    [generatePresignedDownloadUrl]. *)
Variable cfg : Config N.
Variable cashfreeAPI_post :
  Cashfree.CreateOrderRequest N -> Outcome Cashfree.CreateOrderResponse.
Variable generatePresignedDownloadUrl : string -> nat -> Outcome string.

Definition await {A} (r : Outcome A) : M (World N) A := fun w => (r, w).

(** *** config/cashfree.ts: createPaymentOrder *)
Definition createCashfreeOrder (orderData : Cashfree.CreateOrderRequest N)
  : M (World N) Cashfree.CreateOrderResponse :=
  try_catch
    (logger_info "Sending order to Cashfree:"
       [show_opt (Cashfree.order_id orderData)] ;;
     response <- await (cashfreeAPI_post orderData) ;;
     logger_info "Cashfree order created successfully:"
       [Cashfree.cf_order_id response; Cashfree.payment_session_id response] ;;
     ret response)
    (fun error =>
       let errorData := exn_response_data error in
       logger_error "Cashfree API error:"
         [match errorData with
          | Some d => show_opt (err_message d)
          | None => exn_message error
          end] ;;
       if match errorData with
          | Some d =>
              opt_str_eqb (err_type d) (Some "authentication_error")
              || match err_message d with
                 | Some m => includes "authentication" m
                 | None => false
                 end
          | None => false
          end
       then
         logger_error "Authentication failed! Please check:" [] ;;
         logger_error "  - App ID and Secret Key match the current environment" [] ;;
         logger_error "  - Environment" [] ;;
         logger_error "  - Base URL" [] ;;
         logger_error "  - App ID" [] ;;
         logger_error "  - Secret Key ends with" [] ;;
         throw (JsError "Invalid credentials or environment mismatch")
       else throw error).

Definition new_ObjectId : M (World N) Id :=
  fun w => (Return (next_id w), set_next_id w (S (next_id w))).

Definition plain (status : nat) (success : bool) (message : string)
  : Res.t N :=
  Res.mk status success message Res.NoData.

(** *** controllers/paymentController.ts: createPaymentOrder *)
Definition createPaymentOrder (req : AuthRequest) : M (World N) (Res.t N) :=
  try_catch
    (if validation_failed req then
       ret (Res.mk 400 false "Validation failed" Res.ValidationErrors)
     else if negb (CASHFREE_CONFIGURED cfg) then
       ret (plain 503 false "Payment service is currently unavailable")
     else
       let fileId := body_fileId req in
       let user := req_user req in
       file <- File_findById fileId ;;
       match file with
       | None => ret (plain 404 false "File not found")
       | Some file =>
         match File.price file with
         | None => ret (plain 400 false "File is not available for purchase")
         | Some amount =>
           if negb (File.isPublic file) || negb (num_truthy amount)
              || num_leb amount (num_of_Z 0)
           then ret (plain 400 false "File is not available for purchase")
           else if (File.creatorId file =? User._id user)%nat then
             ret (plain 400 false "You cannot purchase your own file")
           else
             creator <- User_findById (File.creatorId file) ;;
             match creator with
             | None => ret (plain 404 false "Creator not found")
             | Some creator =>
               let '(platformCommission, creatorShare) :=
                 commissionSplit amount (PLATFORM_COMMISSION_RATE cfg) in
               _id <- new_ObjectId ;;
               let payment :=
                 Payment.mk _id (File._id file) (User._id creator)
                   (User._id user) amount "INR" pending "upi"
                   None None None None None
                   platformCommission creatorShare payout_pending
                   None None None None
                   (if truthy_str (User.phone creator)
                    then option_map trim (User.phone creator) else None)
                   0%nat in
               with_doc (mkDoc true payment)
                 (save ;;
                  lift (logger_info "Payment record created:"
                          [show_nat _id; File.originalName file]) ;;
                  lift (logger_info "Amount, Platform, Creator" []) ;;
                  try_catch
                    (p <- this ;;
                     let orderRequest :=
                       Cashfree.mkRequest amount "INR"
                         (Payment.cashfreeOrderId p)
                         (User._id user) (User.name user) (User.email user)
                         (or_default (User.phone user) "9999999999")
                         (PAYMENT_RETURN_URL cfg) (PAYMENT_WEBHOOK_URL cfg)
                         (File._id file) (File.originalName file)
                         (User._id creator) in
                     lift (logger_info "Creating Cashfree order:"
                             [show_opt (Cashfree.order_id orderRequest)]) ;;
                     response <- lift (createCashfreeOrder orderRequest) ;;
                     lift (logger_info "Cashfree order created successfully:"
                             [Cashfree.res_order_id response;
                              Cashfree.cf_order_id response;
                              Cashfree.payment_session_id response]) ;;
                     assign (fun p => Payment.with_cashfreeOrderId p
                               (Some (Cashfree.cf_order_id response))) ;;
                     save ;;
                     p <- this ;;
                     ret (Res.mk 201 true "Payment order created successfully"
                            (Res.OrderCreated (Payment._id p)
                               (Payment.amount p) (Payment.currency p)
                               (Payment.status p)
                               (Cashfree.cf_order_id response)
                               (Cashfree.payment_session_id response)
                               (Cashfree.res_order_id response))))
                    (fun cashfreeError =>
                       lift (logger_error "Cashfree order creation failed:"
                               [match exn_response_data cashfreeError with
                                | Some d => show_opt (err_message d)
                                | None => exn_message cashfreeError
                                end]) ;;
                       p <- this ;;
                       lift (Payment_findByIdAndDelete (Payment._id p)) ;;
                       ret (Res.mk 500 false "Failed to create payment order"
                              (Res.ErrorText
                                 (or_default
                                    match exn_response_data cashfreeError with
                                    | Some d => err_message d
                                    | None => None
                                    end
                                    "Payment gateway error")))))
             end
         end
       end)
    (fun error =>
       logger_error "Create payment order error:" [exn_message error] ;;
       ret (plain 500 false "Payment order creation failed")).

(** *** controllers/paymentController.ts: processCreatorPayout

    Runs on the document object of the caller, which it mutates. *)
Definition processCreatorPayout : M (@Local N) unit :=
  try_catch
    (if negb (CASHFREE_CONFIGURED cfg) then
       lift (logger_warn "Cashfree not configured, skipping payout" []) ;;
       assign (fun p => Payment.with_payoutStatus p not_required) ;;
       save
     else
       payment <- this ;;
       creator <- lift (User_findById (Payment.creatorId payment)) ;;
       match creator with
       | None =>
           lift (logger_error "Creator not found for payout:"
                   [show_nat (Payment.creatorId payment)]) ;;
           assign (fun p => Payment.with_payoutStatus p payout_failed) ;;
           assign (fun p => Payment.with_payoutFailureReason p
                     (Some "Creator not found")) ;;
           save
       | Some creator =>
           if negb (truthy_str (User.phone creator))
              && negb (truthy_str (User.upiId creator))
           then
             lift (logger_warn "Creator has no UPI phone/ID, skipping payout" []) ;;
             assign (fun p => Payment.with_payoutStatus p payout_failed) ;;
             assign (fun p => Payment.with_payoutFailureReason p
                       (Some "Creator UPI details missing")) ;;
             save
           else
             lift (logger_info "Initiating payout to creator"
                     [User.name creator; show_opt (User.phone creator);
                      show_opt (User.upiId creator)]) ;;
             assign (fun p => Payment.with_payoutStatus p payout_processing) ;;
             save ;;
             t1 <- lift Date_now ;;
             r1 <- lift Math_random ;;
             let payoutId := "payout_" ++ show_nat t1 ++ "_" ++ r1 in
             t2 <- lift Date_now ;;
             r2 <- lift Math_random ;;
             let transferId := "transfer_" ++ show_nat t2 ++ "_" ++ r2 in
             assign (fun p => Payment.with_payoutStatus p payout_completed) ;;
             assign (fun p => Payment.with_payoutId p (Some payoutId)) ;;
             assign (fun p => Payment.with_payoutTransferId p (Some transferId)) ;;
             now <- lift Date_now ;;
             assign (fun p => Payment.with_payoutAt p (Some now)) ;;
             save ;;
             lift (logger_info "Payout completed:" [payoutId])
       end)
    (fun error =>
       lift (logger_error "Error processing creator payout:"
               [exn_message error]) ;;
       assign (fun p => Payment.with_payoutStatus p payout_failed) ;;
       assign (fun p => Payment.with_payoutFailureReason p
                 (Some (trim (or_default (Some (exn_message error))
                                         "Payout processing error")))) ;;
       save).

(** [const { order, payment: paymentData } = data] *)
Definition destructure (data : option Webhook.Data) : M (World N) Webhook.Data :=
  match data with
  | Some d => ret d
  | None =>
      throw (TypeError "Cannot destructure property 'order' of 'data' as it is undefined.")
  end.

(** [obj.member] on a possibly undefined [obj] *)
Definition member {A} (obj : option A) (name : string) : M (World N) A :=
  match obj with
  | Some o => ret o
  | None =>
      throw (TypeError ("Cannot read properties of undefined (reading '"
                        ++ name ++ "')"))
  end.

Definition by_cashfreeOrderId (cfOrderId : string) (p : Payment.t N) : bool :=
  opt_str_eqb (Payment.cashfreeOrderId p) (Some cfOrderId).

(** *** controllers/paymentController.ts: handlePaymentSuccess *)
Definition handlePaymentSuccess (data : option Webhook.Data) : M (World N) unit :=
  try_catch
    (d <- destructure data ;;
     order <- member (Webhook.order d) "cf_order_id" ;;
     let cfOrderId := Webhook.cf_order_id order in
     logger_info "Processing payment success:" [cfOrderId] ;;
     payment <- Payment_findOne (by_cashfreeOrderId cfOrderId) ;;
     match payment with
     | None =>
         logger_error "Payment record not found for Cashfree order:" [cfOrderId]
     | Some payment =>
         with_doc (mkDoc false payment)
           (assign (fun p => Payment.with_status p completed) ;;
            paymentData <- lift (member (Webhook.payment d) "cf_payment_id") ;;
            assign (fun p => Payment.with_cashfreePaymentId p
                      (Webhook.cf_payment_id paymentData)) ;;
            assign (fun p => Payment.with_transactionId p
                      (or_str (Webhook.payment_id paymentData)
                              (Webhook.bank_reference paymentData))) ;;
            assign (fun p => Payment.with_paymentMethod p
                      (or_default
                         (option_map toLowerCase
                            (Webhook.payment_method paymentData))
                         "upi")) ;;
            now <- lift Date_now ;;
            assign (fun p => Payment.with_paidAt p (Some now)) ;;
            save ;;
            p <- this ;;
            lift (logger_info "Payment completed:" [show_nat (Payment._id p)]) ;;
            lift (File_findByIdAndUpdate (Payment.fileId p) delivered) ;;
            processCreatorPayout)
     end)
    (fun error =>
       logger_error "Error handling payment success:" [exn_message error]).

(** *** controllers/paymentController.ts: handlePaymentFailure *)
Definition handlePaymentFailure (data : option Webhook.Data) : M (World N) unit :=
  try_catch
    (d <- destructure data ;;
     order <- member (Webhook.order d) "cf_order_id" ;;
     let cfOrderId := Webhook.cf_order_id order in
     logger_info "Processing payment failure:" [cfOrderId] ;;
     payment <- Payment_findOne (by_cashfreeOrderId cfOrderId) ;;
     match payment with
     | None => logger_error "Payment record not found for order:" [cfOrderId]
     | Some payment =>
         with_doc (mkDoc false payment)
           (assign (fun p => Payment.with_status p failed) ;;
            assign (fun p => Payment.with_failureReason p
                      (Some (trim (or_default
                               match Webhook.payment d with
                               | Some paymentData =>
                                   Webhook.payment_message paymentData
                               | None => None
                               end
                               "Payment failed")))) ;;
            assign (fun p => Payment.with_payoutStatus p not_required) ;;
            save ;;
            p <- this ;;
            lift (logger_info "Payment failed:"
                    [show_nat (Payment._id p);
                     show_opt (Payment.failureReason p)]))
     end)
    (fun error =>
       logger_error "Error handling payment failure:" [exn_message error]).

(** *** controllers/paymentController.ts: handlePaymentDropped *)
Definition handlePaymentDropped (data : option Webhook.Data) : M (World N) unit :=
  try_catch
    (d <- destructure data ;;
     order <- member (Webhook.order d) "cf_order_id" ;;
     let cfOrderId := Webhook.cf_order_id order in
     logger_info "Processing payment dropped:" [cfOrderId] ;;
     payment <- Payment_findOne (by_cashfreeOrderId cfOrderId) ;;
     match payment with
     | None => logger_error "Payment record not found for order:" [cfOrderId]
     | Some payment =>
         with_doc (mkDoc false payment)
           (assign (fun p => Payment.with_status p failed) ;;
            assign (fun p => Payment.with_failureReason p
                      (Some "Payment dropped by user")) ;;
            assign (fun p => Payment.with_payoutStatus p not_required) ;;
            save ;;
            p <- this ;;
            lift (logger_info "Payment dropped:" [show_nat (Payment._id p)]))
     end)
    (fun error =>
       logger_error "Error handling payment dropped:" [exn_message error]).

(** [data?.order?.order_id] *)
Definition webhook_order_id (data : option Webhook.Data) : option string :=
  match data with
  | Some d =>
      match Webhook.order d with
      | Some o => Webhook.order_id o
      | None => None
      end
  | None => None
  end.

(** *** controllers/paymentController.ts: paymentWebhook *)
Definition paymentWebhook (body : Webhook.Body) : M (World N) (Res.t N) :=
  try_catch
    (let type := Webhook.type body in
     let data := Webhook.data body in
     logger_info "Payment webhook received:"
       [show_opt type; show_opt (webhook_order_id data)] ;;
     (if opt_str_eqb type (Some "PAYMENT_SUCCESS_WEBHOOK") then
        handlePaymentSuccess data
      else if opt_str_eqb type (Some "PAYMENT_FAILED_WEBHOOK") then
        handlePaymentFailure data
      else if opt_str_eqb type (Some "PAYMENT_USER_DROPPED_WEBHOOK") then
        handlePaymentDropped data
      else ret tt) ;;
     ret (plain 200 true "Webhook processed successfully"))
    (fun error =>
       logger_error "Payment webhook error:" [exn_message error] ;;
       ret (plain 500 false "Webhook processing failed")).

(** The filter [{ fileId, clientId, status: 'completed' }]. *)
Definition completed_for (fileId clientId : Id) (p : Payment.t N) : bool :=
  (Payment.fileId p =? fileId)%nat && (Payment.clientId p =? clientId)%nat
  && PaymentStatus_eqb (Payment.status p) completed.

Definition download_ok (downloadUrl : string) : Res.t N :=
  Res.mk 200 true "Download URL generated successfully"
         (Res.DownloadUrl downloadUrl).

(** *** controllers/fileController.ts: getDownloadUrl *)
Definition getDownloadUrl (id : Id) (user : User.t) : M (World N) (Res.t N) :=
  try_catch
    (file <- File_findById id ;;
     match file with
     | None => ret (plain 404 false "File not found")
     | Some file =>
         let isCreator := (File.creatorId file =? User._id user)%nat in
         if isCreator then
           downloadUrl <- await (generatePresignedDownloadUrl (File.s3Key file) 3600) ;;
           ret (download_ok downloadUrl)
         else
           let rest :=
             if negb (File.isPublic file) && negb isCreator then
               ret (plain 403 false "This file is private")
             else
               downloadUrl <- await (generatePresignedDownloadUrl (File.s3Key file) 3600) ;;
               ret (download_ok downloadUrl) in
           if File.isPublic file
              && match File.price file with
                 | Some price => num_truthy price && num_gtb price (num_of_Z 0)
                 | None => false
                 end
           then
             completedPayment <-
               Payment_findOne (completed_for (File._id file) (User._id user)) ;;
             match completedPayment with
             | None =>
                 ret (Res.mk 402 false "Payment required to download this file"
                        (Res.RequiresPayment (File.price file)
                           (or_default (File.currency file) "INR")))
             | Some _ =>
                 logger_info "Payment verified for user to download file"
                   [show_nat (User._id user); show_nat (File._id file)] ;;
                 rest
             end
           else rest
     end)
    (fun error =>
       logger_error "Get download URL error:" [exn_message error] ;;
       ret (plain 500 false "Failed to generate download URL")).

End Controllers.

(** ** Further handlers and the methods of the payment model *)

(** [data] of the answer of [verifyPaymentStatus]. *)
Module StatusData.
Record t (N : Type) : Type := mk {
  paymentId : Id;
  status : PaymentStatus;
  amount : N;
  paidAt : option Time;
  fileId : Id
}.
End StatusData.

(** [data] of the answer of a preview handler. Of [fileInfo] the members
    [type] and [size] belong to parts of the file document that are not
    modelled; [creator] is sent by [getEmbeddedPreview] only; [expiresAt]
    is in milliseconds since the epoch. *)
Module Preview.
Record FileInfo (N : Type) : Type := mkFileInfo {
  id : Id;
  name : string;
  price : option N;
  creator : option Id
}.

Record t (N : Type) : Type := mk {
  previewUrl : string;
  isEmbedded : bool;
  isDownloadable : bool;
  requiresPayment : bool;
  expiresIn : nat;
  expiresAt : Z;
  fileInfo : FileInfo N
}.
End Preview.

(** An [ApiResponse] whose [data], when present, is of type [D]. *)
Module Reply.
Record t (D : Type) : Type := mk {
  status : nat;
  success : bool;
  message : string;
  data : option D
}.
End Reply.

(** A member of [req.query]: a string, or an array or nested object. *)
Inductive QueryValue : Type :=
| QString (s : string)
| QOther.

Section Methods.
Context {N : Type}.

(** *** models/Payment.ts: the instance methods

    [markPayoutCompleted] is left out: it writes [payoutUtr], a path
    outside the model. The setters of [failureReason] and
    [payoutFailureReason] trim. *)
Definition markCompleted (transactionId : string) (paymentId : option string)
  : M (@Local N) unit :=
  assign (fun p => Payment.with_status p completed) ;;
  assign (fun p => Payment.with_transactionId p (Some transactionId)) ;;
  now <- lift Date_now ;;
  assign (fun p => Payment.with_paidAt p (Some now)) ;;
  (if truthy_str paymentId then
     assign (fun p => Payment.with_cashfreePaymentId p paymentId)
   else ret tt) ;;
  save.

Definition markFailed (reason : string) : M (@Local N) unit :=
  assign (fun p => Payment.with_status p failed) ;;
  assign (fun p => Payment.with_failureReason p (Some (trim reason))) ;;
  save.

Definition markProcessing : M (@Local N) unit :=
  assign (fun p => Payment.with_status p processing) ;;
  save.

Definition refund : M (@Local N) unit :=
  assign (fun p => Payment.with_status p refunded) ;;
  save.

Definition markPayoutFailed (reason : string) : M (@Local N) unit :=
  assign (fun p => Payment.with_payoutStatus p payout_failed) ;;
  assign (fun p => Payment.with_payoutFailureReason p (Some (trim reason))) ;;
  save.

Definition markPayoutProcessing : M (@Local N) unit :=
  assign (fun p => Payment.with_payoutStatus p payout_processing) ;;
  save.

End Methods.

Section MoreControllers.
Context {N : Type} `{JsNumber N}.
Variable generatePresignedDownloadUrl : string -> nat -> Outcome string.

(** *** controllers/paymentController.ts: verifyPaymentStatus *)
Definition verifyPaymentStatus (orderId : string) (user : User.t)
  : M (World N) (Reply.t (StatusData.t N)) :=
  try_catch
    (payment <- Payment_findOne (by_cashfreeOrderId orderId) ;;
     match payment with
     | None => ret (Reply.mk 404 false "Payment not found" None)
     | Some payment =>
         if negb (Payment.clientId payment =? User._id user)%nat then
           ret (Reply.mk 403 false "Access denied" None)
         else
           ret (Reply.mk 200 true "Payment status retrieved"
                  (Some (StatusData.mk (Payment._id payment)
                           (Payment.status payment) (Payment.amount payment)
                           (Payment.paidAt payment) (Payment.fileId payment))))
     end)
    (fun error =>
       logger_error "Verify payment status error:" [exn_message error] ;;
       ret (Reply.mk 500 false "Failed to verify payment status" None)).

(** [file.s3Key && file.s3Key.trim() !== ''] *)
Definition has_object (file : File.t N) : bool :=
  negb (String.eqb (File.s3Key file) "")
  && negb (String.eqb (trim (File.s3Key file)) "").

(** The block of the preview handlers that asks the storage service for a
    URL of the original object, valid for five minutes; a failure of the
    service is logged and leaves [previewUrl] at [null]. *)
Definition preview_of_original (which : string) (file : File.t N)
  : M (World N) (option string) :=
  if has_object file then
    try_catch
      (previewUrl <- await (generatePresignedDownloadUrl (File.s3Key file) 300) ;;
       logger_info ("Generated " ++ which ++ " preview URL for file")
         [show_nat (File._id file)] ;;
       ret (Some previewUrl))
      (fun previewError =>
         logger_warn ("Error generating " ++ which ++ " preview URL for file")
           [show_nat (File._id file); exn_message previewError] ;;
         ret None)
  else ret None.

(** [new Date(Date.now() + 300 * 1000)] *)
Definition in_five_minutes : M (World N) Z :=
  now <- Date_now ;;
  ret (Z.of_nat now + 300 * 1000)%Z.

(** *** controllers/fileController.ts: getEmbeddedPreview *)
Definition getEmbeddedPreview (id : Id) (user : User.t)
  : M (World N) (Reply.t (Preview.t N)) :=
  try_catch
    (file <- File_findById id ;;
     match file with
     | None => ret (Reply.mk 404 false "File not found" None)
     | Some file =>
         if negb (File.isPublic file)
            && negb (File.creatorId file =? User._id user)%nat
         then ret (Reply.mk 403 false "Access denied" None)
         else
           previewUrl <- preview_of_original "embedded" file ;;
           match previewUrl with
           | Some (String _ _ as previewUrl) =>
               expiresAt <- in_five_minutes ;;
               ret (Reply.mk 200 true
                      "Embedded preview URL generated successfully"
                      (Some (Preview.mk previewUrl true false true 300
                               expiresAt
                               (Preview.mkFileInfo (File._id file)
                                  (File.originalName file) (File.price file)
                                  (Some (File.creatorId file))))))
           | _ =>
               ret (Reply.mk 404 false "No preview available for this file"
                             None)
           end
     end)
    (fun error =>
       logger_error "Get embedded preview URL error:" [exn_message error] ;;
       ret (Reply.mk 500 false "Failed to generate embedded preview URL" None)).

(** [!token] on a member of the query *)
Definition no_token (token : option QueryValue) : bool :=
  match token with
  | None | Some (QString EmptyString) => true
  | Some _ => false
  end.

(** [typeof token !== 'string' || token.length < 10] *)
Definition short_token (token : option QueryValue) : bool :=
  match token with
  | Some (QString s) => (String.length s <? 10)%nat
  | _ => true
  end.

(** [(file.price || 0) > 0] *)
Definition priced (file : File.t N) : bool :=
  num_gtb
    match File.price file with
    | Some price => if num_truthy price then price else num_of_Z 0
    | None => num_of_Z 0
    end
    (num_of_Z 0).

(** *** controllers/fileController.ts: getPublicPreview *)
Definition getPublicPreview (id : Id) (token : option QueryValue)
  : M (World N) (Reply.t (Preview.t N)) :=
  try_catch
    (if no_token token then
       ret (Reply.mk 400 false "Token required for preview access" None)
     else
       file <- File_findById id ;;
       match file with
       | None => ret (Reply.mk 404 false "File not found" None)
       | Some file =>
           if no_token token || short_token token then
             ret (Reply.mk 403 false "Invalid preview token" None)
           else
             previewUrl <- preview_of_original "public" file ;;
             match previewUrl with
             | Some (String _ _ as previewUrl) =>
                 expiresAt <- in_five_minutes ;;
                 ret (Reply.mk 200 true
                        "Public preview URL generated successfully"
                        (Some (Preview.mk previewUrl true false (priced file)
                                 300 expiresAt
                                 (Preview.mkFileInfo (File._id file)
                                    (File.originalName file) (File.price file)
                                    None))))
             | _ =>
                 ret (Reply.mk 404 false "No preview available for this file"
                               None)
             end
       end)
    (fun error =>
       logger_error "Get public preview error:" [exn_message error] ;;
       ret (Reply.mk 500 false "Failed to generate public preview" None)).

End MoreControllers.

(** ** Specification-side notions *)

(** [parseFloat('0.10')], the default [PLATFORM_COMMISSION_RATE]. *)
Definition default_rate : float := 0x1.999999999999ap-4%float.

(** The commission split sums to the amount, with JavaScript's [===]. *)
Definition split_sums_to_amount {N} `{JsNumber N} (amount rate : N) : bool :=
  let '(platformCommission, creatorShare) := commissionSplit amount rate in
  num_eqb (num_add platformCommission creatorShare) amount.

(** [f] holds on the [n] integers from [from] on. *)
Fixpoint all_from (f : Z -> bool) (from : Z) (n : nat) : bool :=
  match n with
  | O => true
  | S m => f from && all_from f (from + 1) m
  end.

(** The check of the split on a whole amount of rupees, at the default rate. *)
Definition rupees_ok (r : Z) : bool :=
  split_sums_to_amount (num_of_Z r) default_rate.

(** The most recent payment of a client for a file, by [createdAt]; among
    equals, the one inserted last. *)
Definition mostRecentIntent {N} (fileId clientId : Id) (l : list (Payment.t N))
  : option (Payment.t N) :=
  fold_left
    (fun best p =>
       if (Payment.fileId p =? fileId)%nat && (Payment.clientId p =? clientId)%nat
       then match best with
            | Some b =>
                if (Payment.createdAt b <=? Payment.createdAt p)%nat
                then Some p else Some b
            | None => Some p
            end
       else best)
    l None.

(** The states out of which the specification defines no webhook
    transition. *)
Definition terminal (s : PaymentStatus) : bool :=
  match s with
  | completed | failed | refunded => true
  | pending | processing => false
  end.

(** The log entries with which [processCreatorPayout] starts, one per run. *)
Definition payout_entry (e : LogEntry) : bool :=
  existsb (String.eqb (message e))
    ["Cashfree not configured, skipping payout";
     "Creator not found for payout:";
     "Creator has no UPI phone/ID, skipping payout";
     "Initiating payout to creator"].

(** How many times the payout trigger has run, as the log records it. *)
Definition payout_runs (l : list LogEntry) : nat :=
  List.length (filter payout_entry l).

(** A webhook body whose handler cannot get at the order or, for a success
    event, at the payment object. *)
Definition malformed (body : Webhook.Body) : bool :=
  match Webhook.data body with
  | None => true
  | Some d =>
      match Webhook.order d with
      | None => true
      | Some _ =>
          opt_str_eqb (Webhook.type body) (Some "PAYMENT_SUCCESS_WEBHOOK")
          && match Webhook.payment d with
             | None => true
             | Some _ => false
             end
      end
  end.

(** Every [ObjectId] in use was handed out before: the next one is fresh. *)
Definition ids_handed_out {N} (w : World N) : Prop :=
  Forall (fun p => Payment._id p < next_id w)%nat (payments w).

(** Every stored payment passes the checks of its schema: the enum of
    [paymentMethod] and the three unique sparse indexes. *)
Definition schema_ok {N} (w : World N) : Prop :=
  Forall (fun p => valid_paymentMethod (Payment.paymentMethod p) = true
                   /\ duplicate_key p (payments w) = None)
         (payments w).

(** ** Notions of the statements *)

(** What [getDownloadUrl] answers once it has decided to hand out the file:
    the URL of the storage service, or 500 when that service throws. *)
Definition hand_out {N} (presign : string -> nat -> Outcome string)
           (file : File.t N) : Outcome (Res.t N) :=
  match presign (File.s3Key file) 3600 with
  | Return downloadUrl => Return (download_ok downloadUrl)
  | Throw _ => Return (plain 500 false "Failed to generate download URL")
  end.

(** Two worlds with the same collections, counters and clock: they differ
    at most in the log. *)
Definition same_store {N} (w w' : World N) : Prop :=
  payments w' = payments w /\ files w' = files w /\ users w' = users w
  /\ next_id w' = next_id w /\ tick w' = tick w.

(** The acknowledgement of [paymentWebhook]. *)
Definition acknowledged {N} : Res.t N :=
  plain 200 true "Webhook processed successfully".

(** The log entry with which [paymentWebhook] records an event. *)
Definition received (body : Webhook.Body) : LogEntry :=
  Log level_info "Payment webhook received:"
      [show_opt (Webhook.type body);
       show_opt (webhook_order_id (Webhook.data body))].

(** The payout of a payment whose creator registered no destination. *)
Definition payout_refused {N} (p : Payment.t N) : Payment.t N :=
  Payment.with_payoutFailureReason
    (Payment.with_payoutStatus p payout_failed)
    (Some "Creator UPI details missing").

(** What identifies a payment towards the gateway. *)
Definition key {N} (p : Payment.t N) : Id * option string :=
  (Payment._id p, Payment.cashfreeOrderId p).

(** The payment method a success event records. *)
Definition recorded_method (pd : Webhook.PaymentData) : string :=
  or_default (option_map toLowerCase (Webhook.payment_method pd)) "upi".

(** The indexed paths of a payment after a success event. *)
Definition with_gateway_ids {N} (p : Payment.t N) (pd : Webhook.PaymentData)
  : Payment.t N :=
  Payment.with_transactionId
    (Payment.with_cashfreePaymentId p (Webhook.cf_payment_id pd))
    (or_str (Webhook.payment_id pd) (Webhook.bank_reference pd)).

(** The save of [handlePaymentSuccess] goes through: the event's method is
    one of the schema's, and no other payment holds its identifiers. *)
Definition accepted {N} (w : World N) (p : Payment.t N)
           (pd : Webhook.PaymentData) : Prop :=
  valid_paymentMethod (recorded_method pd) = true
  /\ duplicate_key (with_gateway_ids p pd) (payments w) = None.

(** ** Sample data *)

Module Sample.

Definition cfg : Config float :=
  mkConfig true default_rate "http://localhost:8080/payment/callback"
           "http://localhost:5000/api/v1/payments/webhook".

(** The same server started without gateway credentials. *)
Definition cfg_off : Config float :=
  mkConfig false default_rate "http://localhost:8080/payment/callback"
           "http://localhost:5000/api/v1/payments/webhook".

Definition asha : User.t :=
  User.mk 1 "Asha" "asha@example.in" (Some "9876543210") None.

Definition ravi : User.t := User.mk 2 "Ravi" "ravi@example.in" None None.

(** A creator who registered neither a phone number nor a UPI id. *)
Definition meera : User.t := User.mk 3 "Meera" "meera@example.in" None None.

Definition poster : File.t float :=
  File.mk 10 1 "poster.png" "files/poster.png" ready true
          (Some 500%float) (Some "INR").

Definition sketch : File.t float :=
  File.mk 11 3 "sketch.png" "files/sketch.png" ready true
          (Some 120%float) None.

Definition w0 : World float :=
  mkWorld [] [poster; sketch] [asha; ravi; meera] [] 100 1000.

Definition order_request : AuthRequest := mkAuthRequest false 10 ravi.

Definition gateway_ok (r : Cashfree.CreateOrderRequest float)
  : Outcome Cashfree.CreateOrderResponse :=
  Return (Cashfree.mkResponse "cf_777" (show_opt (Cashfree.order_id r))
                              "session_1").

Definition gateway_down (r : Cashfree.CreateOrderRequest float)
  : Outcome Cashfree.CreateOrderResponse :=
  Throw (HttpError (Some (mkErrorData (Some "api_error")
                                      (Some "order could not be created")))
                   "Request failed with status code 500").

Definition presign (key : string) (expires : nat) : Outcome string :=
  Return ("https://r2.example/" ++ key).

(** Ravi's pending payment for the poster, as [createPaymentOrder] leaves
    it. *)
Definition pending_payment : Payment.t float :=
  Payment.mk 100 10 1 2 500%float "INR" pending "upi" (Some "cf_777")
             None None None None 50%float 450%float payout_pending
             None None None None (Some "9876543210") 1002.

Definition w_pending : World float :=
  mkWorld [pending_payment] [poster; sketch] [asha; ravi; meera] [] 101 1003.

Definition order_777 : Webhook.Order :=
  Webhook.mkOrder (Some "uplink_1000_1001") "cf_777".

Definition paid_upi : Webhook.PaymentData :=
  Webhook.mkPaymentData (Some "pay_1") (Some "txn_1") None (Some "UPI") None.

Definition success_event : Webhook.Body :=
  Webhook.mkBody (Some "PAYMENT_SUCCESS_WEBHOOK")
                 (Some (Webhook.mkData (Some order_777) (Some paid_upi))).

Definition failure_event : Webhook.Body :=
  Webhook.mkBody (Some "PAYMENT_FAILED_WEBHOOK")
                 (Some (Webhook.mkData (Some order_777) (Some paid_upi))).

(** The store after the success event for Ravi's payment: the payment is
    completed and paid out. *)
Definition w_settled : World float :=
  Eval vm_compute in snd (paymentWebhook cfg success_event w_pending).

(** A success event without its [payment] member. *)
Definition truncated_event : Webhook.Body :=
  Webhook.mkBody (Some "PAYMENT_SUCCESS_WEBHOOK")
                 (Some (Webhook.mkData (Some order_777) None)).

(** A success event whose payment method is none of the schema's four. *)
Definition credit_card_event : Webhook.Body :=
  Webhook.mkBody (Some "PAYMENT_SUCCESS_WEBHOOK")
                 (Some (Webhook.mkData (Some order_777)
                          (Some (Webhook.mkPaymentData
                                   (Some "pay_1") (Some "txn_1") None
                                   (Some "credit_card") None)))).

(** An event for an order the store has never seen. *)
Definition stray_event : Webhook.Body :=
  Webhook.mkBody (Some "PAYMENT_SUCCESS_WEBHOOK")
                 (Some (Webhook.mkData
                          (Some (Webhook.mkOrder None "cf_unknown"))
                          (Some paid_upi))).

(** Ravi paid for the poster once, and later opened a second order that is
    still pending. *)
Definition old_completed : Payment.t float :=
  Payment.mk 100 10 1 2 500%float "INR" completed "upi" (Some "cf_777")
             (Some "pay_1") (Some "txn_1") None (Some 1003) 50%float 450%float
             payout_completed (Some "payout_1004_1005")
             (Some "transfer_1006_1007") (Some 1008) None
             (Some "9876543210") 1002.

Definition new_pending : Payment.t float :=
  Payment.mk 101 10 1 2 500%float "INR" pending "upi" (Some "cf_778")
             None None None None 50%float 450%float payout_pending
             None None None None (Some "9876543210") 2002.

Definition w_two_orders : World float :=
  mkWorld [old_completed; new_pending] [poster; sketch] [asha; ravi; meera]
          [] 102 2003.

(** A payment for Meera's sketch. *)
Definition sketch_payment : Payment.t float :=
  Payment.mk 100 11 3 2 120%float "INR" completed "upi" (Some "cf_900")
             (Some "pay_9") (Some "txn_9") None (Some 1003) 12%float 108%float
             payout_pending None None None None None 1002.

Definition w_sketch : World float :=
  mkWorld [sketch_payment] [poster; sketch] [asha; ravi; meera] [] 101 1004.

End Sample.

(** ** Further sample data *)

Module Cases.

(** A private draft and a free flyer of Asha, next to the files on sale. *)
Definition draft : File.t float :=
  File.mk 12 1 "draft.png" "files/draft.png" ready false
          (Some 300%float) (Some "INR").

Definition flyer : File.t float :=
  File.mk 13 1 "flyer.pdf" "files/flyer.pdf" ready true
          (Some 0%float) (Some "INR").

Definition w_shop : World float :=
  mkWorld [] [Sample.poster; Sample.sketch; draft; flyer]
          [Sample.asha; Sample.ravi; Sample.meera] [] 100 1000.

(** Ravi holds a completed payment for the draft, from the time before
    Asha made it private. *)
Definition paid_draft : Payment.t float :=
  Payment.mk 100 12 1 2 300%float "INR" completed "upi" (Some "cf_555")
             (Some "pay_5") (Some "txn_5") None (Some 900) 30%float 270%float
             payout_completed (Some "payout_901_902")
             (Some "transfer_903_904") (Some 905) None
             (Some "9876543210") 899.

Definition w_draft_paid : World float :=
  mkWorld [paid_draft] [Sample.poster; Sample.sketch; draft; flyer]
          [Sample.asha; Sample.ravi; Sample.meera] [] 101 1000.

(** Asha asks to buy her own poster. *)
Definition own_request : AuthRequest := mkAuthRequest false 10 Sample.asha.





(** An event of a type the controller does not name. *)
Definition refund_event : Webhook.Body :=
  Webhook.mkBody (Some "REFUND_STATUS_WEBHOOK")
                 (Some (Webhook.mkData (Some Sample.order_777) None)).

(** Ravi's payment for the poster as the success event left it. *)
Definition settled_payment : Payment.t float :=
  Eval vm_compute in
    nth 0 (payments Sample.w_settled) Sample.pending_payment.

(** A completed payment to a creator whose account is gone. *)
Definition orphan_payment : Payment.t float :=
  Payment.mk 100 10 7 2 500%float "INR" completed "upi" (Some "cf_777")
             (Some "pay_1") (Some "txn_1") None (Some 1003) 50%float 450%float
             payout_pending None None None None None 1002.

Definition w_orphan : World float :=
  mkWorld [orphan_payment] [Sample.poster; Sample.sketch]
          [Sample.asha; Sample.ravi; Sample.meera] [] 101 1004.

End Cases.

(** * Properties *)

Open Scope list_scope.

(** ** Commission split *)

Module CommissionFacts.

Local Open Scope Q_scope.

Lemma round_integer (n : Z) : Qfloor (inject_Z n + (1 # 2)) = n.
Proof.
  unfold Qfloor, Qplus, inject_Z; cbn [Qnum Qden].
  symmetry; apply Z.div_unique with (r := 1%Z); lia.
Qed.

Lemma inject_Z_minus (x y : Z) : inject_Z (x - y) = inject_Z x - inject_Z y.
Proof.
  unfold Z.sub, Qminus. now rewrite inject_Z_plus, inject_Z_opp.
Qed.

Lemma exact_split_sum (k : Z) (rate : Q) :
  let amount := inject_Z k / inject_Z 100 in
  fst (commissionSplit amount rate) + snd (commissionSplit amount rate)
  == amount.
Proof.
  intros amount.
  unfold commissionSplit, platformCommission_of, creatorShare_of, round_cents.
  cbn [fst snd num_of_Z num_mul num_sub num_div num_round Q_JsNumber].
  unfold JsExact.round.
  set (m := Qfloor (amount * rate * inject_Z 100 + (1 # 2))).
  assert (E : (amount - inject_Z m / inject_Z 100) * inject_Z 100 + (1 # 2)
              == inject_Z (k - m) + (1 # 2)).
  { unfold amount. rewrite inject_Z_minus. field. }
  rewrite (Qfloor_comp _ _ E), round_integer, inject_Z_minus.
  unfold amount. field.
Qed.

(** Whatever the amount, the second rounding moves the sum by at most half
    a hundredth. *)
Lemma exact_split_close (amount rate : Q) :
  amount - (1 # 200)
  < fst (commissionSplit amount rate) + snd (commissionSplit amount rate)
  /\ fst (commissionSplit amount rate) + snd (commissionSplit amount rate)
     <= amount + (1 # 200).
Proof.
  unfold commissionSplit, platformCommission_of, creatorShare_of, round_cents.
  cbn [fst snd num_of_Z num_mul num_sub num_div num_round Q_JsNumber].
  unfold JsExact.round.
  set (p := inject_Z (Qfloor (amount * rate * inject_Z 100 + (1 # 2)))
            / inject_Z 100).
  set (y := (amount - p) * inject_Z 100 + (1 # 2)).
  pose proof (Qfloor_le y) as Hle.
  pose proof (Qlt_floor y) as Hlt.
  rewrite inject_Z_plus in Hlt.
  set (f := inject_Z (Qfloor y)) in *.
  change (inject_Z 1) with 1 in Hlt.
  unfold y in *. clearbody p. unfold Qdiv. change (/ inject_Z 100) with (1 # 100).
  change (inject_Z 100) with 100 in *.
  split; lra.
Qed.

Lemma all_from_spec (f : Z -> bool) (n : nat) :
  forall from : Z,
    all_from f from n = true ->
    forall z : Z, (from <= z < from + Z.of_nat n)%Z -> f z = true.
Proof.
  induction n as [|n IH]; intros from Hall z Hz.
  - cbn in Hz. lia.
  - cbn [all_from] in Hall. apply andb_prop in Hall as [Hhd Htl].
    destruct (Z.eq_dec z from) as [->|Hne]; [assumption|].
    apply (IH (from + 1)%Z Htl). lia.
Qed.

Lemma whole_rupees_checked : all_from rupees_ok 1 (Z.to_nat 20000) = true.
Proof. vm_compute. reflexivity. Qed.

Lemma whole_rupees_sum (rupees : Z) :
  (1 <= rupees <= 20000)%Z -> rupees_ok rupees = true.
Proof.
  intros Hr. apply (@all_from_spec rupees_ok _ _ whole_rupees_checked).
  rewrite Z2Nat.id; lia.
Qed.

End CommissionFacts.

(** C2 (as the code has it). The creator share is the remainder rounded to
    two decimals again. Read over exact rationals, the two shares of
    [createPaymentOrder] sum to the amount for every rate whenever the
    amount is a whole number of hundredths, and for any amount their sum is
    within half a hundredth of it; evaluated in IEEE doubles at the default
    rate 0.10, the sum is [===] to the amount for every whole-rupee amount
    from 1 to 20000. *)
Theorem commission_split_sum :
  (forall (k : Z) (rate : Q),
      let amount := (inject_Z k / inject_Z 100)%Q in
      (fst (commissionSplit amount rate) + snd (commissionSplit amount rate)
       == amount)%Q)
  /\ (forall amount rate : Q,
         (amount - (1 # 200)
          < fst (commissionSplit amount rate) + snd (commissionSplit amount rate)
          /\ fst (commissionSplit amount rate) + snd (commissionSplit amount rate)
             <= amount + (1 # 200))%Q)
  /\ (forall rupees : Z,
         (1 <= rupees <= 20000)%Z ->
         split_sums_to_amount (num_of_Z rupees) default_rate = true).
Proof.
  split; [|split].
  - exact CommissionFacts.exact_split_sum.
  - exact CommissionFacts.exact_split_close.
  - intros rupees Hr. exact (CommissionFacts.whole_rupees_sum Hr).
Qed.

(** The scenario of the specification: a price of 500 at rate 0.10 splits
    into 50 and 450. *)
Lemma commission_split_sum_witness :
  (1 <= 500 <= 20000)%Z
  /\ commissionSplit 500%float default_rate = (50%float, 450%float)
  /\ split_sums_to_amount (num_of_Z 500) default_rate = true.
Proof.
  split; [lia|]. split; [reflexivity|].
  apply (proj2 (proj2 commission_split_sum) 500%Z); lia.
Defined.

(** C2 (as stated) fails on the code. At the default rate, a price of 4.35
    splits into 0.44 and 3.91, whose sum in doubles is 4.3500000000000005;
    and the creator share is rounded a second time, so that a price of
    0.125 at rate 0 gives a creator share of 0.13, in doubles and over the
    rationals alike. *)
Lemma commission_split_sum_drifts :
  let amount := 0x1.1666666666666p+2%float in
  num_leb (num_of_Z 0) default_rate = true
  /\ num_leb default_rate (num_of_Z 1) = true
  /\ num_gtb amount (num_of_Z 0) = true
  /\ split_sums_to_amount amount default_rate = false
  /\ split_sums_to_amount 0.125%float 0%float = false
  /\ split_sums_to_amount (1 # 8)%Q 0%Q = false.
Proof. vm_compute. repeat split. Qed.

(** ** Download gate *)

Section DownloadGate.
Context {N : Type} `{JsNumber N}.
Variable presign : string -> nat -> Outcome string.

Lemma creator_download (w : World N) (id : Id) (user : User.t) (file : File.t N) :
  find (fun f => File._id f =? id)%nat (files w) = Some file ->
  File.creatorId file = User._id user ->
  getDownloadUrl presign id user w
  = (hand_out presign file, snd (getDownloadUrl presign id user w)).
Proof.
  intros Hfile Hcreator.
  unfold getDownloadUrl, try_catch, bind, File_findById, gets, hand_out, await.
  rewrite Hfile, Hcreator, Nat.eqb_refl.
  destruct (presign (File.s3Key file) 3600); reflexivity.
Qed.

End DownloadGate.

(** C5. When the requester is the creator of the file, [getDownloadUrl]
    goes straight to the storage service, whatever the payments, the
    visibility and the price of the file: the answer is 200 with the URL
    (500 only if the storage service itself throws), never 402 or 403. *)
Theorem creator_always_authorized
  {N : Type} `{JsNumber N} (presign : string -> nat -> Outcome string)
  (w : World N) (id : Id) (user : User.t) (file : File.t N) :
  find (fun f => File._id f =? id)%nat (files w) = Some file ->
  File.creatorId file = User._id user ->
  fst (getDownloadUrl presign id user w) = hand_out presign file.
Proof.
  intros Hfile Hcreator.
  now rewrite (creator_download presign w id user Hfile Hcreator).
Qed.

(** Asha downloads her own poster from a store without any payment. *)
Lemma creator_always_authorized_witness :
  fst (getDownloadUrl Sample.presign 10 Sample.asha Sample.w0)
  = Return (download_ok "https://r2.example/files/poster.png").
Proof.
  apply (creator_always_authorized Sample.presign Sample.w0 10 Sample.asha
           (file := Sample.poster)); reflexivity.
Defined.

(** C4 (as the code has it). For a requester other than the creator and a
    public file with a price above zero, [getDownloadUrl] hands the file
    out if and only if the store holds some payment of that client for that
    file in state [completed], whichever payment is the most recent one;
    otherwise it answers 402 with the price of the file. *)
Theorem paid_download_needs_a_completed_payment
  {N : Type} `{JsNumber N} (presign : string -> nat -> Outcome string)
  (w : World N) (id : Id) (user : User.t) (file : File.t N) (price : N) :
  find (fun f => File._id f =? id)%nat (files w) = Some file ->
  File.creatorId file <> User._id user ->
  File.isPublic file = true ->
  File.price file = Some price ->
  num_truthy price = true ->
  num_gtb price (num_of_Z 0) = true ->
  fst (getDownloadUrl presign id user w)
  = if existsb (completed_for (File._id file) (User._id user)) (payments w)
    then hand_out presign file
    else Return (Res.mk 402 false "Payment required to download this file"
                   (Res.RequiresPayment (Some price)
                      (or_default (File.currency file) "INR"))).
Proof.
  intros Hfile Hcreator Hpublic Hprice Htruthy Hpositive.
  apply Nat.eqb_neq in Hcreator.
  unfold getDownloadUrl, try_catch, bind, File_findById, Payment_findOne,
    gets, hand_out, await, logger_info, logger, modify.
  rewrite Hfile, Hcreator, Hpublic, Hprice, Htruthy, Hpositive.
  cbn [andb negb fst snd].
  destruct (find _ (payments w)) as [paid|] eqn:Hfind.
  - assert (Hex : existsb (completed_for (File._id file) (User._id user))
                          (payments w) = true).
    { apply existsb_exists. exists paid. split.
      - apply (find_some _ _ Hfind).
      - apply (find_some _ _ Hfind). }
    rewrite Hex.
    destruct (presign (File.s3Key file) 3600); reflexivity.
  - assert (Hex : existsb (completed_for (File._id file) (User._id user))
                          (payments w) = false).
    { destruct (existsb _ (payments w)) eqn:E; [|reflexivity].
      apply existsb_exists in E as [x [Hin Hx]].
      now rewrite (find_none _ _ Hfind x Hin) in Hx. }
    now rewrite Hex.
Qed.

(** Ravi, who has paid nothing, asks for the poster. *)
Lemma paid_download_needs_a_completed_payment_witness :
  fst (getDownloadUrl Sample.presign 10 Sample.ravi Sample.w0)
  = Return (Res.mk 402 false "Payment required to download this file"
              (Res.RequiresPayment (Some 500%float) "INR")).
Proof.
  apply (paid_download_needs_a_completed_payment Sample.presign Sample.w0 10
           Sample.ravi (file := Sample.poster) (price := 500%float));
    solve [reflexivity | discriminate].
Defined.

(** C4 (as stated) fails on the code. Ravi's most recent payment for the
    poster is pending, and the download is authorized all the same, on the
    strength of his older completed payment. *)
Lemma most_recent_payment_not_consulted :
  option_map (@Payment.status float)
             (mostRecentIntent 10 2 (payments Sample.w_two_orders))
  = Some pending
  /\ fst (getDownloadUrl Sample.presign 10 Sample.ravi Sample.w_two_orders)
     = Return (download_ok "https://r2.example/files/poster.png").
Proof. split; reflexivity. Qed.

(** ** Webhook ingestion *)

Section WebhookFacts.
Context {N : Type}.
Variable cfg : Config N.

Lemma same_store_refl (w : World N) : same_store w w.
Proof. repeat split. Qed.

Lemma same_store_log (w : World N) (l : list LogEntry) :
  same_store w (set_log w l).
Proof. repeat split. Qed.

(** A body wrapped in a [catch] that only logs never throws. *)
Lemma caught_returns (body : M (World N) unit) (msg : string)
      (args : Exn -> list string) (w : World N) :
  fst (try_catch body (fun e => logger_error msg (args e)) w) = Return tt.
Proof.
  unfold try_catch. destruct (body w) as [[[]|e] w']; reflexivity.
Qed.

Lemma handlePaymentSuccess_returns data (w : World N) :
  fst (handlePaymentSuccess cfg data w) = Return tt.
Proof. apply caught_returns. Qed.

Lemma handlePaymentFailure_returns data (w : World N) :
  fst (handlePaymentFailure data w) = Return tt.
Proof. apply caught_returns. Qed.

Lemma handlePaymentDropped_returns data (w : World N) :
  fst (handlePaymentDropped data w) = Return tt.
Proof. apply caught_returns. Qed.

(** The dispatch of [paymentWebhook] on the event type. *)
Definition dispatch (body : Webhook.Body) : M (World N) unit :=
  if opt_str_eqb (Webhook.type body) (Some "PAYMENT_SUCCESS_WEBHOOK") then
    handlePaymentSuccess cfg (Webhook.data body)
  else if opt_str_eqb (Webhook.type body) (Some "PAYMENT_FAILED_WEBHOOK") then
    handlePaymentFailure (Webhook.data body)
  else if opt_str_eqb (Webhook.type body) (Some "PAYMENT_USER_DROPPED_WEBHOOK") then
    handlePaymentDropped (Webhook.data body)
  else ret tt.

Lemma dispatch_returns body (w : World N) : fst (dispatch body w) = Return tt.
Proof.
  unfold dispatch.
  repeat match goal with |- context [if ?b then _ else _] => destruct b end;
    auto using handlePaymentSuccess_returns, handlePaymentFailure_returns,
               handlePaymentDropped_returns.
Qed.

(** [paymentWebhook] logs the event, dispatches it and acknowledges. *)
Lemma paymentWebhook_run body (w : World N) :
  paymentWebhook cfg body w
  = (Return acknowledged,
     snd (dispatch body (set_log w (log w ++ [received body])))).
Proof.
  unfold paymentWebhook, try_catch, bind at 1, logger_info at 1, logger, modify.
  fold (dispatch body). unfold bind, received.
  pose proof (dispatch_returns body
                (set_log w (log w ++ [received body]))) as Hret.
  unfold received in Hret.
  destruct (dispatch body _) as [[[]|e] w']; [reflexivity|discriminate].
Qed.

(** The effect of an event on the collections when the handler gives up
    before any write: the store is as before and the log has grown. *)
Definition only_logged (w w' : World N) : Prop :=
  same_store w w' /\ exists entries, log w' = log w ++ entries.

Lemma only_logged_1 (w : World N) (e : LogEntry) :
  only_logged w (set_log w (log w ++ [e])).
Proof. split; [apply same_store_log | now exists [e]]. Qed.

Lemma only_logged_refl (w : World N) : only_logged w w.
Proof. split; [apply same_store_refl | exists []; now rewrite app_nil_r]. Qed.

Lemma only_logged_trans (w1 w2 w3 : World N) :
  only_logged w1 w2 -> only_logged w2 w3 -> only_logged w1 w3.
Proof.
  intros [(P1 & F1 & U1 & I1 & T1) [l1 L1]] [(P2 & F2 & U2 & I2 & T2) [l2 L2]].
  split.
  - repeat split; congruence.
  - exists (l1 ++ l2). now rewrite L2, L1, app_assoc.
Qed.

(** Closes a goal [only_logged w w'] where [w'] is [w] after some calls of
    the logger. *)
Ltac logged :=
  solve [ apply only_logged_refl
        | apply only_logged_1
        | eapply only_logged_trans; [ | solve [apply only_logged_1] ]; logged ].

(** An event whose order matches no stored payment is logged and dropped. *)
Lemma dispatch_unknown_order body d order (w : World N) :
  Webhook.data body = Some d ->
  Webhook.order d = Some order ->
  find (by_cashfreeOrderId (Webhook.cf_order_id order)) (payments w) = None ->
  only_logged w (snd (dispatch body w)).
Proof.
  intros Hd Ho Hfind. unfold dispatch.
  rewrite Hd.
  repeat match goal with |- context [if ?b then _ else _] => destruct b end;
    unfold handlePaymentSuccess, handlePaymentFailure, handlePaymentDropped,
      try_catch, bind, destructure, member, ret, logger_info, logger_error,
      logger, modify, Payment_findOne, gets;
    rewrite ?Ho; cbn [fst snd payments set_log]; rewrite ?Hfind;
    cbn [fst snd];
    logged.
Qed.

(** A malformed event is logged and dropped. *)
Lemma dispatch_malformed body (w : World N) :
  malformed body = true -> only_logged w (snd (dispatch body w)).
Proof.
  unfold malformed, dispatch.
  destruct (Webhook.data body) as [d|]; [destruct (Webhook.order d) as [o|] eqn:Ho|].
  - destruct (opt_str_eqb (Webhook.type body) (Some "PAYMENT_SUCCESS_WEBHOOK"));
      [|discriminate].
    destruct (Webhook.payment d) eqn:Hp; [discriminate|]. intros _.
    unfold handlePaymentSuccess, try_catch, bind, destructure, member, ret,
      logger_info, logger_error, logger, modify, Payment_findOne, gets,
      with_doc, assign, lift, throw.
    rewrite Ho, Hp. cbn [fst snd payments set_log].
    destruct (find _ (payments w)); cbn [fst snd]; logged.
  - intros _.
    repeat match goal with |- context [if ?b then _ else _] => destruct b end;
      unfold handlePaymentSuccess, handlePaymentFailure, handlePaymentDropped,
        try_catch, bind, destructure, member, ret, throw, logger_error,
        logger, modify;
      rewrite ?Ho; cbn [fst snd];
      logged.
  - intros _.
    repeat match goal with |- context [if ?b then _ else _] => destruct b end;
      unfold handlePaymentSuccess, handlePaymentFailure, handlePaymentDropped,
        try_catch, bind, destructure, member, ret, throw, logger_error,
        logger, modify;
      cbn [fst snd];
      logged.
Qed.

End WebhookFacts.

(** C6. A webhook event whose order matches no stored payment is answered
    with the 200 acknowledgement; payments, files and users are as before;
    and the log has grown by the entry for the event, followed by what the
    handler logged. *)
Theorem unknown_order_acknowledged
  {N : Type} (cfg : Config N) (body : Webhook.Body)
  (d : Webhook.Data) (order : Webhook.Order) (w : World N) :
  Webhook.data body = Some d ->
  Webhook.order d = Some order ->
  find (by_cashfreeOrderId (Webhook.cf_order_id order)) (payments w) = None ->
  fst (paymentWebhook cfg body w) = Return acknowledged
  /\ same_store w (snd (paymentWebhook cfg body w))
  /\ exists entries,
       log (snd (paymentWebhook cfg body w))
       = log w ++ received body :: entries.
Proof.
  intros Hd Ho Hfind. rewrite paymentWebhook_run. cbn [fst snd].
  set (w1 := set_log w (log w ++ [received body])).
  destruct (dispatch_unknown_order cfg body w1 Hd Ho Hfind)
    as [(P & F & U & I & T) [entries L]].
  split; [reflexivity|]. split.
  - repeat split; assumption.
  - exists entries. rewrite L. unfold w1. cbn [log set_log].
    now rewrite <- app_assoc.
Qed.

(** A success event for the unknown order [cf_unknown]. *)
Lemma unknown_order_acknowledged_witness :
  fst (paymentWebhook Sample.cfg Sample.stray_event Sample.w_pending)
  = Return acknowledged
  /\ same_store Sample.w_pending
       (snd (paymentWebhook Sample.cfg Sample.stray_event Sample.w_pending))
  /\ exists entries,
       log (snd (paymentWebhook Sample.cfg Sample.stray_event Sample.w_pending))
       = log Sample.w_pending ++ received Sample.stray_event :: entries.
Proof.
  apply (unknown_order_acknowledged Sample.cfg Sample.stray_event
           (d := Webhook.mkData (Some (Webhook.mkOrder None "cf_unknown"))
                                (Some Sample.paid_upi))
           (order := Webhook.mkOrder None "cf_unknown")); reflexivity.
Defined.

(** C7. Every webhook request is answered with the 200 acknowledgement,
    and so is every request that follows it; a malformed event leaves
    payments, files, users, counters and clock as they were. *)
Theorem webhook_always_acknowledged
  {N : Type} (cfg : Config N) (body : Webhook.Body) (w : World N) :
  fst (paymentWebhook cfg body w) = Return acknowledged
  /\ (forall next : Webhook.Body,
         fst (paymentWebhook cfg next (snd (paymentWebhook cfg body w)))
         = Return acknowledged)
  /\ (malformed body = true ->
      same_store w (snd (paymentWebhook cfg body w))).
Proof.
  split; [|split].
  - now rewrite paymentWebhook_run.
  - intros next. now rewrite (paymentWebhook_run cfg next).
  - intros Hm. rewrite paymentWebhook_run. cbn [snd].
    destruct (dispatch_malformed cfg body
                (set_log w (log w ++ [received body])) Hm)
      as [(P & F & U & I & T) _].
    repeat split; assumption.
Qed.

(** A success event without its payment object, for a stored order. *)
Lemma webhook_always_acknowledged_witness :
  malformed Sample.truncated_event = true
  /\ same_store Sample.w_pending
       (snd (paymentWebhook Sample.cfg Sample.truncated_event Sample.w_pending)).
Proof.
  split; [reflexivity|].
  apply (proj2 (proj2 (webhook_always_acknowledged Sample.cfg
                         Sample.truncated_event Sample.w_pending))).
  reflexivity.
Defined.

(** ** Lists as collections *)

Section Collections.
Context {A : Type}.

(** Putting a document back that still satisfies the filter, in place of the
    first one with its key, makes it the first that satisfies the filter. *)
Lemma find_update_first (q same : A -> bool) (x x' : A) (l : list A) :
  find q l = Some x ->
  same x = true ->
  q x' = true ->
  find q (update_first same (fun _ => x') l) = Some x'.
Proof.
  intros Hfind Hsame Hq. induction l as [|y r IH]; cbn in *; [discriminate|].
  destruct (q y) eqn:Hqy.
  - injection Hfind as ->. rewrite Hsame. cbn. now rewrite Hq.
  - destruct (same y); cbn.
    + now rewrite Hq.
    + rewrite Hqy. now apply IH.
Qed.

(** A second write under the same key replaces the first. *)
Lemma update_first_overwrite (same : A -> bool) (x x' : A) (l : list A) :
  same x = true ->
  update_first same (fun _ => x') (update_first same (fun _ => x) l)
  = update_first same (fun _ => x') l.
Proof.
  intros Hsame. induction l as [|y r IH]; cbn; [reflexivity|].
  destruct (same y) eqn:Hy; cbn.
  - now rewrite Hsame.
  - now rewrite Hy, IH.
Qed.

(** Deleting by a key that only the last document has gives back the
    collection as it was before the insert. *)
Lemma delete_first_inserted (q : A -> bool) (x : A) (l : list A) :
  (forall y, In y l -> q y = false) ->
  q x = true ->
  delete_first q (l ++ [x]) = l.
Proof.
  intros Hl Hx. induction l as [|y r IH]; cbn.
  - now rewrite Hx.
  - rewrite (Hl y (or_introl eq_refl)). f_equal.
    apply IH. intros z Hz. apply Hl. now right.
Qed.

End Collections.

(** ** The unique indexes and [save] *)

#[global] Arguments valid_paymentMethod m : simpl never.
#[global] Arguments duplicate_key {N} d coll : simpl never.
#[global] Arguments show_nat n : simpl never.

Section SaveFacts.
Context {N : Type}.
Implicit Types (p : Payment.t N) (d : @Doc N) (w : World N).

(** The identifier and the three indexed paths a save looks at. *)
Definition same_keys p p' : Prop :=
  Payment._id p' = Payment._id p
  /\ Payment.cashfreeOrderId p' = Payment.cashfreeOrderId p
  /\ Payment.cashfreePaymentId p' = Payment.cashfreePaymentId p
  /\ Payment.transactionId p' = Payment.transactionId p.

Lemma duplicate_key_same_keys p p' (coll : list (Payment.t N)) :
  same_keys p p' -> duplicate_key p' coll = duplicate_key p coll.
Proof.
  intros (Hi & Ho & Hp & Ht). unfold duplicate_key, clashes.
  now rewrite Hi, Ho, Hp, Ht.
Qed.

(** A document does not clash with a stored version of itself. *)
Lemma clashes_update_first (path : Payment.t N -> option string) p p'
      (coll : list (Payment.t N)) :
  Payment._id p' = Payment._id p ->
  clashes path p
    (update_first (fun o => Payment._id o =? Payment._id p)%nat (fun _ => p') coll)
  = clashes path p coll.
Proof.
  intros Hid. unfold clashes. destruct (path p) as [v|]; [|reflexivity].
  induction coll as [|y r IH]; cbn; [reflexivity|].
  destruct (Payment._id y =? Payment._id p)%nat eqn:Hy; cbn.
  - rewrite ?Hid, ?Nat.eqb_refl. reflexivity.
  - rewrite ?Hy, IH. reflexivity.
Qed.

Lemma duplicate_key_update_first p p' (coll : list (Payment.t N)) :
  Payment._id p' = Payment._id p ->
  duplicate_key p
    (update_first (fun o => Payment._id o =? Payment._id p)%nat (fun _ => p') coll)
  = duplicate_key p coll.
Proof.
  intros Hid. unfold duplicate_key.
  now rewrite !clashes_update_first by assumption.
Qed.

Definition invalid_method : Exn :=
  ValidationError "Payment validation failed: paymentMethod".

(** [save()] on a document that came out of a query. *)
Lemma save_stored d w :
  isNew d = false ->
  save (d, w)
  = if negb (valid_paymentMethod (Payment.paymentMethod (fields d))) then
      (Throw invalid_method, (d, w))
    else if negb (existsb (fun o => Payment._id o =? Payment._id (fields d))%nat
                          (payments w)) then
      (Throw DocumentNotFound, (d, w))
    else
      match duplicate_key (fields d) (payments w) with
      | Some path => (Throw (DuplicateKey path), (d, w))
      | None =>
          (Return tt,
           (d, set_payments w
                 (update_first
                    (fun o => Payment._id o =? Payment._id (fields d))%nat
                    (fun _ => fields d) (payments w))))
      end.
Proof.
  destruct d as [new p]. cbn [isNew fields]. intros ->.
  unfold save, pre_save, bind, this, gets, throw, lift, modify, ret.
  cbn.
  destruct (valid_paymentMethod (Payment.paymentMethod p)); cbn;
    [|reflexivity].
  destruct (existsb _ (payments w)); cbn; [|reflexivity].
  destruct (duplicate_key p (payments w)); reflexivity.
Qed.

(** A stored document that passes the schema is written back. *)
Lemma save_stored_ok d w :
  isNew d = false ->
  valid_paymentMethod (Payment.paymentMethod (fields d)) = true ->
  existsb (fun o => Payment._id o =? Payment._id (fields d))%nat (payments w) = true ->
  duplicate_key (fields d) (payments w) = None ->
  save (d, w)
  = (Return tt,
     (d, set_payments w
           (update_first (fun o => Payment._id o =? Payment._id (fields d))%nat
                         (fun _ => fields d) (payments w)))).
Proof.
  intros Hnew Hvalid Hex Hdup.
  now rewrite (save_stored d w Hnew), Hvalid, Hex, Hdup.
Qed.

Lemma stored_has_id p (coll : list (Payment.t N)) :
  In p coll ->
  existsb (fun o => Payment._id o =? Payment._id p)%nat coll = true.
Proof.
  intros Hin. apply existsb_exists. exists p. split; [assumption|].
  apply Nat.eqb_refl.
Qed.

End SaveFacts.

#[global] Arguments save {N} : simpl never.

(** ** Payout trigger *)

Section PayoutFacts.
Context {N : Type}.
Variable cfg : Config N.
Implicit Types (p : Payment.t N) (w : World N).

Lemma schema_ok_stored w p :
  schema_ok w -> In p (payments w) ->
  valid_paymentMethod (Payment.paymentMethod p) = true
  /\ duplicate_key p (payments w) = None.
Proof.
  unfold schema_ok. rewrite Forall_forall. intros Hall Hin. now apply Hall.
Qed.

Lemma payout_without_destination w p (creator : User.t) :
  CASHFREE_CONFIGURED cfg = true ->
  find (fun u => User._id u =? Payment.creatorId p)%nat (users w) = Some creator ->
  truthy_str (User.phone creator) = false ->
  truthy_str (User.upiId creator) = false ->
  In p (payments w) ->
  schema_ok w ->
  with_doc (mkDoc false p) (processCreatorPayout cfg) w
  = (Return tt,
     mkWorld
       (update_first (fun o => Payment._id o =? Payment._id p)%nat
                     (fun _ => payout_refused p) (payments w))
       (files w) (users w)
       (log w ++ [Log level_warn "Creator has no UPI phone/ID, skipping payout" []])
       (next_id w) (tick w)).
Proof.
  intros Hcfg Hcreator Hphone Hupi Hin Hschema.
  destruct (@schema_ok_stored w p Hschema Hin) as [Hvalid Hdup].
  pose proof (stored_has_id p (payments w) Hin) as Hex.
  unfold with_doc, processCreatorPayout, try_catch, bind, lift, this, gets,
    assign, modify, logger_warn, logger, User_findById.
  rewrite Hcfg. cbn. rewrite Hcreator, Hphone, Hupi. cbn.
  destruct p. cbn in *.
  rewrite save_stored_ok; cbn; try assumption; reflexivity.
Qed.

End PayoutFacts.

(** C8 (as the code has it). When the gateway is configured and the
    creator of a stored payment has neither a phone number nor a UPI id, the
    payout trigger writes [payoutStatus = failed] with the reason
    "Creator UPI details missing" and stops: it logs one warning, never
    marks the payout as processing, draws no payout or transfer id and
    changes nothing else. *)
Theorem missing_destination_fails_payout
  {N : Type} (cfg : Config N) (w : World N) (p : Payment.t N) (creator : User.t) :
  CASHFREE_CONFIGURED cfg = true ->
  find (fun u => User._id u =? Payment.creatorId p)%nat (users w) = Some creator ->
  truthy_str (User.phone creator) = false ->
  truthy_str (User.upiId creator) = false ->
  In p (payments w) ->
  schema_ok w ->
  with_doc (mkDoc false p) (processCreatorPayout cfg) w
  = (Return tt,
     mkWorld
       (update_first (fun o => Payment._id o =? Payment._id p)%nat
                     (fun _ => payout_refused p) (payments w))
       (files w) (users w)
       (log w ++ [Log level_warn "Creator has no UPI phone/ID, skipping payout" []])
       (next_id w) (tick w))
  /\ Payment.payoutStatus (payout_refused p) = payout_failed
  /\ Payment.payoutFailureReason (payout_refused p)
     = Some "Creator UPI details missing"
  /\ Payment.payoutId (payout_refused p) = Payment.payoutId p
  /\ Payment.payoutTransferId (payout_refused p) = Payment.payoutTransferId p.
Proof.
  intros Hcfg Hcreator Hphone Hupi Hin Hschema.
  split; [now apply payout_without_destination with (creator := creator)|].
  destruct p; repeat split.
Qed.

(** The payout for Meera's sketch, with the gateway configured. *)
Lemma missing_destination_fails_payout_witness :
  option_map (@Payment.payoutStatus float)
    (find (by_cashfreeOrderId "cf_900")
       (payments (snd (with_doc (mkDoc false Sample.sketch_payment)
                         (processCreatorPayout Sample.cfg) Sample.w_sketch))))
  = Some payout_failed.
Proof.
  assert (Hschema : schema_ok Sample.w_sketch) by repeat constructor.
  rewrite (proj1 (@missing_destination_fails_payout float Sample.cfg
                    Sample.w_sketch Sample.sketch_payment Sample.meera
                    eq_refl eq_refl eq_refl eq_refl
                    (or_introl eq_refl) Hschema)).
  reflexivity.
Defined.

(** C8 (as stated) fails on the code. On a server started without gateway
    credentials the payout trigger returns before it looks at the creator:
    the payout for Meera's sketch ends as [not_required], without a failure
    reason, although Meera registered no destination. *)
Lemma missing_destination_not_required :
  truthy_str (User.phone Sample.meera) = false
  /\ truthy_str (User.upiId Sample.meera) = false
  /\ option_map (fun p : Payment.t float =>
                   (Payment.payoutStatus p, Payment.payoutFailureReason p))
       (find (by_cashfreeOrderId "cf_900")
          (payments (snd (with_doc (mkDoc false Sample.sketch_payment)
                            (processCreatorPayout Sample.cfg_off)
                            Sample.w_sketch))))
     = Some (not_required, None).
Proof. repeat split. Qed.

(** ** Order creation *)

#[global] Arguments createCashfreeOrder {N} cashfreeAPI_post orderData : simpl never.

Section OrderFacts.
Context {N : Type} `{JsNumber N}.
Variable cfg : Config N.
Variable post : Cashfree.CreateOrderRequest N -> Outcome Cashfree.CreateOrderResponse.
Implicit Types (p : Payment.t N) (w : World N).

(** The order id of the pre-save hook at the clock [t]. *)
Definition uplink_token (t : nat) : string :=
  ("uplink_" ++ show_nat t ++ "_" ++ show_nat (S t))%string.

(** A new document as its first save completes it. *)
Definition as_inserted p (t : nat) : Payment.t N :=
  Payment.with_createdAt
    (Payment.with_cashfreeOrderId p (Some (uplink_token t))) (S (S t)).

(** The first [save()] of a document built without an order id. *)
Lemma save_new p w :
  valid_paymentMethod (Payment.paymentMethod p) = true ->
  Payment.cashfreeOrderId p = None ->
  save (mkDoc true p, w)
  = let p' := as_inserted p (tick w) in
    match duplicate_key p' (payments w) with
    | Some path =>
        (Throw (DuplicateKey path),
         (mkDoc true p', set_tick w (S (S (S (tick w))))))
    | None =>
        (Return tt,
         (mkDoc false p',
          mkWorld (payments w ++ [p']) (files w) (users w) (log w)
                  (next_id w) (S (S (S (tick w))))))
    end.
Proof.
  intros Hvalid Htoken. destruct p. cbn in Hvalid, Htoken. subst.
  unfold save, pre_save, bind, this, gets, throw, lift, modify, ret, assign,
    Date_now, Math_random, as_inserted, uplink_token.
  cbn. rewrite Hvalid. cbn.
  destruct (duplicate_key _ (payments w)); reflexivity.
Qed.

(** When the HTTP call fails, [createCashfreeOrder] throws, and only logs. *)
Lemma createCashfreeOrder_throws (r : Cashfree.CreateOrderRequest N) w :
  (exists e, post r = Throw e) ->
  exists e entries,
    createCashfreeOrder post r w = (Throw e, set_log w (log w ++ entries)).
Proof.
  intros [e He].
  unfold createCashfreeOrder, try_catch, bind, await, logger_info,
    logger_error, logger, modify, throw.
  rewrite He.
  match goal with |- context [if ?b then _ else _] => destruct b end;
    cbn; eexists; eexists; rewrite <- ?app_assoc; reflexivity.
Qed.

Lemma fresh_id_unused w :
  ids_handed_out w ->
  forall y, In y (payments w) -> (Payment._id y =? next_id w)%nat = false.
Proof.
  intros Hbelow y Hy. unfold ids_handed_out in Hbelow.
  rewrite Forall_forall in Hbelow.
  apply Nat.eqb_neq. specialize (Hbelow y Hy). lia.
Qed.

Lemma find_fresh_id w :
  ids_handed_out w ->
  find (fun y => Payment._id y =? next_id w)%nat (payments w) = None.
Proof.
  intros Hwf. destruct (find _ (payments w)) as [y|] eqn:Hfind; [|reflexivity].
  apply find_some in Hfind as [Hin Hid].
  now rewrite (fresh_id_unused Hwf y Hin) in Hid.
Qed.

Lemma rollback_on_gateway_failure (req : AuthRequest) w :
  ids_handed_out w ->
  (forall r, exists e, post r = Throw e) ->
  payments (snd (createPaymentOrder cfg post req w)) = payments w.
Proof.
  intros Hwf Hpost.
  unfold createPaymentOrder, try_catch at 1, bind at 1.
  destruct (validation_failed req); [reflexivity|].
  destruct (CASHFREE_CONFIGURED cfg); [|reflexivity].
  cbn [negb]. unfold File_findById, User_findById, bind, gets.
  destruct (find _ (files w)) as [file|]; [|reflexivity].
  destruct (File.price file) as [amount|]; [|reflexivity].
  match goal with |- context [if ?b then _ else _] => destruct b end;
    [reflexivity|].
  match goal with |- context [if ?b then _ else _] => destruct b end;
    [reflexivity|].
  destruct (find _ (users w)) as [creator|]; [|reflexivity].
  destruct (commissionSplit amount (PLATFORM_COMMISSION_RATE cfg))
    as [platformCommission creatorShare].
  unfold new_ObjectId, with_doc, try_catch, bind.
  match goal with |- context [mkDoc true ?q] => set (p0 := q) end.
  rewrite save_new by reflexivity. cbv zeta.
  match goal with |- context [duplicate_key ?q _] => set (p1 := q) end.
  destruct (duplicate_key p1 _); [reflexivity|].
  unfold lift, this, gets, assign, modify, logger_info, logger_error, logger,
    Payment_findByIdAndDelete, ret.
  cbn.
  match goal with
  | |- context [createCashfreeOrder post ?r ?w1] =>
      destruct (createCashfreeOrder_throws w1 (Hpost r))
        as (e & entries & ->)
  end.
  cbn. apply delete_first_inserted.
  - apply (fresh_id_unused Hwf).
  - apply Nat.eqb_refl.
Qed.

End OrderFacts.

(** C3. When the call of the gateway throws, [createPaymentOrder] leaves
    the payments collection as it found it: the pending record it had just
    inserted is deleted again, and no record with the identifier handed out
    for the request is stored. *)
Theorem gateway_failure_rolls_back
  {N : Type} `{JsNumber N} (cfg : Config N)
  (post : Cashfree.CreateOrderRequest N -> Outcome Cashfree.CreateOrderResponse)
  (req : AuthRequest) (w : World N) :
  ids_handed_out w ->
  (forall r, exists e, post r = Throw e) ->
  payments (snd (createPaymentOrder cfg post req w)) = payments w
  /\ find (fun p => Payment._id p =? next_id w)%nat
          (payments (snd (createPaymentOrder cfg post req w))) = None.
Proof.
  intros Hwf Hpost.
  rewrite (rollback_on_gateway_failure cfg post req Hwf Hpost).
  split; [reflexivity | now apply find_fresh_id].
Qed.

(** Ravi orders the poster while the gateway is down: the answer is the
    500 of the inner [catch], and the store holds no payment. *)
Lemma gateway_failure_rolls_back_witness :
  fst (createPaymentOrder Sample.cfg Sample.gateway_down Sample.order_request
         Sample.w0)
  = Return (Res.mk 500 false "Failed to create payment order"
              (Res.ErrorText "order could not be created"))
  /\ payments (snd (createPaymentOrder Sample.cfg Sample.gateway_down
                      Sample.order_request Sample.w0))
     = payments Sample.w0.
Proof.
  split; [reflexivity|].
  apply (gateway_failure_rolls_back Sample.cfg Sample.gateway_down
           Sample.order_request (w := Sample.w0)).
  - constructor.
  - intros r. eexists. reflexivity.
Defined.

(** ** A program logic for the handlers *)

Section Hoare.
Context {S : Type}.
Implicit Types (P Q R : S -> Prop).

(** Whatever the outcome, a run of [m] from a state in [P] ends in [Q]. *)
Definition hoare {A} P (m : M S A) Q : Prop :=
  forall s, P s -> Q (snd (m s)).

Lemma hoare_ret {A} P (a : A) : hoare P (ret a) P.
Proof. intros s Hs. exact Hs. Qed.

Lemma hoare_weaken {A} P P' Q Q' (m : M S A) :
  (forall s, P' s -> P s) -> (forall s, Q s -> Q' s) ->
  hoare P m Q -> hoare P' m Q'.
Proof. intros HP HQ Hm s Hs. apply HQ, Hm, HP, Hs. Qed.

Lemma hoare_bind {A B} P R Q (m : M S A) (k : A -> M S B) :
  hoare P m R ->
  (forall s, R s -> Q s) ->
  (forall a, hoare R (k a) Q) ->
  hoare P (bind m k) Q.
Proof.
  intros Hm HRQ Hk s Hs. unfold bind. specialize (Hm s Hs).
  destruct (m s) as [[a|e] s']; cbn in *; [now apply Hk | now apply HRQ].
Qed.

Lemma hoare_try_catch {A} P R Q (m : M S A) (h : Exn -> M S A) :
  hoare P m R ->
  (forall s, R s -> Q s) ->
  (forall e, hoare R (h e) Q) ->
  hoare P (try_catch m h) Q.
Proof.
  intros Hm HRQ Hh s Hs. unfold try_catch. specialize (Hm s Hs).
  destruct (m s) as [[a|e] s']; cbn in *; [now apply HRQ | now apply Hh].
Qed.

(** The rules for an invariant. *)
Lemma inv_bind {A B} P (m : M S A) (k : A -> M S B) :
  hoare P m P -> (forall a, hoare P (k a) P) -> hoare P (bind m k) P.
Proof. intros Hm Hk. apply hoare_bind with (R := P); auto. Qed.

Lemma inv_try_catch {A} P (m : M S A) (h : Exn -> M S A) :
  hoare P m P -> (forall e, hoare P (h e) P) -> hoare P (try_catch m h) P.
Proof. intros Hm Hh. apply hoare_try_catch with (R := P); auto. Qed.

(** A read of the state passes its value on and changes nothing. *)
Lemma hoare_bind_gets {A B} P Q (f : S -> A) (k : A -> M S B) :
  (forall a, hoare (fun s => P s /\ f s = a) (k a) Q) ->
  hoare P (bind (gets f) k) Q.
Proof. intros Hk s Hs. unfold bind, gets. now apply Hk. Qed.

End Hoare.

Section LocalHoare.
Context {N : Type}.
Implicit Types (d : @Doc N) (w : World N).

Lemma hoare_with_doc {A} (P Q : World N -> Prop) (I I' : @Local N -> Prop)
      d (m : M (@Local N) A) :
  (forall w, P w -> I (d, w)) ->
  hoare I m I' ->
  (forall d' w', I' (d', w') -> Q w') ->
  hoare P (with_doc d m) Q.
Proof.
  intros Hin Hm Hout w Hw. unfold with_doc.
  specialize (Hm (d, w) (Hin w Hw)).
  destruct (m (d, w)) as [r [d' w']]. cbn in *. now apply Hout with d'.
Qed.

(** [save()] of a stored document either throws and writes nothing, or
    puts the document in the place of the stored one with its [_id]. *)
Lemma hoare_save (P Q : @Local N -> Prop) :
  (forall d w, P (d, w) -> isNew d = false) ->
  (forall d w, P (d, w) -> Q (d, w)) ->
  (forall d w,
      P (d, w) ->
      valid_paymentMethod (Payment.paymentMethod (fields d)) = true ->
      existsb (fun o => Payment._id o =? Payment._id (fields d))%nat
              (payments w) = true ->
      duplicate_key (fields d) (payments w) = None ->
      Q (d, set_payments w
              (update_first
                 (fun o => Payment._id o =? Payment._id (fields d))%nat
                 (fun _ => fields d) (payments w)))) ->
  hoare P save Q.
Proof.
  intros Hnew Hthrow Hok [d w] Hs. rewrite (save_stored d w (Hnew d w Hs)).
  destruct (valid_paymentMethod _) eqn:Hvalid; cbn [negb];
    [|now apply Hthrow].
  destruct (existsb _ (payments w)) eqn:Hex; cbn [negb]; [|now apply Hthrow].
  destruct (duplicate_key _ (payments w)) eqn:Hdup; cbn [snd];
    [now apply Hthrow | now apply Hok].
Qed.

End LocalHoare.


(** Structural steps of a proof that a handler keeps an invariant; [known]
    closes the calls for which a lemma is at hand, [leaf] the primitive
    operations. *)
Ltac inv_steps known leaf :=
  repeat (cbv zeta;
          first
            [ known
            | lazymatch goal with
              | |- hoare _ (bind _ _) _ => apply inv_bind; [ | intros ? ]
              | |- hoare _ (try_catch _ _) _ =>
                  apply inv_try_catch; [ | intros ? ]
              | |- hoare _ (if ?b then _ else _) _ => destruct b
              | |- hoare _ (match ?x with _ => _ end) _ => destruct x
              | |- hoare _ (lift (match ?x with _ => _ end)) _ => destruct x
              | |- hoare _ _ _ => leaf
              end ]).

(** A primitive operation that leaves alone what the invariant reads. *)
Ltac local_leaf :=
  idtac; let HI := fresh "HI" in intros [[? []] ?] HI; exact HI.

Ltac world_leaf :=
  idtac; let HI := fresh "HI" in intros ? HI; exact HI.

(** The part of [inv_steps] that knows how a webhook handler gets at its
    record: the lemmas for [save], for the payout trigger, for the record
    found and for leaving the handler, and the invariant of the world. *)
Ltac handler_known save_l payout_l found_l out_l J :=
  idtac;
  lazymatch goal with
  | |- hoare _ save _ => apply save_l
  | |- hoare _ (processCreatorPayout _) _ => apply payout_l
  | |- hoare _ (bind (Payment_findOne _) _) _ =>
      unfold Payment_findOne; apply hoare_bind_gets;
      intros [?|];
      [ eapply hoare_with_doc; [ apply found_l | | apply out_l ]
      | apply hoare_weaken with (P := J) (Q := J);
        [ now intros ? [? _] | auto | ] ]
  end.

(** ** The order token under webhook processing *)

Section TokenFacts.
Context {N : Type}.
Variable cfg : Config N.

Lemma map_key_update_first (x : Payment.t N) (l : list (Payment.t N)) :
  NoDup (map (@Payment._id N) l) ->
  In (key x) (map key l) ->
  map key (update_first (fun o => Payment._id o =? Payment._id x)%nat
                        (fun _ => x) l)
  = map key l.
Proof.
  induction l as [|y r IH]; cbn; [reflexivity|].
  intros Hnodup Hin. inversion Hnodup as [|? ? Hnotin Hr]; subst.
  destruct (Payment._id y =? Payment._id x)%nat eqn:Hy; cbn.
  - apply Nat.eqb_eq in Hy. f_equal.
    destruct Hin as [Heq|Hin]; [now symmetry|].
    exfalso. apply Hnotin. rewrite Hy.
    apply (in_map fst) in Hin. now rewrite map_map in Hin.
  - f_equal. apply IH; [assumption|].
    destruct Hin as [Heq|Hin]; [|assumption].
    apply Nat.eqb_neq in Hy. exfalso. apply Hy.
    now apply (f_equal fst) in Heq.
Qed.

Variable K : list (Id * option string).
Hypothesis K_nodup : NoDup (map fst K).

Definition keys_are (w : World N) : Prop := map key (payments w) = K.

(** The handler holds a stored document, with the token it is stored
    with. *)
Definition holds_stored (s : @Local N) : Prop :=
  isNew (fst s) = false /\ keys_are (snd s)
  /\ In (key (fields (fst s))) K.

Lemma save_keeps_keys : hoare holds_stored save holds_stored.
Proof.
  apply hoare_save.
  - intros d w (Hnew & _). exact Hnew.
  - intros d w HI. exact HI.
  - intros d w (Hnew & Hkeys & Hin) _ _ _.
    unfold holds_stored, keys_are in *. cbn [fst snd payments set_payments] in *.
    repeat split; try assumption.
    rewrite map_key_update_first; [assumption| |].
    + rewrite <- Hkeys, map_map in K_nodup. exact K_nodup.
    + now rewrite Hkeys.
Qed.

Lemma payout_keeps_keys :
  hoare holds_stored (processCreatorPayout cfg) holds_stored.
Proof.
  unfold processCreatorPayout.
  inv_steps ltac:(apply save_keeps_keys) ltac:(local_leaf).
Qed.

Lemma found_is_stored (q : Payment.t N -> bool) (p : Payment.t N) (w : World N) :
  keys_are w /\ find q (payments w) = Some p ->
  holds_stored (mkDoc false p, w).
Proof.
  intros [Hkeys Hfind]. repeat split; [assumption|].
  cbn [fst snd fields]. rewrite <- Hkeys.
  apply in_map. apply (find_some _ _ Hfind).
Qed.

Lemma stored_keys (d : @Doc N) (w : World N) :
  holds_stored (d, w) -> keys_are w.
Proof. now intros (_ & Hkeys & _). Qed.

Ltac keys_known :=
  handler_known save_keeps_keys payout_keeps_keys found_is_stored stored_keys
                keys_are.

Lemma success_keeps_keys data :
  hoare keys_are (handlePaymentSuccess cfg data) keys_are.
Proof.
  unfold handlePaymentSuccess, destructure, member.
  inv_steps ltac:(keys_known) ltac:(first [world_leaf | local_leaf]).
Qed.

Lemma failure_keeps_keys data :
  hoare keys_are (@handlePaymentFailure N data) keys_are.
Proof.
  unfold handlePaymentFailure, destructure, member.
  inv_steps ltac:(keys_known) ltac:(first [world_leaf | local_leaf]).
Qed.

Lemma dropped_keeps_keys data :
  hoare keys_are (@handlePaymentDropped N data) keys_are.
Proof.
  unfold handlePaymentDropped, destructure, member.
  inv_steps ltac:(keys_known) ltac:(first [world_leaf | local_leaf]).
Qed.

Lemma dispatch_keeps_keys body : hoare keys_are (dispatch cfg body) keys_are.
Proof.
  unfold dispatch.
  repeat match goal with |- context [if ?b then _ else _] => destruct b end;
    first [ apply success_keeps_keys | apply failure_keeps_keys
          | apply dropped_keeps_keys | apply hoare_ret ].
Qed.

End TokenFacts.

(** C9 (as the code has it). Webhook processing never changes the
    [cashfreeOrderId] of a stored payment: the list of identifiers with
    their order tokens is the same after every webhook request as before
    it. The token is settled earlier, within [createPaymentOrder], where the
    value of the pre-save hook is replaced by the gateway's [cf_order_id]. *)
Theorem webhooks_keep_order_token
  {N : Type} (cfg : Config N) (body : Webhook.Body) (w : World N) :
  NoDup (map (@Payment._id N) (payments w)) ->
  map key (payments (snd (paymentWebhook cfg body w))) = map key (payments w).
Proof.
  intros Hnodup. rewrite paymentWebhook_run. cbn [snd].
  apply (@dispatch_keeps_keys N cfg (map key (payments w))).
  - now rewrite map_map.
  - reflexivity.
Qed.

(** The success event for Ravi's pending payment. *)
Lemma webhooks_keep_order_token_witness :
  map key (payments (snd (paymentWebhook Sample.cfg Sample.success_event
                            Sample.w_pending)))
  = [(100, Some "cf_777")].
Proof.
  apply (webhooks_keep_order_token Sample.cfg Sample.success_event
           Sample.w_pending).
  repeat constructor. intros [].
Defined.

(** C9 (as stated) fails on the code. The first save of Ravi's order stores
    the token [uplink_1000_1001] of the pre-save hook; by the end of
    [createPaymentOrder] the same record carries the gateway's [cf_777]. *)
Lemma order_token_replaced_after_gateway_call :
  let payment :=
    Payment.mk 100 10 1 2 500%float "INR" pending "upi" None None None None
               None 50%float 450%float payout_pending None None None None
               (Some "9876543210") 0 in
  map key (payments (snd (with_doc (mkDoc true payment) save
                            (set_next_id Sample.w0 101))))
  = [(100, Some "uplink_1000_1001")]
  /\ map key (payments (snd (createPaymentOrder Sample.cfg Sample.gateway_ok
                               Sample.order_request Sample.w0)))
     = [(100, Some "cf_777")]
  /\ fst (createPaymentOrder Sample.cfg Sample.gateway_ok
            Sample.order_request Sample.w0)
     = Return (Res.mk 201 true "Payment order created successfully"
                 (Res.OrderCreated 100 500%float "INR" pending "cf_777"
                    "session_1" "uplink_1000_1001")).
Proof. repeat split. Qed.

(** ** A success event that the store accepts *)

#[global] Arguments processCreatorPayout {N} cfg : simpl never.

Section SettleFacts.
Context {N : Type}.
Variable cfg : Config N.
Implicit Types (p : Payment.t N) (w : World N) (pd : Webhook.PaymentData).

(** The document as [handlePaymentSuccess] saves it at the clock [t]. *)
Definition settled p pd (t : Time) : Payment.t N :=
  Payment.with_paidAt
    (Payment.with_paymentMethod
       (with_gateway_ids (Payment.with_status p completed) pd)
       (recorded_method pd))
    (Some t).

(** The world in which [handlePaymentSuccess] calls the payout trigger. *)
Definition settled_world w p pd (cfOrderId : string) : World N :=
  mkWorld
    (update_first (fun o => Payment._id o =? Payment._id p)%nat
                  (fun _ => settled p pd (tick w)) (payments w))
    (update_first (fun f => File._id f =? Payment.fileId p)%nat
                  (fun f => File.with_status f delivered) (files w))
    (users w)
    (log w ++ [Log level_info "Processing payment success:" [cfOrderId];
               Log level_info "Payment completed:" [show_nat (Payment._id p)]])
    (next_id w) (S (tick w)).

(** The end of [handlePaymentSuccess] after the payout trigger. *)
Definition after_payout (x : Outcome unit * @Local N) : Outcome unit * World N :=
  match x with
  | (Return a, s) => (Return a, snd s)
  | (Throw e, s) =>
      logger_error "Error handling payment success:" [exn_message e] (snd s)
  end.

Lemma success_settles d order pd p w :
  Webhook.order d = Some order ->
  Webhook.payment d = Some pd ->
  find (by_cashfreeOrderId (Webhook.cf_order_id order)) (payments w) = Some p ->
  accepted w p pd ->
  handlePaymentSuccess cfg (Some d) w
  = after_payout
      (processCreatorPayout cfg
         (mkDoc false (settled p pd (tick w)),
          settled_world w p pd (Webhook.cf_order_id order))).
Proof.
  intros Ho Hp Hfind [Hvalid Hdup].
  pose proof (stored_has_id p (payments w) (proj1 (find_some _ _ Hfind))) as Hex.
  unfold handlePaymentSuccess, try_catch, bind, destructure, member, ret,
    logger_info, logger, modify, Payment_findOne, gets, with_doc, lift,
    assign, this, Date_now, File_findByIdAndUpdate.
  rewrite Ho, Hp. cbn. rewrite Hfind. cbn.
  destruct p. unfold with_gateway_ids in *. cbn in *.
  rewrite save_stored_ok; cbn;
    [ | solve [ reflexivity | assumption
              | erewrite duplicate_key_same_keys;
                [exact Hdup | repeat split] ] .. ].
  rewrite <- app_assoc.
  match goal with
  | |- context [processCreatorPayout cfg ?s] =>
      transitivity (after_payout (processCreatorPayout cfg s));
      [ unfold after_payout;
        destruct (processCreatorPayout cfg s) as [[[]|e] [d' w']];
        reflexivity
      | reflexivity ]
  end.
Qed.

End SettleFacts.

Section DeliveredFacts.
Context {N : Type}.
Variable cfg : Config N.
Variable F : list (File.t N).
Variable cfOrderId : string.

(** From the save of [handlePaymentSuccess] on: the files are [F], and the
    payment found under the order token is the one the handler holds, stored
    and held as completed. *)
Definition stays_settled (s : @Local N) : Prop :=
  isNew (fst s) = false
  /\ files (snd s) = F
  /\ Payment.status (fields (fst s)) = completed
  /\ by_cashfreeOrderId cfOrderId (fields (fst s)) = true
  /\ exists x,
       find (by_cashfreeOrderId cfOrderId) (payments (snd s)) = Some x
       /\ Payment._id x = Payment._id (fields (fst s))
       /\ Payment.status x = completed.

Lemma save_stays_settled : hoare stays_settled save stays_settled.
Proof.
  apply hoare_save.
  - intros d w (Hnew & _). exact Hnew.
  - intros d w HI. exact HI.
  - intros d w (Hnew & Hfiles & Hstatus & Htoken & x & Hfind & Hid & _) _ _ _.
    unfold stays_settled. cbn [fst snd payments files set_payments] in *.
    repeat split; try assumption.
    exists (fields d). repeat split; try assumption.
    apply find_update_first with (x := x); try assumption.
    rewrite Hid. apply Nat.eqb_refl.
Qed.

Lemma payout_stays_settled :
  hoare stays_settled (processCreatorPayout cfg) stays_settled.
Proof.
  unfold processCreatorPayout.
  inv_steps ltac:(apply save_stays_settled) ltac:(local_leaf).
Qed.

End DeliveredFacts.

Section SuccessFacts.
Context {N : Type}.
Variable cfg : Config N.
Implicit Types (p : Payment.t N) (w : World N).

Lemma settled_world_settled (order : Webhook.Order) pd p w :
  find (by_cashfreeOrderId (Webhook.cf_order_id order)) (payments w) = Some p ->
  stays_settled
    (files (settled_world w p pd (Webhook.cf_order_id order)))
    (Webhook.cf_order_id order)
    (mkDoc false (settled p pd (tick w)),
     settled_world w p pd (Webhook.cf_order_id order)).
Proof.
  intros Hfind.
  assert (Htoken : by_cashfreeOrderId (Webhook.cf_order_id order)
                     (settled p pd (tick w)) = true).
  { pose proof (proj2 (find_some _ _ Hfind)) as Hq. destruct p. exact Hq. }
  unfold stays_settled. cbn [fst snd isNew fields files payments settled_world].
  repeat split; try assumption.
  - destruct p; reflexivity.
  - exists (settled p pd (tick w)). repeat split.
    + apply find_update_first with (x := p); try assumption.
      apply Nat.eqb_refl.
    + destruct p; reflexivity.
Qed.

(** What an accepted success event leaves behind, whatever the payout
    trigger does afterwards. *)
Lemma accepted_success_effect d order pd p w :
  Webhook.order d = Some order ->
  Webhook.payment d = Some pd ->
  find (by_cashfreeOrderId (Webhook.cf_order_id order)) (payments w) = Some p ->
  accepted w p pd ->
  let w' := snd (handlePaymentSuccess cfg (Some d) w) in
  (exists p',
      find (by_cashfreeOrderId (Webhook.cf_order_id order)) (payments w')
      = Some p'
      /\ Payment.status p' = completed)
  /\ files w'
     = update_first (fun f => File._id f =? Payment.fileId p)%nat
                    (fun f => File.with_status f delivered) (files w).
Proof.
  intros Ho Hp Hfind Hacc. cbv zeta.
  rewrite (@success_settles N cfg d order pd p w Ho Hp Hfind Hacc).
  pose proof (@payout_stays_settled N cfg _ _ _
                (settled_world_settled order pd w Hfind)) as HI.
  destruct (processCreatorPayout cfg _) as [[[]|e] [d' w']];
    cbn [snd fst after_payout] in *;
    destruct HI as (_ & Hfiles & _ & _ & x & Hx & _ & Hstatus);
    (split; [exists x; split; assumption | exact Hfiles]).
Qed.

End SuccessFacts.

Lemma success_type_dispatch {N : Type} (cfg : Config N) (body : Webhook.Body) :
  Webhook.type body = Some "PAYMENT_SUCCESS_WEBHOOK" ->
  dispatch cfg body = handlePaymentSuccess cfg (Webhook.data body).
Proof. unfold dispatch. now intros ->. Qed.

(** C10 (as the code has it). A success event that matches a stored
    payment and that the store accepts (the payload has its payment object,
    the recorded method is one of the schema's four, and no other payment
    holds the event's payment or transaction id) leaves that payment
    completed and also sets the status of the file the payment refers to
    to [delivered]; no other file changes. *)
Theorem success_event_delivers_file
  {N : Type} (cfg : Config N) (body : Webhook.Body) (d : Webhook.Data)
  (order : Webhook.Order) (pd : Webhook.PaymentData)
  (p : Payment.t N) (w : World N) :
  Webhook.type body = Some "PAYMENT_SUCCESS_WEBHOOK" ->
  Webhook.data body = Some d ->
  Webhook.order d = Some order ->
  Webhook.payment d = Some pd ->
  find (by_cashfreeOrderId (Webhook.cf_order_id order)) (payments w) = Some p ->
  accepted w p pd ->
  let w' := snd (paymentWebhook cfg body w) in
  (exists p',
      find (by_cashfreeOrderId (Webhook.cf_order_id order)) (payments w')
      = Some p'
      /\ Payment.status p' = completed)
  /\ files w'
     = update_first (fun f => File._id f =? Payment.fileId p)%nat
                    (fun f => File.with_status f delivered) (files w).
Proof.
  intros Htype Hd Ho Hp Hfind Hacc. cbv zeta.
  rewrite paymentWebhook_run, (success_type_dispatch cfg body Htype), Hd.
  cbn [snd].
  exact (@accepted_success_effect N cfg d order pd p
           (set_log w (log w ++ [received body])) Ho Hp Hfind Hacc).
Qed.

(** The success event for Ravi's pending payment of the poster. *)
Lemma success_event_delivers_file_witness :
  map (@Payment.status float)
      (payments (snd (paymentWebhook Sample.cfg Sample.success_event
                        Sample.w_pending)))
  = [completed]
  /\ map (@File.status float)
         (files (snd (paymentWebhook Sample.cfg Sample.success_event
                        Sample.w_pending)))
     = [delivered; ready]
  /\ files (snd (paymentWebhook Sample.cfg Sample.success_event
                   Sample.w_pending))
     = update_first (fun f => File._id f =? 10)%nat
                    (fun f => File.with_status f delivered)
                    (files Sample.w_pending).
Proof.
  split; [reflexivity|]. split; [reflexivity|].
  apply (proj2 (@success_event_delivers_file float Sample.cfg
                  Sample.success_event
                  (Webhook.mkData (Some Sample.order_777) (Some Sample.paid_upi))
                  Sample.order_777 Sample.paid_upi Sample.pending_payment
                  Sample.w_pending eq_refl eq_refl eq_refl eq_refl eq_refl
                  (conj eq_refl eq_refl))).
Defined.

(** C10 (as stated) fails on the code. A success event for Ravi's stored
    payment that lacks its payment object changes nothing, and neither
    does one whose payment method the schema rejects: the payment stays
    pending and the poster stays [ready]. *)
Lemma rejected_success_event_changes_nothing :
  find (by_cashfreeOrderId "cf_777") (payments Sample.w_pending)
  = Some Sample.pending_payment
  /\ Webhook.type Sample.truncated_event = Some "PAYMENT_SUCCESS_WEBHOOK"
  /\ payments (snd (paymentWebhook Sample.cfg Sample.truncated_event
                      Sample.w_pending))
     = [Sample.pending_payment]
  /\ map (@File.status float)
         (files (snd (paymentWebhook Sample.cfg Sample.truncated_event
                        Sample.w_pending)))
     = [ready; ready]
  /\ Webhook.type Sample.credit_card_event = Some "PAYMENT_SUCCESS_WEBHOOK"
  /\ payments (snd (paymentWebhook Sample.cfg Sample.credit_card_event
                      Sample.w_pending))
     = [Sample.pending_payment]
  /\ map (@File.status float)
         (files (snd (paymentWebhook Sample.cfg Sample.credit_card_event
                        Sample.w_pending)))
     = [ready; ready].
Proof. repeat split. Qed.

(** ** Events for a payment in any state *)

Section AnyStateFacts.
Context {N : Type}.
Variable cfg : Config N.
Implicit Types (p : Payment.t N) (w : World N).

(** The payment as a failure or user-dropped event leaves it. *)
Definition marked_failed p (reason : string) : Payment.t N :=
  Payment.with_payoutStatus
    (Payment.with_failureReason (Payment.with_status p failed) (Some reason))
    not_required.

Lemma marked_failed_found (cfOrderId reason : string) p w :
  find (by_cashfreeOrderId cfOrderId) (payments w) = Some p ->
  exists p',
    find (by_cashfreeOrderId cfOrderId)
         (update_first (fun o => Payment._id o =? Payment._id p)%nat
                       (fun _ => marked_failed p reason) (payments w))
    = Some p'
    /\ Payment.status p' = failed /\ Payment.payoutStatus p' = not_required.
Proof.
  intros Hfind. exists (marked_failed p reason).
  pose proof (proj2 (find_some _ _ Hfind)) as Hq.
  repeat split; try (destruct p; reflexivity).
  apply find_update_first with (x := p); try assumption.
  - apply Nat.eqb_refl.
  - destruct p. exact Hq.
Qed.

Lemma failure_event_effect d order p w :
  Webhook.order d = Some order ->
  find (by_cashfreeOrderId (Webhook.cf_order_id order)) (payments w) = Some p ->
  schema_ok w ->
  exists p',
    find (by_cashfreeOrderId (Webhook.cf_order_id order))
         (payments (snd (handlePaymentFailure (Some d) w))) = Some p'
    /\ Payment.status p' = failed /\ Payment.payoutStatus p' = not_required.
Proof.
  intros Ho Hfind Hschema.
  pose proof (proj1 (find_some _ _ Hfind)) as Hin.
  destruct (@schema_ok_stored N w p Hschema Hin) as [Hvalid Hdup].
  pose proof (stored_has_id p (payments w) Hin) as Hex.
  set (reason := trim (or_default
                         match Webhook.payment d with
                         | Some paymentData => Webhook.payment_message paymentData
                         | None => None
                         end "Payment failed")).
  destruct (marked_failed_found (Webhook.cf_order_id order) reason w Hfind)
    as (p' & Hp' & Hstatus & Hpayout).
  exists p'. split; [|split; assumption]. rewrite <- Hp'.
  unfold handlePaymentFailure, try_catch, bind, destructure, member, ret,
    logger_info, logger, modify, Payment_findOne, gets, with_doc, lift,
    assign, this.
  rewrite Ho. cbn. rewrite Hfind. cbn.
  subst reason. destruct p. cbn in *.
  rewrite save_stored_ok; cbn;
    [ reflexivity
    | solve [ reflexivity | assumption
            | erewrite duplicate_key_same_keys;
              [exact Hdup | repeat split] ] .. ].
Qed.

Lemma dropped_event_effect d order p w :
  Webhook.order d = Some order ->
  find (by_cashfreeOrderId (Webhook.cf_order_id order)) (payments w) = Some p ->
  schema_ok w ->
  exists p',
    find (by_cashfreeOrderId (Webhook.cf_order_id order))
         (payments (snd (handlePaymentDropped (Some d) w))) = Some p'
    /\ Payment.status p' = failed /\ Payment.payoutStatus p' = not_required.
Proof.
  intros Ho Hfind Hschema.
  pose proof (proj1 (find_some _ _ Hfind)) as Hin.
  destruct (@schema_ok_stored N w p Hschema Hin) as [Hvalid Hdup].
  pose proof (stored_has_id p (payments w) Hin) as Hex.
  destruct (marked_failed_found (Webhook.cf_order_id order)
              "Payment dropped by user" w Hfind)
    as (p' & Hp' & Hstatus & Hpayout).
  exists p'. split; [|split; assumption]. rewrite <- Hp'.
  unfold handlePaymentDropped, try_catch, bind, destructure, member, ret,
    logger_info, logger, modify, Payment_findOne, gets, with_doc, lift,
    assign, this.
  rewrite Ho. cbn. rewrite Hfind. cbn.
  destruct p. cbn in *.
  rewrite save_stored_ok; cbn;
    [ reflexivity
    | solve [ reflexivity | assumption
            | erewrite duplicate_key_same_keys;
              [exact Hdup | repeat split] ] .. ].
Qed.

End AnyStateFacts.

(** ** Runs of the payout trigger *)

#[global] Arguments payout_runs l : simpl never.

Lemma payout_runs_snoc (l : list LogEntry) (e : LogEntry) :
  payout_runs (l ++ [e])
  = (payout_runs l + if payout_entry e then 1 else 0)%nat.
Proof.
  unfold payout_runs. rewrite filter_app, length_app. cbn [filter].
  now destruct (payout_entry e).
Qed.

Section PayoutRuns.
Context {N : Type}.
Variable cfg : Config N.

(** The log records [n] runs of the payout trigger. *)
Definition runs (n : nat) (s : @Local N) : Prop :=
  payout_runs (log (snd s)) = n.

(** An operation that writes to the log, if at all, an entry that does not
    start a payout. *)
Ltac quiet_leaf :=
  idtac;
  let HI := fresh "HI" in
  intros [[? []] ?] HI; unfold runs in *; cbn in *;
  rewrite ?payout_runs_snoc; cbn; rewrite ?Nat.add_0_r; exact HI.

Lemma save_keeps_runs n : hoare (runs n) save (runs n).
Proof.
  intros [d w] HI. unfold save, pre_save, bind, this, gets, throw, lift,
    modify, ret, assign, Date_now, Math_random. cbn.
  repeat match goal with |- context [if ?b then _ else _] => destruct b; cbn end;
    repeat match goal with
           | |- context [match duplicate_key ?x ?y with _ => _ end] =>
               destruct (duplicate_key x y); cbn
           end;
    exact HI.
Qed.

(** The first entry of a run, then the rest of the run. *)
Lemma run_starts {B} n lvl msg args (k : unit -> M (@Local N) B) :
  payout_entry (Log lvl msg args) = true ->
  hoare (runs (S n)) (k tt) (runs (S n)) ->
  hoare (runs n) (bind (lift (logger lvl msg args)) k) (runs (S n)).
Proof.
  intros Hentry Hk [d w] HI. unfold bind, lift, logger, modify.
  cbn [fst snd]. apply Hk. unfold runs in *. cbn [fst snd log set_log] in *.
  rewrite payout_runs_snoc, Hentry, HI. lia.
Qed.

Lemma payout_runs_once n :
  hoare (runs n) (processCreatorPayout cfg) (runs (S n)).
Proof.
  unfold processCreatorPayout.
  apply hoare_try_catch with (R := runs (S n)); [ | auto | ].
  - destruct (CASHFREE_CONFIGURED cfg); cbn [negb].
    + unfold this. apply hoare_bind_gets. intros payment.
      apply hoare_weaken with (P := runs n) (Q := runs (S n));
        [now intros ? [? _] | auto | ].
      intros [d w] HI. unfold bind at 1, lift at 1, User_findById, gets.
      cbn [fst snd].
      destruct (find _ (users w)) as [creator|].
      * destruct (negb (truthy_str (User.phone creator))
                  && negb (truthy_str (User.upiId creator)));
          (revert HI; generalize (d, w); fold (@Local N);
           apply run_starts; [reflexivity|];
           inv_steps ltac:(apply save_keeps_runs) ltac:(quiet_leaf)).
      * revert HI; generalize (d, w); fold (@Local N).
        apply run_starts; [reflexivity|].
        inv_steps ltac:(apply save_keeps_runs) ltac:(quiet_leaf).
    + apply run_starts; [reflexivity|].
      inv_steps ltac:(apply save_keeps_runs) ltac:(quiet_leaf).
  - intros e. inv_steps ltac:(apply save_keeps_runs) ltac:(quiet_leaf).
Qed.

End PayoutRuns.

(** ** The records under webhook processing *)

Section IdFacts.
Context {N : Type}.
Variable cfg : Config N.
Variable L : list Id.

Lemma map_id_update_first (x : Payment.t N) (l : list (Payment.t N)) :
  map (@Payment._id N)
      (update_first (fun o => Payment._id o =? Payment._id x)%nat (fun _ => x) l)
  = map (@Payment._id N) l.
Proof.
  induction l as [|y r IH]; cbn; [reflexivity|].
  destruct (Payment._id y =? Payment._id x)%nat eqn:Hy; cbn.
  - apply Nat.eqb_eq in Hy. now rewrite Hy.
  - now rewrite IH.
Qed.

(** The stored payments are those with the identifiers [L], in this order. *)
Definition ids_are (w : World N) : Prop :=
  map (@Payment._id N) (payments w) = L.

Definition holds_ids (s : @Local N) : Prop :=
  isNew (fst s) = false /\ ids_are (snd s).

Lemma save_keeps_ids : hoare holds_ids save holds_ids.
Proof.
  apply hoare_save.
  - intros d w (Hnew & _). exact Hnew.
  - intros d w HI. exact HI.
  - intros d w (Hnew & Hids) _ _ _. split; [exact Hnew|].
    unfold ids_are in *. cbn [fst snd payments set_payments] in *.
    now rewrite map_id_update_first.
Qed.

Lemma payout_keeps_ids : hoare holds_ids (processCreatorPayout cfg) holds_ids.
Proof.
  unfold processCreatorPayout.
  inv_steps ltac:(apply save_keeps_ids) ltac:(local_leaf).
Qed.

Lemma found_holds_ids (q : Payment.t N -> bool) (p : Payment.t N) (w : World N) :
  ids_are w /\ find q (payments w) = Some p -> holds_ids (mkDoc false p, w).
Proof. intros [Hids _]. now split. Qed.

Lemma held_ids (d : @Doc N) (w : World N) : holds_ids (d, w) -> ids_are w.
Proof. now intros [_ Hids]. Qed.

Ltac ids_known :=
  handler_known save_keeps_ids payout_keeps_ids found_holds_ids held_ids
                ids_are.

Lemma dispatch_keeps_ids body : hoare ids_are (dispatch cfg body) ids_are.
Proof.
  unfold dispatch.
  repeat match goal with |- context [if ?b then _ else _] => destruct b end;
    unfold handlePaymentSuccess, handlePaymentFailure, handlePaymentDropped,
      destructure, member;
    inv_steps ltac:(ids_known) ltac:(first [world_leaf | local_leaf]).
Qed.

End IdFacts.

Section OverwriteFacts.
Context {N : Type}.
Variable cfg : Config N.
Variable stored : list (Payment.t N).
Variable id : Id.
Variable token : option string.

(** The payments are the ones of [stored] but for the record [id], whose
    place a version with the same order token has taken; the handler holds
    such a version. *)
Definition overwritten (s : @Local N) : Prop :=
  isNew (fst s) = false
  /\ Payment._id (fields (fst s)) = id
  /\ Payment.cashfreeOrderId (fields (fst s)) = token
  /\ exists x,
       payments (snd s)
       = update_first (fun o => Payment._id o =? id)%nat (fun _ => x) stored
       /\ Payment._id x = id
       /\ Payment.cashfreeOrderId x = token.

Lemma save_overwrites : hoare overwritten save overwritten.
Proof.
  apply hoare_save.
  - intros d w (Hnew & _). exact Hnew.
  - intros d w HI. exact HI.
  - intros d w (Hnew & Hid & Htoken & x & Hx & Hxid & _) _ _ _.
    unfold overwritten. cbn [fst snd payments set_payments] in *.
    repeat split; try assumption.
    exists (fields d). repeat split; try assumption.
    rewrite Hx, Hid. apply update_first_overwrite.
    rewrite Hxid. apply Nat.eqb_refl.
Qed.

Lemma payout_overwrites :
  hoare overwritten (processCreatorPayout cfg) overwritten.
Proof.
  unfold processCreatorPayout.
  inv_steps ltac:(apply save_overwrites) ltac:(local_leaf).
Qed.

End OverwriteFacts.

Section RedeliveryFacts.
Context {N : Type}.
Variable cfg : Config N.
Implicit Types (p : Payment.t N) (w : World N).

(** An accepted success event runs the payout trigger once more. *)
Lemma accepted_success_runs d order pd p w :
  Webhook.order d = Some order ->
  Webhook.payment d = Some pd ->
  find (by_cashfreeOrderId (Webhook.cf_order_id order)) (payments w) = Some p ->
  accepted w p pd ->
  payout_runs (log (snd (handlePaymentSuccess cfg (Some d) w)))
  = S (payout_runs (log w)).
Proof.
  intros Ho Hp Hfind Hacc.
  rewrite (@success_settles N cfg d order pd p w Ho Hp Hfind Hacc).
  assert (Hinit : runs (payout_runs (log w))
                       (mkDoc false (settled p pd (tick w)),
                        settled_world w p pd (Webhook.cf_order_id order))).
  { unfold runs, settled_world. cbn [snd log].
    change (log w ++ [?a; ?b]) with (log w ++ [a] ++ [b]).
    rewrite app_assoc, !payout_runs_snoc. cbn. lia. }
  pose proof (@payout_runs_once N cfg _ _ Hinit) as HI.
  destruct (processCreatorPayout cfg _) as [[[]|e] [d' w']];
    unfold runs in HI; cbn [snd fst after_payout] in *; [exact HI|].
  unfold logger_error, logger, modify. cbn [snd log set_log].
  rewrite payout_runs_snoc. cbn. lia.
Qed.

(** After an accepted success event the store differs from the one before
    in the record of the payment alone, which keeps its order token. *)
Lemma accepted_success_overwrites d order pd p w :
  Webhook.order d = Some order ->
  Webhook.payment d = Some pd ->
  find (by_cashfreeOrderId (Webhook.cf_order_id order)) (payments w) = Some p ->
  accepted w p pd ->
  exists x,
    payments (snd (handlePaymentSuccess cfg (Some d) w))
    = update_first (fun o => Payment._id o =? Payment._id p)%nat
                   (fun _ => x) (payments w)
    /\ Payment._id x = Payment._id p
    /\ Payment.cashfreeOrderId x = Payment.cashfreeOrderId p.
Proof.
  intros Ho Hp Hfind Hacc.
  rewrite (@success_settles N cfg d order pd p w Ho Hp Hfind Hacc).
  assert (Hinit : overwritten (payments w) (Payment._id p)
                    (Payment.cashfreeOrderId p)
                    (mkDoc false (settled p pd (tick w)),
                     settled_world w p pd (Webhook.cf_order_id order))).
  { unfold overwritten. cbn [fst snd isNew fields payments settled_world].
    repeat split; try (destruct p; reflexivity).
    exists (settled p pd (tick w)).
    repeat split; destruct p; reflexivity. }
  pose proof (@payout_overwrites N cfg _ _ _ _ Hinit) as HI.
  destruct (processCreatorPayout cfg _) as [[[]|e] [d' w']];
    cbn [snd fst after_payout] in *;
    destruct HI as (_ & _ & _ & x & Hx & Hid & Htoken);
    exists x; repeat split; assumption.
Qed.

(** The store that accepted a success event accepts it again. *)
Lemma accepted_again (order : Webhook.Order) pd p w x :
  find (by_cashfreeOrderId (Webhook.cf_order_id order)) (payments w) = Some p ->
  accepted w p pd ->
  Payment._id x = Payment._id p ->
  Payment.cashfreeOrderId x = Payment.cashfreeOrderId p ->
  let stored' :=
    update_first (fun o => Payment._id o =? Payment._id p)%nat
                 (fun _ => x) (payments w) in
  find (by_cashfreeOrderId (Webhook.cf_order_id order)) stored' = Some x
  /\ duplicate_key (with_gateway_ids x pd) stored' = None.
Proof.
  intros Hfind [_ Hdup] Hid Htoken. cbv zeta. split.
  - apply find_update_first with (x := p); try assumption.
    + apply Nat.eqb_refl.
    + pose proof (proj2 (find_some _ _ Hfind)) as Hq.
      unfold by_cashfreeOrderId in *. now rewrite Htoken.
  - assert (Hkeys : same_keys (with_gateway_ids p pd) (with_gateway_ids x pd)).
    { destruct p, x. cbn in Hid, Htoken. subst. repeat split. }
    rewrite (duplicate_key_same_keys _ Hkeys).
    assert (Hp : Payment._id (with_gateway_ids p pd) = Payment._id p)
      by (destruct p; reflexivity).
    rewrite <- Hp.
    rewrite duplicate_key_update_first; [exact Hdup|].
    rewrite Hp. exact Hid.
Qed.

End RedeliveryFacts.

Lemma failed_type_dispatch {N : Type} (cfg : Config N) (body : Webhook.Body) :
  Webhook.type body = Some "PAYMENT_FAILED_WEBHOOK" ->
  dispatch cfg body = handlePaymentFailure (Webhook.data body).
Proof. unfold dispatch. now intros ->. Qed.

Lemma dropped_type_dispatch {N : Type} (cfg : Config N) (body : Webhook.Body) :
  Webhook.type body = Some "PAYMENT_USER_DROPPED_WEBHOOK" ->
  dispatch cfg body = handlePaymentDropped (Webhook.data body).
Proof. unfold dispatch. now intros ->. Qed.

Lemma received_is_quiet (body : Webhook.Body) (l : list LogEntry) :
  payout_runs (l ++ [received body]) = payout_runs l.
Proof. rewrite payout_runs_snoc. cbn. lia. Qed.

(** C1 (as the code has it). The webhook handlers look at no state before
    they write. For an event whose order token finds a stored payment, in
    whatever state, the terminal ones included: the stored records remain
    the same records; a failure or user-dropped event leaves the payment
    failed with [payoutStatus = not_required]; a success event that the
    store accepts leaves it completed and runs the payout trigger once
    more; and the same success event delivered a second time is accepted
    again: one record, still completed, and two more runs of the payout
    trigger in all. *)
Theorem webhook_events_apply_in_any_state
  {N : Type} (cfg : Config N) (body : Webhook.Body) (d : Webhook.Data)
  (order : Webhook.Order) (p : Payment.t N) (w : World N) :
  Webhook.data body = Some d ->
  Webhook.order d = Some order ->
  find (by_cashfreeOrderId (Webhook.cf_order_id order)) (payments w) = Some p ->
  schema_ok w ->
  let w' := snd (paymentWebhook cfg body w) in
  let w'' := snd (paymentWebhook cfg body w') in
  map (@Payment._id N) (payments w') = map (@Payment._id N) (payments w)
  /\ (Webhook.type body = Some "PAYMENT_FAILED_WEBHOOK"
      \/ Webhook.type body = Some "PAYMENT_USER_DROPPED_WEBHOOK" ->
      exists p',
        find (by_cashfreeOrderId (Webhook.cf_order_id order)) (payments w')
        = Some p'
        /\ Payment.status p' = failed
        /\ Payment.payoutStatus p' = not_required)
  /\ (Webhook.type body = Some "PAYMENT_SUCCESS_WEBHOOK" ->
      forall pd,
        Webhook.payment d = Some pd ->
        accepted w p pd ->
        ((exists p',
             find (by_cashfreeOrderId (Webhook.cf_order_id order)) (payments w')
             = Some p'
             /\ Payment.status p' = completed)
         /\ payout_runs (log w') = S (payout_runs (log w)))
        /\ (map (@Payment._id N) (payments w'')
            = map (@Payment._id N) (payments w)
            /\ (exists p'',
                   find (by_cashfreeOrderId (Webhook.cf_order_id order))
                        (payments w'')
                   = Some p''
                   /\ Payment.status p'' = completed)
            /\ payout_runs (log w'') = S (S (payout_runs (log w))))).
Proof.
  intros Hd Ho Hfind Hschema. cbv zeta.
  assert (Hids : forall w0 : World N,
             map (@Payment._id N) (payments (snd (paymentWebhook cfg body w0)))
             = map (@Payment._id N) (payments w0)).
  { intros w0. rewrite paymentWebhook_run. cbn [snd].
    now apply (@dispatch_keeps_ids N cfg (map (@Payment._id N) (payments w0))). }
  split; [apply Hids|]. split.
  - rewrite paymentWebhook_run. cbn [snd]. intros [Htype|Htype].
    + rewrite (failed_type_dispatch cfg body Htype), Hd.
      exact (@failure_event_effect N d order p
               (set_log w (log w ++ [received body])) Ho Hfind Hschema).
    + rewrite (dropped_type_dispatch cfg body Htype), Hd.
      exact (@dropped_event_effect N d order p
               (set_log w (log w ++ [received body])) Ho Hfind Hschema).
  - intros Htype pd Hp Hacc.
    assert (Hrun : forall w0 : World N,
               paymentWebhook cfg body w0
               = (Return acknowledged,
                  snd (handlePaymentSuccess cfg (Some d)
                         (set_log w0 (log w0 ++ [received body]))))).
    { intros w0.
      now rewrite paymentWebhook_run, (success_type_dispatch cfg body Htype), Hd. }
    assert (Hquiet : forall (w0 : World N) q,
               find (by_cashfreeOrderId (Webhook.cf_order_id order))
                    (payments w0) = Some q ->
               accepted w0 q pd ->
               payout_runs (log (snd (paymentWebhook cfg body w0)))
               = S (payout_runs (log w0))).
    { intros w0 q Hq Haq. rewrite Hrun. cbn [snd].
      rewrite (@accepted_success_runs N cfg d order pd q
                 (set_log w0 (log w0 ++ [received body])) Ho Hp Hq Haq).
      cbn [log set_log]. now rewrite received_is_quiet. }
    split.
    + split; [|now apply Hquiet with (q := p)].
      rewrite Hrun. cbn [snd].
      exact (proj1 (@accepted_success_effect N cfg d order pd p
                      (set_log w (log w ++ [received body]))
                      Ho Hp Hfind Hacc)).
    + rewrite !Hids. split; [reflexivity|].
      destruct (@accepted_success_overwrites N cfg d order pd p
                  (set_log w (log w ++ [received body])) Ho Hp Hfind Hacc)
        as (x & Hx & Hxid & Hxtoken).
      destruct (@accepted_again N order pd p w x Hfind Hacc Hxid Hxtoken)
        as [Hfind' Hdup'].
      cbn [payments set_log] in Hx. rewrite <- Hx in Hfind', Hdup'.
      assert (Hw1 : snd (paymentWebhook cfg body w)
                    = snd (handlePaymentSuccess cfg (Some d)
                             (set_log w (log w ++ [received body]))))
        by now rewrite Hrun.
      rewrite <- Hw1 in Hfind', Hdup'.
      assert (Hacc' : accepted (snd (paymentWebhook cfg body w)) x pd)
        by (split; [exact (proj1 Hacc) | exact Hdup']).
      split.
      * rewrite (Hrun (snd (paymentWebhook cfg body w))). cbn [snd].
        set (w1 := snd (paymentWebhook cfg body w)) in *.
        exact (proj1 (@accepted_success_effect N cfg d order pd x
                        (set_log w1 (log w1 ++ [received body]))
                        Ho Hp Hfind' Hacc')).
      * rewrite (Hquiet _ x Hfind' Hacc'). f_equal.
        now apply Hquiet with (q := p).
Qed.

(** A failure event arrives for Ravi's payment after it was completed and
    paid out. *)
Lemma webhook_events_apply_in_any_state_witness :
  option_map (fun p : Payment.t float => terminal (Payment.status p))
             (find (by_cashfreeOrderId "cf_777") (payments Sample.w_settled))
  = Some true
  /\ exists p',
       find (by_cashfreeOrderId "cf_777")
            (payments (snd (paymentWebhook Sample.cfg Sample.failure_event
                              Sample.w_settled)))
       = Some p'
       /\ Payment.status p' = failed
       /\ Payment.payoutStatus p' = not_required.
Proof.
  split; [reflexivity|].
  assert (Hschema : schema_ok Sample.w_settled) by repeat constructor.
  refine (proj1 (proj2 (@webhook_events_apply_in_any_state float Sample.cfg
                          Sample.failure_event
                          (Webhook.mkData (Some Sample.order_777)
                                          (Some Sample.paid_upi))
                          Sample.order_777 _ Sample.w_settled
                          eq_refl eq_refl eq_refl Hschema))
                (or_introl eq_refl)).
Defined.

(** C1 (as stated) fails on the code. Ravi's payment is completed by a
    first success event, with one run of the payout trigger. The same event
    delivered again runs the payout trigger a second time and replaces the
    payout id; and a failure event for the completed payment turns it into
    a failed one. *)
Lemma terminal_state_not_guarded :
  let once := snd (paymentWebhook Sample.cfg Sample.success_event
                     Sample.w_pending) in
  let twice := snd (paymentWebhook Sample.cfg Sample.success_event once) in
  let then_failed := snd (paymentWebhook Sample.cfg Sample.failure_event once) in
  map (@Payment.status float) (payments once) = [completed]
  /\ terminal completed = true
  /\ payout_runs (log once) = 1
  /\ map (@Payment.payoutId float) (payments once) = [Some "payout_1004_1005"]
  /\ map (@Payment.status float) (payments twice) = [completed]
  /\ payout_runs (log twice) = 2
  /\ map (@Payment.payoutId float) (payments twice) = [Some "payout_1010_1011"]
  /\ map (@Payment.status float) (payments then_failed) = [failed].
Proof. vm_compute. repeat split. Qed.

(** ** Order creation, case by case *)

Section OrderCases.
Context {N : Type} `{JsNumber N}.
Variable cfg : Config N.
Variable post : Cashfree.CreateOrderRequest N -> Outcome Cashfree.CreateOrderResponse.
Implicit Types (p : Payment.t N) (w : World N).

(** What [createCashfreeOrder] throws when the HTTP call threw [e]. *)
Definition gateway_error (e : Exn) : Exn :=
  if match exn_response_data e with
     | Some d =>
         opt_str_eqb (err_type d) (Some "authentication_error")
         || match err_message d with
            | Some m => includes "authentication" m
            | None => false
            end
     | None => false
     end
  then JsError "Invalid credentials or environment mismatch"
  else e.

Lemma createCashfreeOrder_run (r : Cashfree.CreateOrderRequest N) w :
  exists entries,
    createCashfreeOrder post r w
    = (match post r with
       | Return response => Return response
       | Throw e => Throw (gateway_error e)
       end,
       set_log w (log w ++ entries)).
Proof.
  unfold createCashfreeOrder, try_catch, bind, await, logger_info,
    logger_error, logger, modify, throw, ret, gateway_error.
  destruct (post r) as [response|e]; cbn.
  - eexists. rewrite <- app_assoc. reflexivity.
  - match goal with |- context [if ?b then _ else _] => destruct b end;
      cbn; eexists; rewrite <- ?app_assoc; reflexivity.
Qed.

(** Writing back the document inserted last. *)
Lemma update_first_inserted {A} (q : A -> bool) (x x' : A) (l : list A) :
  (forall y, In y l -> q y = false) ->
  q x = true ->
  update_first q (fun _ => x') (l ++ [x]) = l ++ [x'].
Proof.
  intros Hl Hx. induction l as [|y r IH]; cbn.
  - now rewrite Hx.
  - rewrite (Hl y (or_introl eq_refl)). f_equal.
    apply IH. intros z Hz. apply Hl. now right.
Qed.

(** The document [createPaymentOrder] builds for a purchase. *)
Definition new_payment w (user : User.t) (file : File.t N) (creator : User.t)
           (amount : N) : Payment.t N :=
  Payment.mk (next_id w) (File._id file) (User._id creator) (User._id user)
    amount "INR" pending "upi" None None None None None
    (fst (commissionSplit amount (PLATFORM_COMMISSION_RATE cfg)))
    (snd (commissionSplit amount (PLATFORM_COMMISSION_RATE cfg)))
    payout_pending None None None None
    (if truthy_str (User.phone creator)
     then option_map trim (User.phone creator) else None)
    0%nat.

(** The order it sends to the gateway, under the token of the pre-save
    hook. *)
Definition order_sent w (user : User.t) (file : File.t N) (creator : User.t)
           (amount : N) : Cashfree.CreateOrderRequest N :=
  Cashfree.mkRequest amount "INR" (Some (uplink_token (tick w)))
    (User._id user) (User.name user) (User.email user)
    (or_default (User.phone user) "9999999999")
    (PAYMENT_RETURN_URL cfg) (PAYMENT_WEBHOOK_URL cfg)
    (File._id file) (File.originalName file) (User._id creator).

(** The record it leaves in the store once the gateway has answered with
    the order id [cfOrderId]. *)
Definition created_payment w (user : User.t) (file : File.t N)
           (creator : User.t) (amount : N) (cfOrderId : string) : Payment.t N :=
  Payment.with_cashfreeOrderId
    (as_inserted (new_payment w user file creator amount) (tick w))
    (Some cfOrderId).

(** The 201 of [createPaymentOrder]. *)
Definition order_created (id : Id) (amount : N)
           (response : Cashfree.CreateOrderResponse) : Res.t N :=
  Res.mk 201 true "Payment order created successfully"
    (Res.OrderCreated id amount "INR" pending
       (Cashfree.cf_order_id response)
       (Cashfree.payment_session_id response)
       (Cashfree.res_order_id response)).

(** The two ways a request for an order ends: without a new record and
    with an answer other than 201, or with the 201 and the record of a
    purchase that passed every check. *)
Inductive order_result (req : AuthRequest) w (w' : World N) (r : Res.t N)
  : Prop :=
| order_refused :
    Res.status r <> 201 ->
    payments w' = payments w ->
    order_result req w w' r
| order_stored (file : File.t N) (creator : User.t) (amount : N)
               (response : Cashfree.CreateOrderResponse) :
    validation_failed req = false ->
    CASHFREE_CONFIGURED cfg = true ->
    find (fun f => File._id f =? body_fileId req)%nat (files w) = Some file ->
    File.price file = Some amount ->
    File.isPublic file = true ->
    num_truthy amount = true ->
    num_leb amount (num_of_Z 0) = false ->
    File.creatorId file <> User._id (req_user req) ->
    find (fun u => User._id u =? File.creatorId file)%nat (users w)
    = Some creator ->
    post (order_sent w (req_user req) file creator amount) = Return response ->
    duplicate_key
      (created_payment w (req_user req) file creator amount
         (Cashfree.cf_order_id response))
      (payments w) = None ->
    r = order_created (next_id w) amount response ->
    payments w'
    = payments w
      ++ [created_payment w (req_user req) file creator amount
            (Cashfree.cf_order_id response)] ->
    next_id w' = S (next_id w) ->
    order_result req w w' r.

Lemma valid_upi : valid_paymentMethod "upi" = true.
Proof. reflexivity. Qed.

Lemma clashes_inserted (path : Payment.t N -> option string) p x
      (l : list (Payment.t N)) :
  Payment._id x = Payment._id p ->
  clashes path p (l ++ [x]) = clashes path p l.
Proof.
  intros Hid. unfold clashes. destruct (path p); [|reflexivity].
  rewrite existsb_app. cbn. rewrite Hid, Nat.eqb_refl. cbn.
  now rewrite !orb_false_r.
Qed.

Lemma duplicate_key_inserted p x (l : list (Payment.t N)) :
  Payment._id x = Payment._id p ->
  duplicate_key p (l ++ [x]) = duplicate_key p l.
Proof.
  intros Hid. unfold duplicate_key. now rewrite !clashes_inserted.
Qed.

(** How a run of [createPaymentOrder] ends. *)
Definition order_ends (req : AuthRequest) w
           (x : Outcome (Res.t N) * World N) : Prop :=
  exists r,
    fst x = Return r
    /\ order_result req w (snd x) r
    /\ files (snd x) = files w
    /\ users (snd x) = users w
    /\ (next_id w <= next_id (snd x))%nat.

Lemma order_ends_refused (req : AuthRequest) w (r : Res.t N) (w' : World N) :
  Res.status r <> 201 -> payments w' = payments w ->
  files w' = files w -> users w' = users w ->
  (next_id w <= next_id w')%nat ->
  order_ends req w (Return r, w').
Proof.
  intros Hr Hp Hf Hu Hn. exists r. repeat split; try assumption.
  now apply order_refused.
Qed.

Lemma createPaymentOrder_cases (req : AuthRequest) w :
  ids_handed_out w ->
  order_ends req w (createPaymentOrder cfg post req w).
Proof.
  intros Hwf.
  pose proof (@order_ends_refused req w) as Hearly.
  unfold createPaymentOrder, try_catch at 1, bind at 1.
  destruct (validation_failed req) eqn:Hvalidation;
    [apply Hearly; cbn; solve [discriminate | reflexivity | lia]|].
  destruct (CASHFREE_CONFIGURED cfg) eqn:Hconfigured;
    [|apply Hearly; cbn; solve [discriminate | reflexivity | lia]].
  cbn [negb]. unfold File_findById, User_findById, bind, gets.
  destruct (find _ (files w)) as [file|] eqn:Hfile;
    [|apply Hearly; cbn; solve [discriminate | reflexivity | lia]].
  destruct (File.price file) as [amount|] eqn:Hprice;
    [|apply Hearly; cbn; solve [discriminate | reflexivity | lia]].
  destruct (File.isPublic file) eqn:Hpublic; cbn [negb orb];
    [|apply Hearly; cbn; solve [discriminate | reflexivity | lia]].
  destruct (num_truthy amount) eqn:Htruthy; cbn [negb orb];
    [|apply Hearly; cbn; solve [discriminate | reflexivity | lia]].
  destruct (num_leb amount (num_of_Z 0)) eqn:Hpositive;
    [apply Hearly; cbn; solve [discriminate | reflexivity | lia]|].
  destruct (File.creatorId file =? User._id (req_user req))%nat eqn:Hown;
    [apply Hearly; cbn; solve [discriminate | reflexivity | lia]|].
  destruct (find _ (users w)) as [creator|] eqn:Hcreator;
    [|apply Hearly; cbn; solve [discriminate | reflexivity | lia]].
  pose proof (surjective_pairing
                (commissionSplit amount (PLATFORM_COMMISSION_RATE cfg)))
    as Hsplit.
  destruct (commissionSplit amount (PLATFORM_COMMISSION_RATE cfg))
    as [platformCommission creatorShare] eqn:Hcs.
  unfold new_ObjectId, with_doc, try_catch, bind.
  match goal with |- context [mkDoc true ?q] => set (p0 := q) end.
  assert (Hp0 : p0 = new_payment w (req_user req) file creator amount).
  { unfold p0, new_payment. rewrite Hcs. reflexivity. }
  rewrite save_new by reflexivity. cbv zeta.
  cbn [tick set_next_id payments].
  destruct (duplicate_key (as_inserted p0 (tick w)) (payments w)) eqn:Hdup1;
    [apply Hearly; cbn; solve [discriminate | reflexivity | lia]|].
  unfold lift, this, gets, assign, modify, logger_info, logger_error, logger,
    Payment_findByIdAndDelete, ret.
  cbn.
  match goal with
  | |- context [createCashfreeOrder post ?r ?w1] =>
      destruct (createCashfreeOrder_run r w1) as (entries & ->);
      assert (Hreq : r = order_sent w (req_user req) file creator amount)
        by reflexivity;
      set (request := r) in *
  end.
  destruct (post request) as [response|e] eqn:Hpost.
  2:{ cbn. apply Hearly; cbn; try solve [discriminate | reflexivity | lia].
      apply delete_first_inserted.
      - apply (fresh_id_unused Hwf).
      - apply Nat.eqb_refl. }
  cbn.
  match goal with
  | |- context [save (?d, ?w1)] =>
      rewrite (@save_stored N d w1 eq_refl)
  end.
  cbn [fields Payment.paymentMethod Payment._id payments set_log negb].
  rewrite valid_upi. cbn [negb].
  rewrite existsb_app. cbn [existsb]. rewrite Nat.eqb_refl, orb_true_r.
  cbn [negb].
  rewrite duplicate_key_inserted by reflexivity.
  match goal with
  | |- context [duplicate_key ?q (payments w)] =>
      assert (Hp2 : q = created_payment w (req_user req) file creator amount
                          (Cashfree.cf_order_id response))
        by (unfold created_payment, new_payment; rewrite Hcs; reflexivity);
      destruct (duplicate_key q (payments w)) eqn:Hdup2
  end.
  { cbn. apply Hearly; cbn; try solve [discriminate | reflexivity | lia].
    apply delete_first_inserted.
    - apply (fresh_id_unused Hwf).
    - apply Nat.eqb_refl. }
  cbn.
  rewrite update_first_inserted;
    [ | apply (fresh_id_unused Hwf) | apply Nat.eqb_refl ].
  eexists. split; [reflexivity|]. cbn.
  split; [|repeat split; lia].
  apply Nat.eqb_neq in Hown.
  rewrite Hp2 in Hdup2.
  apply order_stored with (file := file) (creator := creator)
                          (amount := amount) (response := response);
    solve [ assumption | reflexivity | exact Hpost
          | rewrite <- Hp2; reflexivity ].
Qed.

End OrderCases.

(** X1. A request for an order that is answered with anything but 201
    leaves no payment behind, whatever the gateway did; and no request for
    an order touches the files or the users. *)
Theorem refused_order_leaves_no_record
  {N : Type} `{JsNumber N} (cfg : Config N)
  (post : Cashfree.CreateOrderRequest N -> Outcome Cashfree.CreateOrderResponse)
  (req : AuthRequest) (w : World N) :
  ids_handed_out w ->
  let w' := snd (createPaymentOrder cfg post req w) in
  (exists r,
      fst (createPaymentOrder cfg post req w) = Return r
      /\ (Res.status r <> 201 -> payments w' = payments w))
  /\ files w' = files w
  /\ users w' = users w.
Proof.
  intros Hwf. cbv zeta.
  destruct (createPaymentOrder_cases cfg post req Hwf)
    as (r & Hr & Hcase & Hfiles & Husers & _).
  split; [|split; assumption].
  exists r. split; [assumption|]. intros Hne.
  destruct Hcase as [_ Hsame | ? ? ? ? _ _ _ _ _ _ _ _ _ _ _ -> _ _];
    [assumption|].
  now contradiction Hne.
Qed.

(** Asha asks for her own poster: 400, and the store is as before. *)
Lemma refused_order_leaves_no_record_witness :
  fst (createPaymentOrder Sample.cfg Sample.gateway_ok Cases.own_request
         Sample.w_pending)
  = Return (plain 400 false "You cannot purchase your own file")
  /\ payments (snd (createPaymentOrder Sample.cfg Sample.gateway_ok
                      Cases.own_request Sample.w_pending))
     = payments Sample.w_pending.
Proof.
  split; [reflexivity|].
  destruct (proj1 (@refused_order_leaves_no_record float _ Sample.cfg
                     Sample.gateway_ok Cases.own_request Sample.w_pending
                     ltac:(repeat constructor)))
    as (r & Hr & Hsame).
  apply Hsame. injection Hr as <-. discriminate.
Defined.

(** X2. [createPaymentOrder] answers 201 only for a request that passed
    validation, on a server with gateway credentials, for a stored file
    that is public, has a price above zero and belongs to somebody else,
    whose account exists, and after the gateway accepted the order. *)
Theorem order_created_only_when_purchasable
  {N : Type} `{JsNumber N} (cfg : Config N)
  (post : Cashfree.CreateOrderRequest N -> Outcome Cashfree.CreateOrderResponse)
  (req : AuthRequest) (w : World N) (r : Res.t N) :
  ids_handed_out w ->
  fst (createPaymentOrder cfg post req w) = Return r ->
  Res.status r = 201 ->
  validation_failed req = false
  /\ CASHFREE_CONFIGURED cfg = true
  /\ exists file amount creator response,
       find (fun f => File._id f =? body_fileId req)%nat (files w) = Some file
       /\ File.isPublic file = true
       /\ File.price file = Some amount
       /\ num_truthy amount = true
       /\ num_leb amount (num_of_Z 0) = false
       /\ File.creatorId file <> User._id (req_user req)
       /\ find (fun u => User._id u =? File.creatorId file)%nat (users w)
          = Some creator
       /\ post (order_sent cfg w (req_user req) file creator amount)
          = Return response.
Proof.
  intros Hwf Hr Hcreated.
  destruct (createPaymentOrder_cases cfg post req Hwf)
    as (r' & Hr' & Hcase & _).
  rewrite Hr in Hr'. injection Hr' as <-.
  destruct Hcase as [Hne _ | file creator amount response];
    [now contradiction Hne|].
  split; [assumption|]. split; [assumption|].
  exists file, amount, creator, response. repeat split; assumption.
Qed.

(** Ravi's order for the poster was answered with 201: the poster is
    public, priced and Asha's, and the gateway accepted the order. *)
Lemma order_created_only_when_purchasable_witness :
  exists (file : File.t float) (amount : float) (creator : User.t)
         (response : Cashfree.CreateOrderResponse),
    find (fun f => File._id f =? 10)%nat (files Sample.w0) = Some file
    /\ File.isPublic file = true
    /\ File.price file = Some amount
    /\ num_truthy amount = true
    /\ num_leb amount (num_of_Z 0) = false
    /\ File.creatorId file <> 2
    /\ find (fun u => User._id u =? File.creatorId file)%nat (users Sample.w0)
       = Some creator
    /\ Sample.gateway_ok
         (order_sent Sample.cfg Sample.w0 Sample.ravi file creator amount)
       = Return response.
Proof.
  apply (@order_created_only_when_purchasable float _ Sample.cfg
           Sample.gateway_ok Sample.order_request Sample.w0
           (order_created 100 500%float
              (Cashfree.mkResponse "cf_777" "uplink_1000_1001" "session_1"))).
  - constructor.
  - reflexivity.
  - reflexivity.
Defined.



(** ** The download gate, further *)

Section DownloadFacts.
Context {N : Type} `{JsNumber N}.
Variable presign : string -> nat -> Outcome string.

Lemma getDownloadUrl_reads (id : Id) (user : User.t) (w : World N) :
  same_store w (snd (getDownloadUrl presign id user w)).
Proof.
  unfold getDownloadUrl, try_catch, bind, File_findById, Payment_findOne,
    gets, await, logger_info, logger_error, logger, modify, ret.
  destruct (find _ (files w)) as [file|]; cbn; [|apply same_store_refl].
  destruct (File.creatorId file =? User._id user)%nat; cbn.
  - destruct (presign (File.s3Key file) 3600); cbn; repeat split.
  - destruct (File.isPublic file); cbn; [|repeat split].
    destruct (File.price file) as [price|]; cbn;
      [destruct (num_truthy price && num_gtb price (num_of_Z 0)); cbn;
       [destruct (find _ (payments w)); cbn|]|];
      try destruct (presign (File.s3Key file) 3600); cbn;
      repeat split.
Qed.

End DownloadFacts.

(** X4. [getDownloadUrl] always answers, and it only reads: payments,
    files, users, the identifier counter and the clock are after the request
    what they were before it. *)
Theorem download_gate_only_reads
  {N : Type} `{JsNumber N} (presign : string -> nat -> Outcome string)
  (id : Id) (user : User.t) (w : World N) :
  (exists r, fst (getDownloadUrl presign id user w) = Return r)
  /\ same_store w (snd (getDownloadUrl presign id user w)).
Proof.
  split; [|apply getDownloadUrl_reads].
  unfold getDownloadUrl, try_catch.
  match goal with
  | |- context [match ?body w with _ => _ end] =>
      destruct (body w) as [[r|e] w']
  end.
  - now exists r.
  - unfold bind, logger_error, logger, modify, ret. cbn. eexists. reflexivity.
Qed.

(** X5. Somebody who is not the creator never gets a private file: the
    answer is 403, whatever the price of the file and whatever payments
    the store holds, a completed payment of the requester included. *)
Theorem private_file_never_handed_out
  {N : Type} `{JsNumber N} (presign : string -> nat -> Outcome string)
  (w : World N) (id : Id) (user : User.t) (file : File.t N) :
  find (fun f => File._id f =? id)%nat (files w) = Some file ->
  File.creatorId file <> User._id user ->
  File.isPublic file = false ->
  fst (getDownloadUrl presign id user w)
  = Return (plain 403 false "This file is private").
Proof.
  intros Hfile Hcreator Hprivate.
  apply Nat.eqb_neq in Hcreator.
  unfold getDownloadUrl, try_catch, bind, File_findById, gets, ret.
  now rewrite Hfile, Hcreator, Hprivate.
Qed.

(** Ravi paid for the draft while it was public; now it is private. *)
Lemma private_file_never_handed_out_witness :
  existsb (completed_for 12 2) (payments Cases.w_draft_paid) = true
  /\ fst (getDownloadUrl Sample.presign 12 Sample.ravi Cases.w_draft_paid)
     = Return (plain 403 false "This file is private").
Proof.
  split; [reflexivity|].
  apply (@private_file_never_handed_out float _ Sample.presign
           Cases.w_draft_paid 12 Sample.ravi Cases.draft);
    solve [reflexivity | discriminate].
Defined.

(** X6. A public file without a price above zero ([price] missing, zero,
    negative or [NaN]) is handed out to every requester, with no look at
    the payments. *)
Theorem free_public_file_handed_out
  {N : Type} `{JsNumber N} (presign : string -> nat -> Outcome string)
  (w : World N) (id : Id) (user : User.t) (file : File.t N) :
  find (fun f => File._id f =? id)%nat (files w) = Some file ->
  File.isPublic file = true ->
  match File.price file with
  | Some price => num_truthy price && num_gtb price (num_of_Z 0)
  | None => false
  end = false ->
  fst (getDownloadUrl presign id user w) = hand_out presign file.
Proof.
  intros Hfile Hpublic Hfree.
  unfold getDownloadUrl, try_catch, bind, File_findById, gets, ret, await,
    hand_out.
  rewrite Hfile, Hpublic, Hfree. cbn.
  destruct (File.creatorId file =? User._id user)%nat;
    destruct (presign (File.s3Key file) 3600); reflexivity.
Qed.

(** Ravi downloads the free flyer. *)
Lemma free_public_file_handed_out_witness :
  fst (getDownloadUrl Sample.presign 13 Sample.ravi Cases.w_shop)
  = Return (download_ok "https://r2.example/files/flyer.pdf").
Proof.
  apply (@free_public_file_handed_out float _ Sample.presign Cases.w_shop 13
           Sample.ravi Cases.flyer); reflexivity.
Defined.

(** ** Polling the status of an order *)

Section FindFacts.
Context {A : Type}.

Lemma find_all_false (q : A -> bool) (l : list A) :
  (forall y, In y l -> q y = false) -> find q l = None.
Proof.
  intros Hl. induction l as [|y r IH]; cbn; [reflexivity|].
  rewrite (Hl y (or_introl eq_refl)). apply IH. intros z Hz. apply Hl. now right.
Qed.

Lemma find_inserted (q : A -> bool) (x : A) (l : list A) :
  find q l = None ->
  find q (l ++ [x]) = if q x then Some x else None.
Proof.
  intros Hnone. induction l as [|y r IH]; cbn in *; [reflexivity|].
  destruct (q y); [discriminate|]. now apply IH.
Qed.

End FindFacts.

Section PollFacts.
Context {N : Type} `{JsNumber N}.
Implicit Types (p : Payment.t N) (w : World N).

(** What [verifyPaymentStatus] reports of a payment. *)
Definition status_of p : StatusData.t N :=
  StatusData.mk (Payment._id p) (Payment.status p) (Payment.amount p)
                (Payment.paidAt p) (Payment.fileId p).

Definition status_retrieved p : Reply.t (StatusData.t N) :=
  Reply.mk 200 true "Payment status retrieved" (Some (status_of p)).

Lemma verifyPaymentStatus_run (orderId : string) (user : User.t) w :
  verifyPaymentStatus orderId user w
  = (Return match find (by_cashfreeOrderId orderId) (payments w) with
            | None => Reply.mk 404 false "Payment not found" None
            | Some p =>
                if (Payment.clientId p =? User._id user)%nat
                then status_retrieved p
                else Reply.mk 403 false "Access denied" None
            end,
     w).
Proof.
  unfold verifyPaymentStatus, try_catch, bind, Payment_findOne, gets, ret.
  destruct (find _ (payments w)) as [p|]; [|reflexivity].
  destruct (Payment.clientId p =? User._id user)%nat; reflexivity.
Qed.

(** No stored payment with another identifier holds the order token of a
    document that passes the unique indexes. *)
Lemma unique_token_not_found p (token : string) (l : list (Payment.t N)) :
  duplicate_key p l = None ->
  Payment.cashfreeOrderId p = Some token ->
  (forall y, In y l -> (Payment._id y =? Payment._id p)%nat = false) ->
  find (by_cashfreeOrderId token) l = None.
Proof.
  intros Hdup Htoken Hfresh. apply find_all_false. intros y Hy.
  unfold duplicate_key in Hdup.
  destruct (clashes (@Payment.cashfreeOrderId N) p l) eqn:Hclash;
    [discriminate|].
  unfold clashes in Hclash. rewrite Htoken in Hclash.
  destruct (by_cashfreeOrderId token y) eqn:Hq; [|reflexivity].
  assert (Hex : existsb
                  (fun o => negb (Payment._id o =? Payment._id p)%nat
                            && opt_str_eqb (Payment.cashfreeOrderId o)
                                           (Some token)) l = true).
  { apply existsb_exists. exists y. split; [assumption|].
    rewrite (Hfresh y Hy). exact Hq. }
  congruence.
Qed.

End PollFacts.

(** X7. [verifyPaymentStatus] changes nothing, not even the log, and never
    answers 500; it answers 200 only when the order token finds a payment
    whose client is the requester, and then reports that payment. *)
Theorem polling_only_reads
  {N : Type} `{JsNumber N} (orderId : string) (user : User.t) (w : World N) :
  snd (verifyPaymentStatus orderId user w) = w
  /\ exists r,
       fst (verifyPaymentStatus orderId user w) = Return r
       /\ Reply.status r <> 500
       /\ (Reply.status r = 200 ->
           exists p,
             find (by_cashfreeOrderId orderId) (payments w) = Some p
             /\ Payment.clientId p = User._id user
             /\ r = status_retrieved p).
Proof.
  rewrite verifyPaymentStatus_run. split; [reflexivity|].
  eexists. split; [reflexivity|].
  destruct (find _ (payments w)) as [p|];
    [destruct (Payment.clientId p =? User._id user)%nat eqn:Hclient|];
    (split; [discriminate|]); try discriminate.
  intros _. exists p. apply Nat.eqb_eq in Hclient. now repeat split.
Qed.

(** X8. The order of a 201 can be polled by the requester under the
    [cashfreeOrderId] of the answer, and is reported as pending. Under the
    [orderId] of the answer, the gateway's [order_id], the payment is not
    found when the two differ, unless an older payment holds that token. *)
Theorem created_order_is_polled_by_gateway_id
  {N : Type} `{JsNumber N} (cfg : Config N)
  (post : Cashfree.CreateOrderRequest N -> Outcome Cashfree.CreateOrderResponse)
  (req : AuthRequest) (w : World N) (id : Id) (amount : N)
  (currency : string) (status : PaymentStatus)
  (cashfreeOrderId paymentSessionId orderId : string) :
  ids_handed_out w ->
  fst (createPaymentOrder cfg post req w)
  = Return (Res.mk 201 true "Payment order created successfully"
              (Res.OrderCreated id amount currency status cashfreeOrderId
                 paymentSessionId orderId)) ->
  let w' := snd (createPaymentOrder cfg post req w) in
  fst (verifyPaymentStatus cashfreeOrderId (req_user req) w')
  = Return (Reply.mk 200 true "Payment status retrieved"
              (Some (StatusData.mk id pending amount None (body_fileId req))))
  /\ (orderId <> cashfreeOrderId ->
      find (by_cashfreeOrderId orderId) (payments w) = None ->
      fst (verifyPaymentStatus orderId (req_user req) w')
      = Return (Reply.mk 404 false "Payment not found" None)).
Proof.
  intros Hwf Hr. cbv zeta.
  destruct (createPaymentOrder_cases cfg post req Hwf)
    as (r' & Hr' & Hcase & _).
  rewrite Hr in Hr'. injection Hr' as <-.
  destruct Hcase
    as [Hne _ | file creator amount' response
                  _ _ Hfile _ _ _ _ _ _ _ Hdup Hres Hpayments _];
    [now contradiction Hne|].
  unfold order_created in Hres.
  injection Hres as -> -> _ _ -> _ ->.
  set (p := created_payment cfg w (req_user req) file creator amount'
              (Cashfree.cf_order_id response)) in *.
  assert (Hnone : find (by_cashfreeOrderId (Cashfree.cf_order_id response))
                       (payments w) = None).
  { apply unique_token_not_found with (p := p);
      [assumption | reflexivity | apply (fresh_id_unused Hwf)]. }
  apply find_some in Hfile as [_ Hfid]. apply Nat.eqb_eq in Hfid.
  rewrite !verifyPaymentStatus_run, Hpayments. cbn [fst]. split.
  - rewrite (find_inserted _ p _ Hnone).
    unfold by_cashfreeOrderId at 1. cbn [p created_payment as_inserted
      new_payment Payment.with_cashfreeOrderId Payment.with_createdAt
      Payment.cashfreeOrderId opt_str_eqb].
    rewrite String.eqb_refl. cbn. rewrite Nat.eqb_refl.
    unfold status_retrieved, status_of. cbn. now rewrite Hfid.
  - intros Hne Hold. rewrite (find_inserted _ p _ Hold).
    unfold by_cashfreeOrderId. cbn.
    apply not_eq_sym in Hne. apply String.eqb_neq in Hne. now rewrite Hne.
Qed.

(** Ravi's order: the answer carries [cf_777] as [cashfreeOrderId] and
    [uplink_1000_1001] as [orderId]. *)
Lemma created_order_is_polled_by_gateway_id_witness :
  let w' := snd (createPaymentOrder Sample.cfg Sample.gateway_ok
                   Sample.order_request Sample.w0) in
  fst (verifyPaymentStatus "cf_777" Sample.ravi w')
  = Return (Reply.mk 200 true "Payment status retrieved"
              (Some (StatusData.mk 100 pending 500%float None 10)))
  /\ fst (verifyPaymentStatus "uplink_1000_1001" Sample.ravi w')
     = Return (Reply.mk 404 false "Payment not found" None).
Proof.
  cbv zeta.
  destruct (@created_order_is_polled_by_gateway_id float _ Sample.cfg
              Sample.gateway_ok Sample.order_request Sample.w0
              100 500%float "INR" pending "cf_777" "session_1"
              "uplink_1000_1001" ltac:(constructor) eq_refl)
    as [Hcf Hid].
  split; [exact Hcf|]. apply Hid; [discriminate | reflexivity].
Defined.

Section SettledPoll.
Context {N : Type}.
Variable cfg : Config N.
Variable reported : Id * PaymentStatus * N * option Time * Id * Id.
Variable cfOrderId : string.

(** What a poll reads of a payment, and whom it answers. *)
Definition polled (p : Payment.t N)
  : Id * PaymentStatus * N * option Time * Id * Id :=
  (Payment._id p, Payment.status p, Payment.amount p, Payment.paidAt p,
   Payment.fileId p, Payment.clientId p).

(** From the save of [handlePaymentSuccess] on, the payment found under the
    order token reads as [reported], and so does the document the handler
    holds. *)
Definition stays_polled (s : @Local N) : Prop :=
  isNew (fst s) = false
  /\ polled (fields (fst s)) = reported
  /\ by_cashfreeOrderId cfOrderId (fields (fst s)) = true
  /\ exists x,
       find (by_cashfreeOrderId cfOrderId) (payments (snd s)) = Some x
       /\ polled x = reported.

Lemma save_stays_polled : hoare stays_polled save stays_polled.
Proof.
  apply hoare_save.
  - intros d w (Hnew & _). exact Hnew.
  - intros d w HI. exact HI.
  - intros d w (Hnew & Hread & Htoken & x & Hfind & Hx) _ _ _.
    unfold stays_polled. cbn [fst snd payments set_payments] in *.
    repeat split; try assumption.
    exists (fields d). split; [|assumption].
    apply find_update_first with (x := x); try assumption.
    rewrite <- Hread in Hx. unfold polled in Hx.
    injection Hx as -> _ _ _ _ _. apply Nat.eqb_refl.
Qed.

Lemma payout_stays_polled :
  hoare stays_polled (processCreatorPayout cfg) stays_polled.
Proof.
  unfold processCreatorPayout.
  inv_steps ltac:(apply save_stays_polled) ltac:(local_leaf).
Qed.

End SettledPoll.

(** X9. After a success event that the store accepts, a poll of the
    order by the client of the payment is answered with 200 and reports
    the payment as completed, paid at the time of the event, whatever the
    payout trigger did. *)
Theorem settled_order_polls_completed
  {N : Type} `{JsNumber N} (cfg : Config N) (body : Webhook.Body)
  (d : Webhook.Data) (order : Webhook.Order) (pd : Webhook.PaymentData)
  (p : Payment.t N) (user : User.t) (w : World N) :
  Webhook.type body = Some "PAYMENT_SUCCESS_WEBHOOK" ->
  Webhook.data body = Some d ->
  Webhook.order d = Some order ->
  Webhook.payment d = Some pd ->
  find (by_cashfreeOrderId (Webhook.cf_order_id order)) (payments w) = Some p ->
  accepted w p pd ->
  User._id user = Payment.clientId p ->
  fst (verifyPaymentStatus (Webhook.cf_order_id order) user
         (snd (paymentWebhook cfg body w)))
  = Return (Reply.mk 200 true "Payment status retrieved"
              (Some (StatusData.mk (Payment._id p) completed (Payment.amount p)
                       (Some (tick w)) (Payment.fileId p)))).
Proof.
  intros Htype Hd Ho Hp Hfind Hacc Huser.
  rewrite paymentWebhook_run, (success_type_dispatch cfg body Htype), Hd.
  cbn [snd]. set (w1 := set_log w (log w ++ [received body])).
  rewrite (@success_settles N cfg d order pd p w1 Ho Hp Hfind Hacc).
  assert (Hinit : stays_polled
                    (Payment._id p, completed, Payment.amount p,
                     Some (tick w), Payment.fileId p, Payment.clientId p)
                    (Webhook.cf_order_id order)
                    (mkDoc false (settled p pd (tick w1)),
                     settled_world w1 p pd (Webhook.cf_order_id order))).
  { pose proof (proj2 (find_some _ _ Hfind)) as Hq.
    unfold stays_polled.
    cbn [fst snd isNew fields payments settled_world].
    repeat split; try (destruct p; solve [reflexivity | exact Hq]).
    exists (settled p pd (tick w1)). split; [|destruct p; reflexivity].
    apply find_update_first with (x := p); try assumption.
    - apply Nat.eqb_refl.
    - destruct p. exact Hq. }
  pose proof (@payout_stays_polled N cfg _ _ _ Hinit) as HI.
  rewrite verifyPaymentStatus_run. cbn [fst].
  unfold stays_polled in HI.
  destruct (processCreatorPayout cfg _) as [[[]|e] [d' w']];
    unfold after_payout, logger_error, logger, modify;
    cbn [snd fst payments set_log] in *;
    destruct HI as (_ & _ & _ & x & -> & Hx);
    unfold polled in Hx; injection Hx as Hid Hst Ham Hpa Hfi Hcl;
    rewrite Hcl, Huser, Nat.eqb_refl;
    unfold status_retrieved, status_of; congruence.
Qed.

(** Ravi polls his order after the success event. *)
Lemma settled_order_polls_completed_witness :
  fst (verifyPaymentStatus "cf_777" Sample.ravi
         (snd (paymentWebhook Sample.cfg Sample.success_event
                 Sample.w_pending)))
  = Return (Reply.mk 200 true "Payment status retrieved"
              (Some (StatusData.mk 100 completed 500%float (Some 1003) 10))).
Proof.
  apply (@settled_order_polls_completed float _ Sample.cfg
           Sample.success_event
           (Webhook.mkData (Some Sample.order_777) (Some Sample.paid_upi))
           Sample.order_777 Sample.paid_upi Sample.pending_payment
           Sample.ravi Sample.w_pending eq_refl eq_refl eq_refl eq_refl
           eq_refl (conj eq_refl eq_refl) eq_refl).
Defined.

(** ** The preview handlers *)

Section PreviewFacts.
Context {N : Type} `{JsNumber N}.
Variable presign : string -> nat -> Outcome string.
Implicit Types (file : File.t N) (w : World N).

Lemma preview_of_original_run (which : string) file w :
  has_object file = true ->
  preview_of_original presign which file w
  = match presign (File.s3Key file) 300 with
    | Return previewUrl =>
        (Return (Some previewUrl),
         set_log w (log w ++ [Log level_info
                                  ("Generated " ++ which ++ " preview URL for file")
                                  [show_nat (File._id file)]]))
    | Throw previewError =>
        (Return None,
         set_log w (log w ++ [Log level_warn
                                  ("Error generating " ++ which
                                   ++ " preview URL for file")
                                  [show_nat (File._id file);
                                   exn_message previewError]]))
    end.
Proof.
  intros Hobject. unfold preview_of_original. rewrite Hobject.
  unfold try_catch, bind, await, logger_info, logger_warn, logger, modify, ret.
  destruct (presign (File.s3Key file) 300); reflexivity.
Qed.


(** The answer of [getEmbeddedPreview]. *)
Definition embedded_preview file (previewUrl : string) (t : nat)
  : Reply.t (Preview.t N) :=
  Reply.mk 200 true "Embedded preview URL generated successfully"
    (Some (Preview.mk previewUrl true false true 300
             (Z.of_nat t + 300 * 1000)
             (Preview.mkFileInfo (File._id file) (File.originalName file)
                (File.price file) (Some (File.creatorId file))))).

Definition no_preview : Reply.t (Preview.t N) :=
  Reply.mk 404 false "No preview available for this file" None.



Lemma getEmbeddedPreview_run (id : Id) (user : User.t) file w :
  find (fun f => File._id f =? id)%nat (files w) = Some file ->
  negb (File.isPublic file)
  && negb (File.creatorId file =? User._id user)%nat = false ->
  has_object file = true ->
  fst (getEmbeddedPreview presign id user w)
  = Return match presign (File.s3Key file) 300 with
           | Return (String _ _ as previewUrl) =>
               embedded_preview file previewUrl (tick w)
           | _ => no_preview
           end.
Proof.
  intros Hfile Haccess Hobject.
  unfold getEmbeddedPreview, try_catch, bind at 1.
  unfold File_findById, gets. rewrite Hfile, Haccess. unfold bind at 1.
  rewrite (preview_of_original_run "embedded" file w Hobject).
  destruct (presign (File.s3Key file) 300) as [[|c url]|e]; reflexivity.
Qed.

(** The non-creator's request for a public file with a price. *)
Lemma paid_download_run (w : World N) (id : Id) (user : User.t) file
      (price : N) :
  find (fun f => File._id f =? id)%nat (files w) = Some file ->
  File.creatorId file <> User._id user ->
  File.isPublic file = true ->
  File.price file = Some price ->
  num_truthy price = true ->
  num_gtb price (num_of_Z 0) = true ->
  fst (getDownloadUrl presign id user w)
  = match find (completed_for (File._id file) (User._id user)) (payments w) with
    | Some _ => hand_out presign file
    | None =>
        Return (Res.mk 402 false "Payment required to download this file"
                  (Res.RequiresPayment (Some price)
                     (or_default (File.currency file) "INR")))
    end.
Proof.
  intros Hfile Hcreator Hpublic Hprice Htruthy Hpositive.
  apply Nat.eqb_neq in Hcreator.
  unfold getDownloadUrl, try_catch, bind, File_findById, Payment_findOne,
    gets, hand_out, await, logger_info, logger, modify.
  rewrite Hfile, Hcreator, Hpublic, Hprice, Htruthy, Hpositive.
  cbn [andb negb fst snd].
  destruct (find _ (payments w)); [|reflexivity].
  destruct (presign (File.s3Key file) 3600); reflexivity.
Qed.

End PreviewFacts.



(** X11. The embedded preview hands out the object behind the paywall. For
    a public file with a price and a requester who is not its creator and
    has no completed payment, [getDownloadUrl] answers 402, while
    [getEmbeddedPreview] answers 200 with a URL that the storage service
    signed for the same object, [file.s3Key]. *)
Theorem embedded_preview_serves_paid_object
  {N : Type} `{JsNumber N} (presign : string -> nat -> Outcome string)
  (w : World N) (id : Id) (user : User.t) (file : File.t N) (price : N)
  (previewUrl : string) :
  find (fun f => File._id f =? id)%nat (files w) = Some file ->
  File.creatorId file <> User._id user ->
  File.isPublic file = true ->
  File.price file = Some price ->
  num_truthy price = true ->
  num_gtb price (num_of_Z 0) = true ->
  find (completed_for (File._id file) (User._id user)) (payments w) = None ->
  has_object file = true ->
  presign (File.s3Key file) 300 = Return previewUrl ->
  previewUrl <> "" ->
  fst (getDownloadUrl presign id user w)
  = Return (Res.mk 402 false "Payment required to download this file"
              (Res.RequiresPayment (Some price)
                 (or_default (File.currency file) "INR")))
  /\ fst (getEmbeddedPreview presign id user w)
     = Return (embedded_preview file previewUrl (tick w)).
Proof.
  intros Hfile Hcreator Hpublic Hprice Htruthy Hpositive Hunpaid Hobject
         Hurl Hnonempty.
  split.
  - now rewrite (paid_download_run presign w id user Hfile Hcreator Hpublic
                   Hprice Htruthy Hpositive), Hunpaid.
  - assert (Haccess : negb (File.isPublic file)
                      && negb (File.creatorId file =? User._id user)%nat
                      = false) by now rewrite Hpublic.
    rewrite (getEmbeddedPreview_run presign id user w Hfile Haccess
               Hobject), Hurl.
    destruct previewUrl; [now contradiction Hnonempty | reflexivity].
Qed.

(** Ravi, who has paid nothing, asks for the poster both ways. *)
Lemma embedded_preview_serves_paid_object_witness :
  fst (getDownloadUrl Sample.presign 10 Sample.ravi Cases.w_shop)
  = Return (Res.mk 402 false "Payment required to download this file"
              (Res.RequiresPayment (Some 500%float) "INR"))
  /\ fst (getEmbeddedPreview Sample.presign 10 Sample.ravi Cases.w_shop)
     = Return (embedded_preview Sample.poster
                 "https://r2.example/files/poster.png" 1000).
Proof.
  apply (@embedded_preview_serves_paid_object float _ Sample.presign
           Cases.w_shop 10 Sample.ravi Sample.poster 500%float
           "https://r2.example/files/poster.png");
    solve [reflexivity | discriminate].
Defined.



(** ** The methods of the payment model *)

Section MethodFacts.
Context {N : Type}.
Implicit Types (p : Payment.t N) (w : World N).

(** Of the documents with pairwise different identifiers, a write under
    the identifier of [p] replaces [p] and nothing else. *)
Lemma in_update_first_nodup p p' (l : list (Payment.t N)) (y : Payment.t N) :
  NoDup (map (@Payment._id N) l) ->
  In p l ->
  In y (update_first (fun o => Payment._id o =? Payment._id p)%nat
                     (fun _ => p') l) ->
  y = p' \/ (In y l /\ y <> p).
Proof.
  induction l as [|x r IH]; cbn; [tauto|].
  intros Hnodup Hin Hy. inversion Hnodup as [|? ? Hnotin Hr]; subst.
  destruct (Payment._id x =? Payment._id p)%nat eqn:Hx.
  - apply Nat.eqb_eq in Hx.
    assert (x = p).
    { destruct Hin as [|Hin]; [assumption|]. exfalso. apply Hnotin.
      rewrite Hx. now apply in_map. }
    subst x. destruct Hy as [<-|Hy]; [now left|]. right.
    split; [now right|]. intros ->. apply Hnotin. now apply in_map.
  - apply Nat.eqb_neq in Hx.
    destruct Hy as [<-|Hy].
    + right. split; [now left|]. intros ->. now apply Hx.
    + destruct Hin as [->|Hin]; [now contradiction Hx|].
      destruct (IH Hr Hin Hy) as [->|[Hyr Hne]]; [now left|].
      right. split; [now right | assumption].
Qed.

Lemma refund_run p w :
  In p (payments w) ->
  schema_ok w ->
  with_doc (mkDoc false p) refund w
  = (Return tt,
     set_payments w
       (update_first (fun o => Payment._id o =? Payment._id p)%nat
                     (fun _ => Payment.with_status p refunded) (payments w))).
Proof.
  intros Hin Hschema.
  destruct (@schema_ok_stored N w p Hschema Hin) as [Hvalid Hdup].
  pose proof (stored_has_id p (payments w) Hin) as Hex.
  unfold with_doc, refund, bind, assign, modify. cbn.
  destruct p. cbn in *.
  rewrite save_stored_ok; cbn; try assumption; reflexivity.
Qed.

(** Another payment already holds the transaction id. *)
Lemma transaction_id_clashes p (q : Payment.t N) (l : list (Payment.t N)) :
  In q l ->
  Payment._id q <> Payment._id p ->
  Payment.transactionId q = Payment.transactionId p ->
  Payment.transactionId p <> None ->
  exists path, duplicate_key p l = Some path.
Proof.
  intros Hin Hid Htx Hsome. unfold duplicate_key.
  destruct (clashes (@Payment.cashfreeOrderId N) p l); [eexists; reflexivity|].
  destruct (clashes (@Payment.cashfreePaymentId N) p l); [eexists; reflexivity|].
  assert (Hclash : clashes (@Payment.transactionId N) p l = true).
  { unfold clashes. destruct (Payment.transactionId p) as [v|] eqn:Hv;
      [|now contradiction Hsome].
    apply existsb_exists. exists q. split; [assumption|].
    apply Nat.eqb_neq in Hid. rewrite Hid, Htx. cbn. apply String.eqb_refl. }
  rewrite Hclash. eexists; reflexivity.
Qed.

End MethodFacts.

(** X13. A refund takes the download away again. When the only completed
    payment of a client for a public, priced file is refunded with
    [refund()], the next request of that client for the file is answered
    with 402. *)
Theorem refund_revokes_download
  {N : Type} `{JsNumber N} (presign : string -> nat -> Outcome string)
  (w : World N) (id : Id) (user : User.t) (file : File.t N) (price : N)
  (p : Payment.t N) :
  find (fun f => File._id f =? id)%nat (files w) = Some file ->
  File.creatorId file <> User._id user ->
  File.isPublic file = true ->
  File.price file = Some price ->
  num_truthy price = true ->
  num_gtb price (num_of_Z 0) = true ->
  In p (payments w) ->
  schema_ok w ->
  NoDup (map (@Payment._id N) (payments w)) ->
  (forall q, In q (payments w) ->
             completed_for (File._id file) (User._id user) q = true -> q = p) ->
  fst (getDownloadUrl presign id user (snd (with_doc (mkDoc false p) refund w)))
  = Return (Res.mk 402 false "Payment required to download this file"
              (Res.RequiresPayment (Some price)
                 (or_default (File.currency file) "INR"))).
Proof.
  intros Hfile Hcreator Hpublic Hprice Htruthy Hpositive Hin Hschema Hnodup
         Honly.
  rewrite (@refund_run N p w Hin Hschema). cbn [snd].
  rewrite (paid_download_run presign (set_payments w _) id user
             Hfile Hcreator Hpublic Hprice Htruthy Hpositive).
  cbn [payments set_payments].
  rewrite find_all_false; [reflexivity|].
  intros y Hy.
  destruct (@in_update_first_nodup N p _ _ y Hnodup Hin Hy) as [->|[Hyl Hne]].
  - unfold completed_for. destruct p. cbn. now rewrite andb_false_r.
  - destruct (completed_for (File._id file) (User._id user) y) eqn:Hc;
      [|reflexivity].
    now contradiction Hne; apply Honly.
Qed.

(** Ravi's completed payment for the poster is refunded. *)
Lemma refund_revokes_download_witness :
  fst (getDownloadUrl Sample.presign 10 Sample.ravi Sample.w_settled)
  = Return (download_ok "https://r2.example/files/poster.png")
  /\ fst (getDownloadUrl Sample.presign 10 Sample.ravi
            (snd (with_doc
                    (mkDoc false Cases.settled_payment)
                    refund Sample.w_settled)))
     = Return (Res.mk 402 false "Payment required to download this file"
                 (Res.RequiresPayment (Some 500%float) "INR")).
Proof.
  split; [reflexivity|].
  apply (@refund_revokes_download float _ Sample.presign Sample.w_settled 10
           Sample.ravi
           (File.with_status Sample.poster delivered) 500%float).
  - reflexivity.
  - discriminate.
  - reflexivity.
  - reflexivity.
  - reflexivity.
  - reflexivity.
  - left. reflexivity.
  - repeat constructor.
  - repeat constructor. intros [].
  - intros q [<-|[]] _. reflexivity.
Defined.

(** X14. [markCompleted] with a transaction id that another payment
    already holds is rejected by the unique index: the call throws a
    duplicate-key error, and the payments are as before. *)
Theorem markCompleted_rejects_used_transaction_id
  {N : Type} (w : World N) (p q : Payment.t N)
  (transactionId : string) (paymentId : option string) :
  In p (payments w) ->
  valid_paymentMethod (Payment.paymentMethod p) = true ->
  In q (payments w) ->
  Payment._id q <> Payment._id p ->
  Payment.transactionId q = Some transactionId ->
  (exists path,
      fst (with_doc (mkDoc false p) (markCompleted transactionId paymentId) w)
      = Throw (DuplicateKey path))
  /\ payments (snd (with_doc (mkDoc false p)
                      (markCompleted transactionId paymentId) w))
     = payments w.
Proof.
  intros Hin Hvalid Hq Hid Htx.
  pose proof (stored_has_id p (payments w) Hin) as Hex.
  unfold with_doc, markCompleted, bind, assign, modify, lift, Date_now, ret.
  cbn.
  destruct (truthy_str paymentId); cbn;
    rewrite save_stored by reflexivity;
    destruct p; cbn in *; rewrite Hvalid, Hex; cbn;
    match goal with
    | |- context [duplicate_key ?d ?l] =>
        destruct (@transaction_id_clashes N d q l Hq Hid Htx
                    ltac:(discriminate)) as [path ->]
    end;
    (split; [eexists; reflexivity | reflexivity]).
Qed.

(** A second payment of Ravi is marked completed under the transaction id
    of his first. *)
Lemma markCompleted_rejects_used_transaction_id_witness :
  (exists path,
      fst (with_doc (mkDoc false Sample.new_pending)
             (markCompleted "txn_1" None) Sample.w_two_orders)
      = Throw (DuplicateKey path))
  /\ payments (snd (with_doc (mkDoc false Sample.new_pending)
                      (markCompleted "txn_1" None) Sample.w_two_orders))
     = payments Sample.w_two_orders.
Proof.
  apply (@markCompleted_rejects_used_transaction_id float
           Sample.w_two_orders Sample.new_pending Sample.old_completed
           "txn_1" None).
  - right. left. reflexivity.
  - reflexivity.
  - left. reflexivity.
  - discriminate.
  - reflexivity.
Defined.

(** ** The payout that goes through *)

Section PayoutCompleted.
Context {N : Type}.
Variable cfg : Config N.
Implicit Types (p : Payment.t N) (w : World N).

(** The identifiers the payout trigger draws at the clock [t]. *)
Definition payout_id_at (t : nat) : string :=
  "payout_" ++ show_nat t ++ "_" ++ show_nat (S t).

Definition transfer_id_at (t : nat) : string :=
  "transfer_" ++ show_nat (S (S t)) ++ "_" ++ show_nat (S (S (S t))).

(** The payment after a payout that started at the clock [t]. *)
Definition paid_out p (t : nat) : Payment.t N :=
  Payment.with_payoutAt
    (Payment.with_payoutTransferId
       (Payment.with_payoutId
          (Payment.with_payoutStatus p payout_completed)
          (Some (payout_id_at t)))
       (Some (transfer_id_at t)))
    (Some (S (S (S (S t))))).

Lemma existsb_id_update_first p (x : Payment.t N) (l : list (Payment.t N)) :
  Payment._id x = Payment._id p ->
  existsb (fun o => Payment._id o =? Payment._id p)%nat
          (update_first (fun o => Payment._id o =? Payment._id p)%nat
                        (fun _ => x) l)
  = existsb (fun o => Payment._id o =? Payment._id p)%nat l.
Proof.
  intros Hid. induction l as [|y r IH]; cbn; [reflexivity|].
  destruct (Payment._id y =? Payment._id p)%nat eqn:Hy; cbn.
  - now rewrite Hid, Nat.eqb_refl.
  - now rewrite Hy, IH.
Qed.

Lemma payout_goes_through w p (creator : User.t) :
  CASHFREE_CONFIGURED cfg = true ->
  find (fun u => User._id u =? Payment.creatorId p)%nat (users w) = Some creator ->
  truthy_str (User.phone creator) || truthy_str (User.upiId creator) = true ->
  In p (payments w) ->
  schema_ok w ->
  with_doc (mkDoc false p) (processCreatorPayout cfg) w
  = (Return tt,
     mkWorld
       (update_first (fun o => Payment._id o =? Payment._id p)%nat
                     (fun _ => paid_out p (tick w)) (payments w))
       (files w) (users w)
       (log w ++ [Log level_info "Initiating payout to creator"
                      [User.name creator; show_opt (User.phone creator);
                       show_opt (User.upiId creator)];
                  Log level_info "Payout completed:" [payout_id_at (tick w)]])
       (next_id w) (S (S (S (S (S (tick w))))))).
Proof.
  intros Hcfg Hcreator Hdest Hin Hschema.
  destruct (@schema_ok_stored N w p Hschema Hin) as [Hvalid Hdup].
  pose proof (stored_has_id p (payments w) Hin) as Hex.
  assert (Hnodest : negb (truthy_str (User.phone creator))
                    && negb (truthy_str (User.upiId creator)) = false).
  { now rewrite <- negb_orb, Hdest. }
  unfold with_doc, processCreatorPayout, try_catch, bind, lift, this, gets,
    assign, modify, logger_info, logger, User_findById, Date_now, Math_random.
  rewrite Hcfg. cbn. rewrite Hcreator, Hnodest. cbn.
  destruct p. cbn in *.
  rewrite save_stored_ok; cbn; try assumption; try reflexivity.
  rewrite save_stored_ok; cbn; try reflexivity.
  - unfold set_payments, paid_out, payout_id_at, transfer_id_at. cbn.
    rewrite update_first_overwrite by apply Nat.eqb_refl.
    now rewrite <- app_assoc.
  - assumption.
  - match goal with
    | |- context [update_first ?q (fun _ => ?x) ?l] =>
        etransitivity;
        [apply (@existsb_id_update_first x x l eq_refl) | exact Hex]
    end.
  - match goal with
    | |- duplicate_key ?d (update_first _ (fun _ => ?x) ?l) = None =>
        etransitivity;
        [apply (@duplicate_key_update_first N d x l eq_refl) | ]
    end.
    erewrite duplicate_key_same_keys; [exact Hdup | repeat split].
Qed.

End PayoutCompleted.

(** X15. With the gateway configured and a creator who registered a phone
    number or a UPI id, the payout trigger for a stored payment always goes
    through: the record ends with [payoutStatus = completed], a payout id
    and a transfer id drawn from the clock, and the time of the payout;
    nothing else in the store changes, and two entries are logged. *)
Theorem payout_completes
  {N : Type} (cfg : Config N) (w : World N) (p : Payment.t N) (creator : User.t) :
  CASHFREE_CONFIGURED cfg = true ->
  find (fun u => User._id u =? Payment.creatorId p)%nat (users w) = Some creator ->
  truthy_str (User.phone creator) || truthy_str (User.upiId creator) = true ->
  In p (payments w) ->
  schema_ok w ->
  with_doc (mkDoc false p) (processCreatorPayout cfg) w
  = (Return tt,
     mkWorld
       (update_first (fun o => Payment._id o =? Payment._id p)%nat
                     (fun _ => paid_out p (tick w)) (payments w))
       (files w) (users w)
       (log w ++ [Log level_info "Initiating payout to creator"
                      [User.name creator; show_opt (User.phone creator);
                       show_opt (User.upiId creator)];
                  Log level_info "Payout completed:" [payout_id_at (tick w)]])
       (next_id w) (S (S (S (S (S (tick w)))))))
  /\ Payment.payoutStatus (paid_out p (tick w)) = payout_completed
  /\ Payment.status (paid_out p (tick w)) = Payment.status p
  /\ Payment.amount (paid_out p (tick w)) = Payment.amount p
  /\ Payment.creatorShare (paid_out p (tick w)) = Payment.creatorShare p.
Proof.
  intros Hcfg Hcreator Hdest Hin Hschema.
  split; [now apply payout_goes_through|].
  destruct p; repeat split.
Qed.

(** The payout for Ravi's payment of Asha's poster. *)
Lemma payout_completes_witness :
  map (fun p : Payment.t float => (Payment.payoutStatus p, Payment.payoutId p))
      (payments (snd (with_doc (mkDoc false Sample.pending_payment)
                        (processCreatorPayout Sample.cfg) Sample.w_pending)))
  = [(payout_completed, Some "payout_1003_1004")].
Proof.
  assert (Hschema : schema_ok Sample.w_pending) by repeat constructor.
  rewrite (proj1 (@payout_completes float Sample.cfg Sample.w_pending
                    Sample.pending_payment Sample.asha eq_refl eq_refl
                    eq_refl (or_introl eq_refl) Hschema)).
  reflexivity.
Defined.

(** ** Events the webhook does not handle, and failure events *)

Lemma opt_str_eqb_neq (a : option string) (s : string) :
  a <> Some s -> opt_str_eqb a (Some s) = false.
Proof.
  intros Hne. destruct a as [x|]; [|reflexivity]. cbn.
  apply String.eqb_neq. congruence.
Qed.

(** X16. An event of any type other than the three the controller names is
    acknowledged and recorded in the log, and has no other effect. *)
Theorem other_event_types_are_only_logged
  {N : Type} (cfg : Config N) (body : Webhook.Body) (w : World N) :
  Webhook.type body <> Some "PAYMENT_SUCCESS_WEBHOOK" ->
  Webhook.type body <> Some "PAYMENT_FAILED_WEBHOOK" ->
  Webhook.type body <> Some "PAYMENT_USER_DROPPED_WEBHOOK" ->
  paymentWebhook cfg body w
  = (Return acknowledged, set_log w (log w ++ [received body])).
Proof.
  intros Hs Hf Hd. rewrite paymentWebhook_run. unfold dispatch.
  now rewrite (opt_str_eqb_neq Hs), (opt_str_eqb_neq Hf), (opt_str_eqb_neq Hd).
Qed.

(** The gateway reports a refund of Ravi's completed payment. *)
Lemma other_event_types_are_only_logged_witness :
  payments (snd (paymentWebhook Sample.cfg Cases.refund_event
                   Sample.w_settled))
  = payments Sample.w_settled.
Proof.
  rewrite (@other_event_types_are_only_logged float Sample.cfg
             Cases.refund_event Sample.w_settled);
    [reflexivity | discriminate ..].
Defined.

Section FailureFacts.
Context {N : Type}.
Implicit Types (p : Payment.t N) (w : World N).





End FailureFacts.



(** ** What every request keeps true of the store *)

Section SchemaFacts.
Context {N : Type}.
Implicit Types (p d : Payment.t N) (l : list (Payment.t N)).

Lemma duplicate_key_none d l :
  duplicate_key d l = None
  <-> clashes (@Payment.cashfreeOrderId N) d l = false
      /\ clashes (@Payment.cashfreePaymentId N) d l = false
      /\ clashes (@Payment.transactionId N) d l = false.
Proof.
  unfold duplicate_key.
  destruct (clashes (@Payment.cashfreeOrderId N) d l);
    destruct (clashes (@Payment.cashfreePaymentId N) d l);
    destruct (clashes (@Payment.transactionId N) d l);
    split; try discriminate; try tauto; intros (? & ? & ?); discriminate.
Qed.

(** The documents of [l'] are those of [l] and [d]: a stored document that
    clashed with nothing in [l], and with which [d] did not clash, clashes
    with nothing in [l']. *)
Lemma clashes_step (path : Payment.t N -> option string) d (y : Payment.t N)
      l l' :
  clashes path y l = false ->
  clashes path d l = false ->
  In y l ->
  (forall o, In o l' -> o = d \/ In o l) ->
  clashes path y l' = false.
Proof.
  intros Hy Hd Hin Hl'. unfold clashes in *.
  destruct (path y) as [v|] eqn:Hv; [|reflexivity].
  destruct (existsb _ l') eqn:Hex; [|reflexivity]. exfalso.
  apply existsb_exists in Hex as (o & Ho & Hclash).
  apply andb_prop in Hclash as [Hid Hsame].
  destruct (Hl' o Ho) as [->|Hold].
  - destruct (path d) as [u|] eqn:Hu; [|discriminate].
    assert (Hex : existsb
                    (fun o => negb (Payment._id o =? Payment._id d)%nat
                              && opt_str_eqb (path o) (Some u)) l = true).
    { apply existsb_exists. exists y. split; [assumption|].
      rewrite Hv. cbn in Hsame |- *. rewrite String.eqb_sym, Hsame, andb_true_r.
      rewrite Nat.eqb_sym. exact Hid. }
    congruence.
  - assert (Hex : existsb
                    (fun o => negb (Payment._id o =? Payment._id y)%nat
                              && opt_str_eqb (path o) (Some v)) l = true).
    { apply existsb_exists. exists o. split; [assumption|].
      now rewrite Hid, Hsame. }
    congruence.
Qed.

(** The checks of the schema, on a collection. *)
Definition passes_schema l : Prop :=
  Forall (fun p => valid_paymentMethod (Payment.paymentMethod p) = true
                   /\ duplicate_key p l = None) l.

Lemma passes_schema_step d l l' :
  passes_schema l ->
  valid_paymentMethod (Payment.paymentMethod d) = true ->
  duplicate_key d l = None ->
  duplicate_key d l' = None ->
  (forall o, In o l' -> o = d \/ In o l) ->
  passes_schema l'.
Proof.
  unfold passes_schema. rewrite !Forall_forall.
  intros Hl Hvalid Hdup Hdup' Hl' y Hy.
  destruct (Hl' y Hy) as [->|Hold]; [now split|].
  destruct (Hl y Hold) as [Hvy Hdy]. split; [assumption|].
  apply duplicate_key_none in Hdy as (H1 & H2 & H3).
  apply duplicate_key_none in Hdup as (D1 & D2 & D3).
  apply duplicate_key_none.
  repeat split; apply clashes_step with (d := d) (l := l); assumption.
Qed.

Lemma in_update_first (q : Payment.t N -> bool) d l (y : Payment.t N) :
  In y (update_first q (fun _ => d) l) -> y = d \/ In y l.
Proof.
  induction l as [|x r IH]; cbn; [tauto|].
  destruct (q x); cbn; intros [<-|Hy]; auto.
  destruct (IH Hy); auto.
Qed.

Lemma passes_schema_saved d l :
  passes_schema l ->
  valid_paymentMethod (Payment.paymentMethod d) = true ->
  duplicate_key d l = None ->
  passes_schema (update_first (fun o => Payment._id o =? Payment._id d)%nat
                              (fun _ => d) l).
Proof.
  intros Hl Hvalid Hdup.
  apply passes_schema_step with (d := d) (l := l); try assumption.
  - now rewrite duplicate_key_update_first.
  - intros o. apply in_update_first.
Qed.

Lemma passes_schema_inserted d l :
  passes_schema l ->
  valid_paymentMethod (Payment.paymentMethod d) = true ->
  duplicate_key d l = None ->
  passes_schema (l ++ [d]).
Proof.
  intros Hl Hvalid Hdup.
  apply passes_schema_step with (d := d) (l := l); try assumption.
  - now rewrite duplicate_key_inserted.
  - intros o Ho. apply in_app_iff in Ho as [Ho|[<-|[]]]; auto.
Qed.

End SchemaFacts.

(** The states in which the controllers leave a payment. *)
Definition reached_status (s : PaymentStatus) : bool :=
  match s with
  | pending | completed | failed => true
  | processing | refunded => false
  end.

(** A payment between two different users, in one of these states. *)
Definition sound_payment {N} (p : Payment.t N) : Prop :=
  Payment.clientId p <> Payment.creatorId p
  /\ reached_status (Payment.status p) = true.

(** The store as the requests keep it: identifiers handed out before and
    pairwise different, the schema checks passed, and the payments sound. *)
Definition store_ok {N} (w : World N) : Prop :=
  ids_handed_out w
  /\ NoDup (map (@Payment._id N) (payments w))
  /\ schema_ok w
  /\ Forall sound_payment (payments w).

Section StoreFacts.
Context {N : Type}.
Variable cfg : Config N.
Implicit Types (p : Payment.t N) (w : World N).

Lemma store_ok_saved d w :
  store_ok w ->
  sound_payment d ->
  valid_paymentMethod (Payment.paymentMethod d) = true ->
  duplicate_key d (payments w) = None ->
  store_ok (set_payments w
              (update_first (fun o => Payment._id o =? Payment._id d)%nat
                            (fun _ => d) (payments w))).
Proof.
  intros (Hids & Hnodup & Hschema & Hsound) Hd Hvalid Hdup.
  unfold store_ok, ids_handed_out, schema_ok in *.
  cbn [payments set_payments next_id].
  split; [|split; [|split]].
  - apply Forall_map with (f := @Payment._id N) (P := fun i => (i < next_id w)%nat).
    rewrite map_id_update_first. now apply Forall_map.
  - now rewrite map_id_update_first.
  - now apply passes_schema_saved.
  - rewrite Forall_forall in *. intros y Hy.
    destruct (in_update_first _ _ _ _ Hy) as [->|Hold]; auto.
Qed.

(** The handler holds a document that came out of a query on a store in
    order. *)
Definition holds_sound (s : @Local N) : Prop :=
  isNew (fst s) = false
  /\ store_ok (snd s)
  /\ Payment.clientId (fields (fst s)) <> Payment.creatorId (fields (fst s))
  /\ reached_status (Payment.status (fields (fst s))) = true.

Lemma save_keeps_sound : hoare holds_sound save holds_sound.
Proof.
  apply hoare_save.
  - intros d w (Hnew & _). exact Hnew.
  - intros d w HI. exact HI.
  - intros d w (Hnew & Hok & Hparties & Hstatus) Hvalid _ Hdup.
    unfold holds_sound. cbn [fst snd] in *.
    split; [exact Hnew|]. split; [|split; assumption].
    apply store_ok_saved; try assumption. now split.
Qed.

(** An assignment of the handlers, a reading of the clock or a call of the
    logger. *)
Ltac sound_leaf :=
  idtac;
  let Hnew := fresh "Hnew" in
  let Hok := fresh "Hok" in
  let Hparties := fresh "Hparties" in
  let Hstatus := fresh "Hstatus" in
  intros [[? []] ?] (Hnew & Hok & Hparties & Hstatus);
  split; [exact Hnew | split; [exact Hok | split; [exact Hparties | ]]];
  first [exact Hstatus | reflexivity].

Lemma payout_keeps_sound :
  hoare holds_sound (processCreatorPayout cfg) holds_sound.
Proof.
  unfold processCreatorPayout.
  inv_steps ltac:(apply save_keeps_sound) ltac:(sound_leaf).
Qed.

Lemma found_is_sound (q : Payment.t N -> bool) p w :
  store_ok w /\ find q (payments w) = Some p ->
  holds_sound (mkDoc false p, w).
Proof.
  intros [Hok Hfind]. split; [reflexivity|]. split; [exact Hok|].
  destruct Hok as (_ & _ & _ & Hsound). rewrite Forall_forall in Hsound.
  apply (Hsound p), (find_some _ _ Hfind).
Qed.

Lemma sound_store (d : @Doc N) w : holds_sound (d, w) -> store_ok w.
Proof. now intros (_ & Hok & _). Qed.

Ltac sound_known :=
  handler_known save_keeps_sound payout_keeps_sound found_is_sound sound_store
                (@store_ok N).

Lemma dispatch_keeps_store body : hoare store_ok (dispatch cfg body) store_ok.
Proof.
  unfold dispatch.
  repeat match goal with |- context [if ?b then _ else _] => destruct b end;
    unfold handlePaymentSuccess, handlePaymentFailure, handlePaymentDropped,
      destructure, member;
    inv_steps ltac:(sound_known) ltac:(first [world_leaf | sound_leaf]).
Qed.

Lemma paymentWebhook_keeps_store body w :
  store_ok w -> store_ok (snd (paymentWebhook cfg body w)).
Proof.
  intros Hok. rewrite paymentWebhook_run. cbn [snd].
  now apply dispatch_keeps_store.
Qed.

End StoreFacts.

Section RequestFacts.
Context {N : Type} `{JsNumber N}.
Variable cfg : Config N.
Implicit Types (p : Payment.t N) (w : World N).

Lemma store_ok_same w w' :
  payments w' = payments w ->
  (next_id w <= next_id w')%nat ->
  store_ok w -> store_ok w'.
Proof.
  intros Hp Hn (Hids & Hnodup & Hschema & Hsound).
  unfold store_ok, ids_handed_out, schema_ok in *. rewrite Hp.
  repeat split; try assumption.
  eapply Forall_impl; [|exact Hids]. cbn. intros; lia.
Qed.

Lemma createPaymentOrder_keeps_store
      (post : Cashfree.CreateOrderRequest N
              -> Outcome Cashfree.CreateOrderResponse)
      (req : AuthRequest) w :
  store_ok w -> store_ok (snd (createPaymentOrder cfg post req w)).
Proof.
  intros Hok.
  destruct (createPaymentOrder_cases cfg post req (proj1 Hok))
    as (r & _ & Hcase & _ & _ & Hnext).
  destruct Hcase
    as [_ Hsame | file creator amount response
                    _ _ _ _ _ _ _ Hown Hcreator _ Hdup _ Hpayments Hid].
  - now apply store_ok_same with (w := w).
  - destruct Hok as (Hids & Hnodup & Hschema & Hsound).
    apply find_some in Hcreator as [_ Hcid]. apply Nat.eqb_eq in Hcid.
    unfold store_ok, ids_handed_out, schema_ok in *.
    rewrite Hpayments, Hid.
    split; [|split; [|split]].
    + apply Forall_app. split.
      * eapply Forall_impl; [|exact Hids]. cbn. intros; lia.
      * repeat constructor.
    + rewrite map_app. apply NoDup_app; [assumption | repeat constructor; intros [] |].
      intros a Ha [<-|[]].
      apply (proj2 (Forall_map (@Payment._id N)
                      (fun i => (i < next_id w)%nat) _)) in Hids.
      rewrite Forall_forall in Hids. specialize (Hids _ Ha). cbn in Hids. lia.
    + apply passes_schema_inserted; [assumption | reflexivity | assumption].
    + apply Forall_app. split; [assumption|].
      repeat constructor. cbn. congruence.
Qed.

Lemma getDownloadUrl_keeps_store
      (presign : string -> nat -> Outcome string) (id : Id) (user : User.t) w :
  store_ok w -> store_ok (snd (getDownloadUrl presign id user w)).
Proof.
  destruct (getDownloadUrl_reads presign id user w) as (Hp & _ & _ & Hn & _).
  apply store_ok_same; [assumption | lia].
Qed.

Lemma getEmbeddedPreview_keeps_store
      (presign : string -> nat -> Outcome string) (id : Id) (user : User.t) :
  hoare (@store_ok N) (getEmbeddedPreview presign id user) (@store_ok N).
Proof.
  unfold getEmbeddedPreview, preview_of_original, in_five_minutes,
    File_findById.
  inv_steps ltac:(fail) ltac:(world_leaf).
Qed.

Lemma getPublicPreview_keeps_store
      (presign : string -> nat -> Outcome string) (id : Id)
      (token : option QueryValue) :
  hoare (@store_ok N) (getPublicPreview presign id token) (@store_ok N).
Proof.
  unfold getPublicPreview, preview_of_original, in_five_minutes,
    File_findById.
  inv_steps ltac:(fail) ltac:(world_leaf).
Qed.

(** A request to one of the routes of the model, with the answers the
    gateway and the storage service give while it is served. *)
Inductive Request : Type :=
| POST_create_order
    (post : Cashfree.CreateOrderRequest N
            -> Outcome Cashfree.CreateOrderResponse)
    (req : AuthRequest)
| POST_webhook (body : Webhook.Body)
| GET_verify (orderId : string) (user : User.t)
| GET_download (presign : string -> nat -> Outcome string)
               (id : Id) (user : User.t)
| GET_embed (presign : string -> nat -> Outcome string)
            (id : Id) (user : User.t)
| GET_public_preview (presign : string -> nat -> Outcome string)
                     (id : Id) (token : option QueryValue).

(** The store after a request. *)
Definition serve (w : World N) (rq : Request) : World N :=
  match rq with
  | POST_create_order post req => snd (createPaymentOrder cfg post req w)
  | POST_webhook body => snd (paymentWebhook cfg body w)
  | GET_verify orderId user => snd (verifyPaymentStatus orderId user w)
  | GET_download presign id user => snd (getDownloadUrl presign id user w)
  | GET_embed presign id user => snd (getEmbeddedPreview presign id user w)
  | GET_public_preview presign id token =>
      snd (getPublicPreview presign id token w)
  end.

Lemma serve_keeps_store w (rq : Request) :
  store_ok w -> store_ok (serve w rq).
Proof.
  intros Hok. destruct rq; cbn [serve].
  - now apply createPaymentOrder_keeps_store.
  - now apply paymentWebhook_keeps_store.
  - now rewrite verifyPaymentStatus_run.
  - now apply getDownloadUrl_keeps_store.
  - now apply getEmbeddedPreview_keeps_store.
  - now apply getPublicPreview_keeps_store.
Qed.

End RequestFacts.

(** X18. Whatever requests arrive in whatever order (orders, webhook
    events, polls, downloads, previews), and whatever the gateway and the
    storage service answer, a store that is in order stays in order: the
    payment identifiers are pairwise different and were handed out by the
    counter, every payment passes the schema (payment method of the enum,
    no two payments with the same order token, payment id or transaction
    id), no payment has its creator as client, and no payment is in state
    [processing] or [refunded]. *)
Theorem requests_keep_the_store_in_order
  {N : Type} `{JsNumber N} (cfg : Config N) (trace : list (@Request N))
  (w : World N) :
  store_ok w ->
  store_ok (fold_left (serve cfg) trace w).
Proof.
  revert w. induction trace as [|rq trace IH]; intros w Hok; cbn [fold_left].
  - exact Hok.
  - apply IH. now apply serve_keeps_store.
Qed.

(** Ravi orders the poster, polls, pays, and the gateway reports the
    success twice and then a failure. *)
Lemma requests_keep_the_store_in_order_witness :
  store_ok
    (fold_left (serve Sample.cfg)
       [POST_create_order Sample.gateway_ok Sample.order_request;
        GET_verify "cf_777" Sample.ravi;
        POST_webhook Sample.success_event;
        POST_webhook Sample.success_event;
        GET_download Sample.presign 10 Sample.ravi;
        POST_webhook Sample.failure_event]
       Sample.w0).
Proof.
  apply (@requests_keep_the_store_in_order float _ Sample.cfg).
  repeat split; constructor.
Defined.

(** ** The terms of a payment under webhook processing *)

Section TermsFacts.
Context {N : Type}.
Variable cfg : Config N.

(** Who pays whom how much for what: the members of a payment that are
    settled when the order is created. *)
Definition terms (p : Payment.t N)
  : Id * (Id * Id * Id * N * string * N * N * option string * Time) :=
  (Payment._id p,
   (Payment.fileId p, Payment.creatorId p, Payment.clientId p,
    Payment.amount p, Payment.currency p,
    Payment.platformCommission p, Payment.creatorShare p,
    Payment.creatorUpiPhone p, Payment.createdAt p)).

Lemma map_terms_update_first (x : Payment.t N) (l : list (Payment.t N)) :
  NoDup (map (@Payment._id N) l) ->
  In (terms x) (map terms l) ->
  map terms (update_first (fun o => Payment._id o =? Payment._id x)%nat
                          (fun _ => x) l)
  = map terms l.
Proof.
  induction l as [|y r IH]; cbn; [reflexivity|].
  intros Hnodup Hin. inversion Hnodup as [|? ? Hnotin Hr]; subst.
  destruct (Payment._id y =? Payment._id x)%nat eqn:Hy; cbn.
  - apply Nat.eqb_eq in Hy. f_equal.
    destruct Hin as [Heq|Hin]; [now symmetry|].
    exfalso. apply Hnotin. rewrite Hy.
    apply (in_map fst) in Hin. now rewrite map_map in Hin.
  - f_equal. apply IH; [assumption|].
    destruct Hin as [Heq|Hin]; [|assumption].
    apply Nat.eqb_neq in Hy. exfalso. apply Hy.
    now apply (f_equal fst) in Heq.
Qed.

Variable T : list (Id * (Id * Id * Id * N * string * N * N * option string * Time)).
Hypothesis T_nodup : NoDup (map fst T).

Definition terms_are (w : World N) : Prop := map terms (payments w) = T.

Definition holds_terms (s : @Local N) : Prop :=
  isNew (fst s) = false /\ terms_are (snd s)
  /\ In (terms (fields (fst s))) T.

Lemma save_keeps_terms : hoare holds_terms save holds_terms.
Proof.
  apply hoare_save.
  - intros d w (Hnew & _). exact Hnew.
  - intros d w HI. exact HI.
  - intros d w (Hnew & Hterms & Hin) _ _ _.
    unfold holds_terms, terms_are in *.
    cbn [fst snd payments set_payments] in *.
    repeat split; try assumption.
    rewrite map_terms_update_first; [assumption| |].
    + rewrite <- Hterms, map_map in T_nodup. exact T_nodup.
    + now rewrite Hterms.
Qed.

Lemma payout_keeps_terms :
  hoare holds_terms (processCreatorPayout cfg) holds_terms.
Proof.
  unfold processCreatorPayout.
  inv_steps ltac:(apply save_keeps_terms) ltac:(local_leaf).
Qed.

Lemma found_holds_terms (q : Payment.t N -> bool) (p : Payment.t N)
      (w : World N) :
  terms_are w /\ find q (payments w) = Some p ->
  holds_terms (mkDoc false p, w).
Proof.
  intros [Hterms Hfind]. repeat split; [assumption|].
  cbn [fst snd fields]. rewrite <- Hterms.
  apply in_map. apply (find_some _ _ Hfind).
Qed.

Lemma held_terms (d : @Doc N) (w : World N) :
  holds_terms (d, w) -> terms_are w.
Proof. now intros (_ & Hterms & _). Qed.

Ltac terms_known :=
  handler_known save_keeps_terms payout_keeps_terms found_holds_terms
                held_terms terms_are.

Lemma dispatch_keeps_terms body :
  hoare terms_are (dispatch cfg body) terms_are.
Proof.
  unfold dispatch.
  repeat match goal with |- context [if ?b then _ else _] => destruct b end;
    unfold handlePaymentSuccess, handlePaymentFailure, handlePaymentDropped,
      destructure, member;
    inv_steps ltac:(terms_known) ltac:(first [world_leaf | local_leaf]).
Qed.

End TermsFacts.

(** X19. No webhook event changes the terms of a payment: after any event,
    every stored payment has the file, creator, client, amount, currency,
    commission, creator share, payout phone and creation time it had
    before, and no payment was added or removed. *)
Theorem webhooks_keep_the_terms
  {N : Type} (cfg : Config N) (body : Webhook.Body) (w : World N) :
  NoDup (map (@Payment._id N) (payments w)) ->
  map terms (payments (snd (paymentWebhook cfg body w)))
  = map terms (payments w).
Proof.
  intros Hnodup. rewrite paymentWebhook_run. cbn [snd].
  apply (@dispatch_keeps_terms N cfg (map terms (payments w))).
  - now rewrite map_map.
  - reflexivity.
Qed.

(** The success event for Ravi's payment of 500, split 50 and 450. *)
Lemma webhooks_keep_the_terms_witness :
  map (fun p : Payment.t float =>
         (Payment.amount p, Payment.platformCommission p,
          Payment.creatorShare p))
      (payments (snd (paymentWebhook Sample.cfg Sample.success_event
                        Sample.w_pending)))
  = [(500%float, 50%float, 450%float)].
Proof.
  pose proof (@webhooks_keep_the_terms float Sample.cfg Sample.success_event
                Sample.w_pending ltac:(repeat constructor; intros []))
    as Hterms.
  apply (f_equal (map (fun t : Id * (Id * Id * Id * float * string * float
                                     * float * option string * Time) =>
                         match t with
                         | (_, (_, _, _, a, _, pc, cs, _, _)) => (a, pc, cs)
                         end))) in Hterms.
  rewrite !map_map in Hterms. exact Hterms.
Defined.

(** ** The shares of the split *)

Module ShareFacts.

Local Open Scope Q_scope.





End ShareFacts.



(** ** A success event that the store rejects *)

Section RejectedFacts.
Context {N : Type}.
Variable cfg : Config N.
Implicit Types (p : Payment.t N) (w : World N) (pd : Webhook.PaymentData).


End RejectedFacts.



(** ** From the payment to the download *)

Section PaidDownload.
Context {N : Type} `{JsNumber N}.
Variable cfg : Config N.
Implicit Types (p : Payment.t N) (w : World N).

Lemma find_marked (id : Id) (file : File.t N) (st : FileStatus)
      (l : list (File.t N)) :
  find (fun f => File._id f =? id)%nat l = Some file ->
  find (fun f => File._id f =? id)%nat
       (update_first (fun f => File._id f =? id)%nat
                     (fun f => File.with_status f st) l)
  = Some (File.with_status file st).
Proof.
  induction l as [|y r IH]; cbn; [discriminate|].
  destruct (File._id y =? id)%nat eqn:Hy; cbn.
  - intros [= ->]. now rewrite Hy.
  - rewrite Hy. exact IH.
Qed.

Lemma find_is_some {A} (q : A -> bool) (x : A) (l : list A) :
  In x l -> q x = true -> exists y, find q l = Some y.
Proof.
  intros Hin Hq. destruct (find q l) as [y|] eqn:Hfind; [now exists y|].
  now rewrite (find_none _ _ Hfind x Hin) in Hq.
Qed.

(** After an accepted success event the files are marked, and the payment
    under the order token is completed and still the client's payment for
    the file. *)
Lemma accepted_success_grants d order pd p w :
  Webhook.order d = Some order ->
  Webhook.payment d = Some pd ->
  find (by_cashfreeOrderId (Webhook.cf_order_id order)) (payments w) = Some p ->
  accepted w p pd ->
  let w' := snd (handlePaymentSuccess cfg (Some d) w) in
  files w'
  = update_first (fun f => File._id f =? Payment.fileId p)%nat
                 (fun f => File.with_status f delivered) (files w)
  /\ exists x,
       In x (payments w')
       /\ completed_for (Payment.fileId p) (Payment.clientId p) x = true.
Proof.
  intros Ho Hp Hfind Hacc. cbv zeta.
  rewrite (@success_settles N cfg d order pd p w Ho Hp Hfind Hacc).
  pose proof (@payout_stays_settled N cfg _ _ _
                (settled_world_settled order pd w Hfind)) as Hsettled.
  assert (Hinit : stays_polled
                    (Payment._id p, completed, Payment.amount p,
                     Some (tick w), Payment.fileId p, Payment.clientId p)
                    (Webhook.cf_order_id order)
                    (mkDoc false (settled p pd (tick w)),
                     settled_world w p pd (Webhook.cf_order_id order))).
  { pose proof (proj2 (find_some _ _ Hfind)) as Hq.
    unfold stays_polled.
    cbn [fst snd isNew fields payments settled_world].
    repeat split; try (destruct p; solve [reflexivity | exact Hq]).
    exists (settled p pd (tick w)). split; [|destruct p; reflexivity].
    apply find_update_first with (x := p); try assumption.
    - apply Nat.eqb_refl.
    - destruct p. exact Hq. }
  pose proof (@payout_stays_polled N cfg _ _ _ Hinit) as Hpolled.
  unfold stays_polled, stays_settled in *.
  destruct (processCreatorPayout cfg _) as [[[]|e] [d' w']];
    unfold after_payout, logger_error, logger, modify;
    cbn [snd fst payments files set_log] in *;
    destruct Hsettled as (_ & Hfiles & _);
    destruct Hpolled as (_ & _ & _ & x & Hx & Hread);
    (split; [exact Hfiles|]);
    exists x; (split; [apply (find_some _ _ Hx)|]);
    unfold polled in Hread; injection Hread as _ Hst _ _ Hfi Hcl;
    unfold completed_for; rewrite Hst, Hfi, Hcl, !Nat.eqb_refl; reflexivity.
Qed.

End PaidDownload.

(** X22. From the payment to the download. After a success event that the
    store accepts, the next request of the payment's client for the file of
    the payment is answered with the download URL, when that file is
    stored, public, priced and somebody else's. *)
Theorem paid_client_downloads
  {N : Type} `{JsNumber N} (cfg : Config N)
  (presign : string -> nat -> Outcome string) (body : Webhook.Body)
  (d : Webhook.Data) (order : Webhook.Order) (pd : Webhook.PaymentData)
  (p : Payment.t N) (user : User.t) (file : File.t N) (price : N)
  (w : World N) :
  Webhook.type body = Some "PAYMENT_SUCCESS_WEBHOOK" ->
  Webhook.data body = Some d ->
  Webhook.order d = Some order ->
  Webhook.payment d = Some pd ->
  find (by_cashfreeOrderId (Webhook.cf_order_id order)) (payments w) = Some p ->
  accepted w p pd ->
  User._id user = Payment.clientId p ->
  find (fun f => File._id f =? Payment.fileId p)%nat (files w) = Some file ->
  File.creatorId file <> User._id user ->
  File.isPublic file = true ->
  File.price file = Some price ->
  num_truthy price = true ->
  num_gtb price (num_of_Z 0) = true ->
  fst (getDownloadUrl presign (Payment.fileId p) user
         (snd (paymentWebhook cfg body w)))
  = hand_out presign file.
Proof.
  intros Htype Hd Ho Hp Hfind Hacc Huser Hfile Hcreator Hpublic Hprice
         Htruthy Hpositive.
  rewrite paymentWebhook_run, (success_type_dispatch cfg body Htype), Hd.
  cbn [snd]. set (w1 := set_log w (log w ++ [received body])).
  destruct (@accepted_success_grants N cfg d order pd p w1 Ho Hp Hfind Hacc)
    as (Hfiles & x & Hin & Hx).
  set (w' := snd (handlePaymentSuccess cfg (Some d) w1)) in *.
  assert (Hfile' : find (fun f => File._id f =? Payment.fileId p)%nat
                        (files w')
                   = Some (File.with_status file delivered)).
  { rewrite Hfiles. now apply find_marked. }
  rewrite (paid_download_run presign w' (Payment.fileId p) user
             (file := File.with_status file delivered) (price := price)
             Hfile');
    try (destruct file; assumption).
  assert (Hfid : File._id (File.with_status file delivered) = Payment.fileId p).
  { apply find_some in Hfile as [_ Hid]. apply Nat.eqb_eq in Hid.
    destruct file; exact Hid. }
  rewrite Hfid, Huser.
  destruct (find_is_some _ x _ Hin Hx) as [y ->].
  destruct file; reflexivity.
Qed.

(** Ravi downloads the poster after the success event for his payment. *)
Lemma paid_client_downloads_witness :
  fst (getDownloadUrl Sample.presign 10 Sample.ravi Sample.w_pending)
  = Return (Res.mk 402 false "Payment required to download this file"
              (Res.RequiresPayment (Some 500%float) "INR"))
  /\ fst (getDownloadUrl Sample.presign 10 Sample.ravi
            (snd (paymentWebhook Sample.cfg Sample.success_event
                    Sample.w_pending)))
     = Return (download_ok "https://r2.example/files/poster.png").
Proof.
  split; [reflexivity|].
  apply (@paid_client_downloads float _ Sample.cfg Sample.presign
           Sample.success_event
           (Webhook.mkData (Some Sample.order_777) (Some Sample.paid_upi))
           Sample.order_777 Sample.paid_upi Sample.pending_payment
           Sample.ravi Sample.poster 500%float Sample.w_pending);
    solve [reflexivity | discriminate | split; reflexivity].
Defined.

(** ** What the buyer is told when the gateway refuses *)

Section GatewayRefusal.
Context {N : Type} `{JsNumber N}.
Variable cfg : Config N.
Variable post : Cashfree.CreateOrderRequest N -> Outcome Cashfree.CreateOrderResponse.
Implicit Types (p : Payment.t N) (w : World N).




End GatewayRefusal.



(** ** The payout that is skipped *)

Section PayoutSkipped.
Context {N : Type}.
Variable cfg : Config N.
Implicit Types (p : Payment.t N) (w : World N).

(** The store after a payout trigger that wrote the payment once. *)
Definition payout_written w p (p' : Payment.t N) (entry : LogEntry)
  : World N :=
  mkWorld
    (update_first (fun o => Payment._id o =? Payment._id p)%nat
                  (fun _ => p') (payments w))
    (files w) (users w) (log w ++ [entry]) (next_id w) (tick w).

Lemma payout_not_configured w p :
  CASHFREE_CONFIGURED cfg = false ->
  In p (payments w) ->
  schema_ok w ->
  with_doc (mkDoc false p) (processCreatorPayout cfg) w
  = (Return tt,
     payout_written w p (Payment.with_payoutStatus p not_required)
       (Log level_warn "Cashfree not configured, skipping payout" [])).
Proof.
  intros Hcfg Hin Hschema.
  destruct (@schema_ok_stored N w p Hschema Hin) as [Hvalid Hdup].
  pose proof (stored_has_id p (payments w) Hin) as Hex.
  unfold with_doc, processCreatorPayout, try_catch, bind, lift, this, gets,
    assign, modify, logger_warn, logger, payout_written.
  rewrite Hcfg. cbn.
  destruct p. cbn in *.
  rewrite save_stored_ok; cbn; try assumption; reflexivity.
Qed.

Lemma payout_without_creator w p :
  CASHFREE_CONFIGURED cfg = true ->
  find (fun u => User._id u =? Payment.creatorId p)%nat (users w) = None ->
  In p (payments w) ->
  schema_ok w ->
  with_doc (mkDoc false p) (processCreatorPayout cfg) w
  = (Return tt,
     payout_written w p
       (Payment.with_payoutFailureReason
          (Payment.with_payoutStatus p payout_failed)
          (Some "Creator not found"))
       (Log level_error "Creator not found for payout:"
            [show_nat (Payment.creatorId p)])).
Proof.
  intros Hcfg Hcreator Hin Hschema.
  destruct (@schema_ok_stored N w p Hschema Hin) as [Hvalid Hdup].
  pose proof (stored_has_id p (payments w) Hin) as Hex.
  unfold with_doc, processCreatorPayout, try_catch, bind, lift, this, gets,
    assign, modify, logger_error, logger, User_findById, payout_written.
  rewrite Hcfg. cbn. rewrite Hcreator. cbn.
  destruct p. cbn in *.
  rewrite save_stored_ok; cbn; try assumption; reflexivity.
Qed.

End PayoutSkipped.

(** X24. On a server without gateway credentials the payout trigger marks
    the payout of a stored payment [not_required] and looks no further.
    With credentials, a payment whose creator is no longer among the users
    gets [payoutStatus = failed] with the reason "Creator not found". In
    both cases one entry is logged, and nothing else in the store
    changes. *)
Theorem payout_skipped_or_without_creator
  {N : Type} (cfg : Config N) (w : World N) (p : Payment.t N) :
  In p (payments w) ->
  schema_ok w ->
  (CASHFREE_CONFIGURED cfg = false ->
   with_doc (mkDoc false p) (processCreatorPayout cfg) w
   = (Return tt,
      payout_written w p (Payment.with_payoutStatus p not_required)
        (Log level_warn "Cashfree not configured, skipping payout" [])))
  /\ (CASHFREE_CONFIGURED cfg = true ->
      find (fun u => User._id u =? Payment.creatorId p)%nat (users w) = None ->
      with_doc (mkDoc false p) (processCreatorPayout cfg) w
      = (Return tt,
         payout_written w p
           (Payment.with_payoutFailureReason
              (Payment.with_payoutStatus p payout_failed)
              (Some "Creator not found"))
           (Log level_error "Creator not found for payout:"
                [show_nat (Payment.creatorId p)]))).
Proof.
  intros Hin Hschema. split.
  - intros Hcfg. now apply payout_not_configured.
  - intros Hcfg Hcreator. now apply payout_without_creator.
Qed.

(** The payout for a payment to an account that was deleted. *)
Lemma payout_skipped_or_without_creator_witness :
  map (fun p : Payment.t float =>
         (Payment.payoutStatus p, Payment.payoutFailureReason p))
      (payments (snd (with_doc (mkDoc false Cases.orphan_payment)
                        (processCreatorPayout Sample.cfg) Cases.w_orphan)))
  = [(payout_failed, Some "Creator not found")].
Proof.
  assert (Hschema : schema_ok Cases.w_orphan) by repeat constructor.
  rewrite (proj2 (@payout_skipped_or_without_creator float Sample.cfg
                    Cases.w_orphan Cases.orphan_payment
                    (or_introl eq_refl) Hschema) eq_refl eq_refl).
  reflexivity.
Defined.
